(** * Standard Celeration Chart: the data-to-visual pipeline of [app.js]

    A shallow embedding of the chart pipeline (series extraction, the
    logarithmic value/pixel mapping, the log-linear celeration fit, the
    per-series drawing and the pointer hit test) and the properties its
    specification states about them.

    Numbers.  A JavaScript number is modelled by [num]: a real number
    ([Fin r]) or one of the three special values [PInf], [NInf], [NaN],
    with the IEEE-754 rules for the special values (0/0 is NaN, a
    comparison with NaN is false, Math.max/Math.min propagate NaN ...).
    The arithmetic of the celeration fit ([calculateCeleration] and
    [drawCelerationLine]: the sums, the slope, the intercept, the
    logarithms and the power of ten) is binary64 arithmetic: every
    operation is the exact operation followed by the rounding [fl], to
    the nearest number of the format with ties to even, gradual
    underflow, and overflow to an infinity; [Math.log10] and
    [Math.pow] are taken as correctly rounded.  The pixel arithmetic
    (the value/pixel mapping, the pixel column of a day, the span of
    the trend segment, the distances of the hit test) is exact real
    arithmetic.  The two zeros are identified (a zero divisor counts as
    +0).  Calendar days are integers ([Z]), as the data model has
    them. *)

From Stdlib Require Import Reals Lra Lia ZArith List Bool String Ascii.
From Stdlib Require Import Zfloor Sorted Permutation DecimalString.
From stdpp Require gmap strings.
Import ListNotations.

Local Open Scope string_scope.
Local Open Scope list_scope.
Local Open Scope R_scope.

(** ** JavaScript numbers *)

Module JS.

Inductive num : Type :=
| Fin (r : R)
| PInf
| NInf
| NaN.

Definition ofZ (z : Z) : num := Fin (IZR z).
Definition ofnat (n : nat) : num := Fin (INR n).

Definition isNaN (a : num) : bool :=
  match a with NaN => true | _ => false end.

Definition isFinite (a : num) : bool :=
  match a with Fin _ => true | _ => false end.

(** Sign of a number that is not NaN: [Gt] positive, [Lt] negative,
    [Eq] zero. *)
Definition Rsign (r : R) : comparison :=
  if Rlt_dec 0 r then Gt else if Rlt_dec r 0 then Lt else Eq.

(** An infinity of the given sign; a zero sign is the invalid
    operation. *)
Definition inf_of (s : comparison) : num :=
  match s with Gt => PInf | Lt => NInf | Eq => NaN end.

Definition nneg (a : num) : num :=
  match a with
  | Fin r => Fin (- r)
  | PInf => NInf
  | NInf => PInf
  | NaN => NaN
  end.

Definition nadd (a b : num) : num :=
  match a, b with
  | NaN, _ | _, NaN => NaN
  | Fin x, Fin y => Fin (x + y)
  | PInf, NInf | NInf, PInf => NaN
  | PInf, _ | _, PInf => PInf
  | NInf, _ | _, NInf => NInf
  end.

Definition nsub (a b : num) : num := nadd a (nneg b).

Definition nmul (a b : num) : num :=
  match a, b with
  | NaN, _ | _, NaN => NaN
  | Fin x, Fin y => Fin (x * y)
  | Fin x, PInf | PInf, Fin x => inf_of (Rsign x)
  | Fin x, NInf | NInf, Fin x => inf_of (CompOpp (Rsign x))
  | PInf, PInf | NInf, NInf => PInf
  | PInf, NInf | NInf, PInf => NInf
  end.

Definition ndiv (a b : num) : num :=
  match a, b with
  | NaN, _ | _, NaN => NaN
  | Fin x, Fin y =>
      if Req_dec_T y 0 then inf_of (Rsign x) else Fin (x / y)
  | Fin _, PInf | Fin _, NInf => Fin 0
  | PInf, Fin y => if Rlt_dec y 0 then NInf else PInf
  | NInf, Fin y => if Rlt_dec y 0 then PInf else NInf
  | PInf, PInf | PInf, NInf | NInf, PInf | NInf, NInf => NaN
  end.

(** Comparisons: every comparison with NaN is false. *)
Definition nlt (a b : num) : bool :=
  match a, b with
  | NaN, _ | _, NaN => false
  | Fin x, Fin y => if Rlt_dec x y then true else false
  | _, NInf => false
  | NInf, _ => true
  | PInf, _ => false
  | _, PInf => true
  end.

Definition nle (a b : num) : bool :=
  match a, b with
  | NaN, _ | _, NaN => false
  | Fin x, Fin y => if Rle_dec x y then true else false
  | NInf, _ => true
  | _, NInf => false
  | _, PInf => true
  | PInf, _ => false
  end.

Definition ngt (a b : num) : bool := nlt b a.
Definition nge (a b : num) : bool := nle b a.

(** Strict equality [===] on numbers. *)
Definition neq (a b : num) : bool :=
  match a, b with
  | Fin x, Fin y => if Req_dec_T x y then true else false
  | PInf, PInf | NInf, NInf => true
  | _, _ => false
  end.

(** [Math.max] and [Math.min] of two arguments. *)
Definition Math_max (a b : num) : num :=
  match a, b with
  | NaN, _ | _, NaN => NaN
  | _, _ => if nlt a b then b else a
  end.

Definition Math_min (a b : num) : num :=
  match a, b with
  | NaN, _ | _, NaN => NaN
  | _, _ => if nlt b a then b else a
  end.

(** [Math.max(...l)] and [Math.min(...l)]: the empty spread gives
    -Infinity and +Infinity. *)
Definition Math_max_list (l : list num) : num := fold_right Math_max NInf l.
Definition Math_min_list (l : list num) : num := fold_right Math_min PInf l.

(** Binary64.  [bpow e] is [2^e]; the numbers of the format are the
    multiples [m * 2^(e - 52)] with [|m| < 2^53] and
    [-1022 <= e <= 1023]. *)
Definition bpow (e : Z) : R := powerRZ 2 e.

(** The exponent of the binade of [x]: [2^e <= |x| < 2^(e + 1)]. *)
Definition expo (x : R) : Z := Zfloor (ln (Rabs x) / ln 2).

(** The integer nearest to [x], the even one of two equally near. *)
Definition nearestEven (x : R) : Z :=
  let f := Zfloor x in
  if Rlt_dec (x - IZR f) (1 / 2) then f
  else if Rlt_dec (1 / 2) (x - IZR f) then (f + 1)%Z
  else if Z.even f then f else (f + 1)%Z.

(** The binary64 number a real result is rounded to: the nearest one,
    ties to even; below [2^-1022] the spacing stays [2^-1074]; a result
    that rounds to [2^1024] or beyond overflows to an infinity. *)
Definition fl (x : R) : num :=
  if Req_dec_T x 0 then Fin 0
  else
    let e := Z.max (expo x) (-1022) in
    let y := IZR (nearestEven (x / bpow (e - 52))) * bpow (e - 52) in
    if Rle_dec (bpow 1024) (Rabs y)
    then (if Rlt_dec 0 x then PInf else NInf)
    else Fin y.

(** The rounding of the result of an operation. *)
Definition round (a : num) : num :=
  match a with
  | Fin r => fl r
  | _ => a
  end.

(** The arithmetic operators with their rounding. *)
Definition fadd (a b : num) : num := round (nadd a b).
Definition fsub (a b : num) : num := round (nsub a b).
Definition fmul (a b : num) : num := round (nmul a b).
Definition fdiv (a b : num) : num := round (ndiv a b).

Definition Rlog10 (r : R) : R := ln r / ln 10.
Definition Rpow10 (r : R) : R := Rpower 10 r.

Definition Math_log10 (a : num) : num :=
  match a with
  | Fin r =>
      if Rlt_dec 0 r then Fin (Rlog10 r)
      else if Rlt_dec r 0 then NaN else NInf
  | PInf => PInf
  | NInf | NaN => NaN
  end.

(** [Math.pow(10, e)]: every call of [Math.pow] in the program has
    base 10.  A power that would round to [2^1024] overflows to
    Infinity, one of at most [2^-1075], half the least positive number,
    underflows to 0. *)
Definition Math_pow10 (e : num) : num :=
  match e with
  | Fin r =>
      if Rle_dec (bpow 1024 - bpow 970) (Rpow10 r) then PInf
      else if Rle_dec (Rpow10 r) (bpow (-1075)) then Fin 0
      else Fin (Rpow10 r)
  | PInf => PInf
  | NInf => Fin 0
  | NaN => NaN
  end.

Definition Math_sqrt (a : num) : num :=
  match a with
  | Fin r => if Rlt_dec r 0 then NaN else Fin (sqrt r)
  | PInf => PInf
  | NInf | NaN => NaN
  end.

(** [a || 0] on an optional numeric field: undefined, NaN and 0 are
    falsy. *)
Definition or_zero (a : option num) : num :=
  match a with
  | None => Fin 0
  | Some NaN => Fin 0
  | Some v => v
  end.

(** Truthiness of an optional numeric field. *)
Definition truthy (a : option num) : bool :=
  match a with
  | None | Some NaN => false
  | Some (Fin r) => if Req_dec_T r 0 then false else true
  | Some _ => true
  end.

End JS.
Import JS.

Declare Scope num_scope.
Delimit Scope num_scope with num.
Bind Scope num_scope with num.
Infix "+" := nadd : num_scope.
Infix "-" := nsub : num_scope.
Infix "*" := nmul : num_scope.
Infix "/" := ndiv : num_scope.
Infix "<?" := nlt : num_scope.
Infix "<=?" := nle : num_scope.
Infix ">?" := ngt : num_scope.
Infix ">=?" := nge : num_scope.
Infix "=?" := neq : num_scope.

(** The operators with their rounding, as the least-squares fit has
    them. *)
Infix "+!" := fadd (at level 50, left associativity) : num_scope.
Infix "-!" := fsub (at level 50, left associativity) : num_scope.
Infix "*!" := fmul (at level 40, left associativity) : num_scope.
Infix "/!" := fdiv (at level 40, left associativity) : num_scope.

(** ** Configuration *)

Module CONFIG.

Definition yMin : num := Fin (1 / 1000).
Definition yMax : num := Fin 1000.

Record Margin := { top : num; right : num; bottom : num; left : num }.
Definition margin : Margin :=
  {| top := Fin 60; right := Fin 80; bottom := Fin 60; left := Fin 80 |}.

Record ZoomLevel := {
  label : string;
  days : Z;
  weekInterval : Z;
  dayInterval : Z
}.

Definition zoom7 : ZoomLevel :=
  {| label := "1 Week"; days := 7; weekInterval := 1; dayInterval := 1 |}.
Definition zoom30 : ZoomLevel :=
  {| label := "1 Month"; days := 30; weekInterval := 1; dayInterval := 7 |}.
Definition zoom90 : ZoomLevel :=
  {| label := "3 Months"; days := 90; weekInterval := 2; dayInterval := 14 |}.
Definition zoom140 : ZoomLevel :=
  {| label := "Full"; days := 140; weekInterval := 4; dayInterval := 14 |}.

(** The [zoomLevels] object, keyed by day span. *)
Definition zoomLevels : gmap.gmap Z ZoomLevel :=
  base.insert 7%Z zoom7
    (base.insert 30%Z zoom30
       (base.insert 90%Z zoom90
          (base.insert 140%Z zoom140 base.empty))).

(** Horizontal grid lines of the log scale. *)
Definition logGridLines : list R :=
  [1/1000; 5/1000; 1/100; 5/100; 1/10; 5/10; 1; 5; 10; 50; 100; 500; 1000].

(** The major lines, each with the text [value.toString()] gives for
    it. *)
Definition majorLogLines : list (R * string) :=
  [(1/1000, "0.001"); (1/100, "0.01"); (1/10, "0.1"); (1, "1");
   (10, "10"); (100, "100"); (1000, "1000")].

Definition metricColors : gmap.gmap string string :=
  base.insert "correctPerMinute" "#22c55e"
    (base.insert "errorsPerMinute" "#ef4444"
       (base.insert "wpm" "#3b82f6"
          (base.insert "accuracy" "#a855f7"
             (base.insert "prosody" "#f59e0b" base.empty)))).

(** Colors for the students, assigned in turn. *)
Definition studentColors : list string :=
  [ "#06b6d4"; "#f59e0b"; "#a855f7"; "#ec4899";
    "#10b981"; "#6366f1"; "#f43f5e"; "#84cc16" ].

End CONFIG.

(** ** Coordinate transformations *)

Definition valueToY (value chartHeight : num) : num :=
  let value := Math_max CONFIG.yMin (Math_min CONFIG.yMax value) in
  let logMin := Math_log10 CONFIG.yMin in
  let logMax := Math_log10 CONFIG.yMax in
  let logValue := Math_log10 value in
  let normalized := ((logValue - logMin) / (logMax - logMin))%num in
  (chartHeight * (Fin 1 - normalized))%num.

Definition yToValue (y chartHeight : num) : num :=
  let logMin := Math_log10 CONFIG.yMin in
  let logMax := Math_log10 CONFIG.yMax in
  let normalized := (Fin 1 - y / chartHeight)%num in
  let logValue := (logMin + normalized * (logMax - logMin))%num in
  Math_pow10 logValue.

(** ** Data model *)

Record Celeration := {
  calendarDay : Z;
  date : string;
  correctPerMinute : option num;
  errorsPerMinute : option num;
  countingTimeMin : option num
}.

Record Performance := { wpm : option num; accuracy : option num }.

Record Prosody := { score : option num }.

Record Assessment := {
  celeration : option Celeration;
  performance : option Performance;
  prosody : option Prosody
}.

(** The [summary] of a student is display data the pipeline never
    reads; it is left out. *)
Record Student := {
  id : string;
  name : string;
  assessments : list Assessment;
  color : string
}.

Record DisplayOptions := {
  showCelerationLines : bool;
  showDataPoints : bool;
  showRecordFloor : bool;
  connectPoints : bool
}.

(** The canvas: its client size and the origin of its bounding client
    rectangle. *)
Record Canvas := {
  clientWidth : num;
  clientHeight : num;
  rect_left : num;
  rect_top : num
}.

Record State := {
  students : list Student;
  activeStudents : list string;
  activeMetrics : list string;
  displayOptions : DisplayOptions;
  zoom : Z;
  canvas : Canvas
}.

(** A point of a metric series, as [getDataPoints] builds it. *)
Record Point := {
  day : Z;
  value : num;
  p_countingTimeMin : option num;
  p_date : string;
  assessment : Assessment
}.

(** [{...p, normalizedDay}] *)
Record NPoint := {
  point : Point;
  normalizedDay : Z
}.

(** ** Zoom *)

Definition getZoomConfig (st : State) : CONFIG.ZoomLevel :=
  match base.lookup (zoom st) CONFIG.zoomLevels with
  | Some z => z
  | None =>
      match base.lookup 140%Z CONFIG.zoomLevels with
      | Some z => z
      | None => CONFIG.zoom140
      end
  end.

Definition setZoom (days : Z) (st : State) : State :=
  {| students := students st;
     activeStudents := activeStudents st;
     activeMetrics := activeMetrics st;
     displayOptions := displayOptions st;
     zoom := days;
     canvas := canvas st |}.

(** ** Series extraction *)

(** [Array.prototype.sort] with a comparator: a stable sort, as
    ECMAScript specifies it since its 2019 edition.  An element is placed
    before the first element it does not follow. *)
Fixpoint sort_insert {A} (cmp : A -> A -> Z) (x : A) (l : list A) : list A :=
  match l with
  | [] => [x]
  | y :: t =>
      if (cmp x y <=? 0)%Z then x :: y :: t
      else y :: sort_insert cmp x t
  end.

Definition Array_sort {A} (cmp : A -> A -> Z) (l : list A) : list A :=
  fold_right (sort_insert cmp) [] l.

(** The [switch] on the metric. *)
Definition metricValue (metric : string) (a : Assessment) (c : Celeration)
  : num :=
  if String.eqb metric "correctPerMinute" then or_zero (correctPerMinute c)
  else if String.eqb metric "errorsPerMinute" then or_zero (errorsPerMinute c)
  else if String.eqb metric "wpm"
  then or_zero (match performance a with Some p => wpm p | None => None end)
  else if String.eqb metric "accuracy"
  then or_zero
         (match performance a with Some p => accuracy p | None => None end)
  else if String.eqb metric "prosody"
  then (or_zero (match prosody a with Some p => score p | None => None end)
        * Fin 20)%num
  else Fin 0.

(** [.filter(a => a.celeration).map(a => ...)] on one assessment: the
    mapped point of an assessment that has celeration data, nothing
    otherwise. *)
Definition toPoint (metric : string) (a : Assessment) : list Point :=
  match celeration a with
  | None => []
  | Some c =>
      [ {| day := calendarDay c;
           value := metricValue metric a c;
           p_countingTimeMin := countingTimeMin c;
           p_date := date c;
           assessment := a |} ]
  end.

Definition getDataPoints (student : Student) (metric : string) : list Point :=
  Array_sort (fun a b => (day a - day b)%Z)
    (flat_map (toPoint metric) (assessments student)).

(** [Math.min(...dataPoints.map(p => p.day))].  The program takes it of
    nonempty series only: [drawDataSeries] returns before it on an empty
    series, and [handleMouseMove] takes 0 for one. *)
Definition minDay (dataPoints : list Point) : Z :=
  match map day dataPoints with
  | [] => 0%Z
  | d :: rest => fold_left Z.min rest d
  end.

Definition normalizedPoints (dataPoints : list Point) : list NPoint :=
  let minDay := minDay dataPoints in
  map (fun p => {| point := p; normalizedDay := (day p - minDay)%Z |})
    dataPoints.

Definition visiblePoints (dataPoints : list Point) (xMax : Z) : list NPoint :=
  filter (fun p => (normalizedDay p <=? xMax)%Z) (normalizedPoints dataPoints).

(** [(normalizedDay / xMax) * chartWidth] *)
Definition pixelX (normalizedDay xMax : Z) (chartWidth : num) : num :=
  (ofZ normalizedDay / ofZ xMax * chartWidth)%num.

(** ** Drawing operations

    The calls made on the 2D context, in order. *)

Inductive op : Type :=
| strokeStyle (c : option string)
| fillStyle (c : option string)
| lineWidth (w : num)
| globalAlpha (a : num)
| lineCap (s : string)
| font (s : string)
| textAlign (s : string)
| textBaseline (s : string)
| setLineDash (l : list num)
| beginPath
| moveTo (x y : num)
| lineTo (x y : num)
| arc (x y r a0 a1 : num)
| stroke
| fill
| fillText (s : string) (x y : num)
| clearRect (x y w h : num)
| fillRect (x y w h : num)
| save
| restore
| translate (x y : num)
| rotate (a : num).

Definition drawDot (x y radius : num) (color : option string) : list op :=
  [ beginPath; arc x y radius (Fin 0) (Fin (PI * 2));
    fillStyle color; fill;
    strokeStyle (Some "#0a1628"); lineWidth (Fin 1); stroke ].

Definition drawXMark (x y size : num) (color : option string) : list op :=
  [ strokeStyle color; lineWidth (Fin (5 / 2)); lineCap "round";
    beginPath;
    moveTo (x - size)%num (y - size)%num;
    lineTo (x + size)%num (y + size)%num;
    moveTo (x + size)%num (y - size)%num;
    lineTo (x - size)%num (y + size)%num;
    stroke ].

Definition drawQuestionMark (x y : num) (color : option string) : list op :=
  [ fillStyle color; font "bold 14px system-ui"; textAlign "center";
    textBaseline "middle"; fillText "?" x y ].

(** ** The celeration line *)

(** A point of the regression: [{x, y}]. *)
Record LogPoint := { lx : num; ly : num }.

(** [logPoints.reduce((sum, p) => sum + f(p), 0)]: the sum is rounded
    after every term. *)
Definition sumOf (f : LogPoint -> num) (l : list LogPoint) : num :=
  fold_left (fun sum p => (sum +! f p)%num) l (Fin 0).

(** The least-squares slope of [logPoints], every operation rounded. *)
Definition fitSlope (logPoints : list LogPoint) : num :=
  let n := ofnat (List.length logPoints) in
  let sumX := sumOf lx logPoints in
  let sumY := sumOf ly logPoints in
  let sumXY := sumOf (fun p => (lx p *! ly p)%num) logPoints in
  let sumX2 := sumOf (fun p => (lx p *! lx p)%num) logPoints in
  ((n *! sumXY -! sumX *! sumY) /! (n *! sumX2 -! sumX *! sumX))%num.

Definition fitIntercept (logPoints : list LogPoint) : num :=
  let n := ofnat (List.length logPoints) in
  let sumX := sumOf lx logPoints in
  let sumY := sumOf ly logPoints in
  ((sumY -! fitSlope logPoints *! sumX) /! n)%num.

(** The span of the drawn trend segment. *)
Definition extendDays (xMax : Z) : num :=
  Math_min (Fin 3) (ofZ xMax * Fin (1 / 10))%num.

Definition trendStartX (points : list NPoint) (xMax : Z) : num :=
  let minX := Math_min_list (map (fun p => ofZ (normalizedDay p)) points) in
  Math_max (Fin 0) (minX - extendDays xMax)%num.

Definition trendEndX (points : list NPoint) (xMax : Z) : num :=
  let maxX := Math_max_list (map (fun p => ofZ (normalizedDay p)) points) in
  Math_min (ofZ xMax) (maxX + extendDays xMax)%num.

Definition drawCelerationLine (points : list NPoint) (color : option string)
    (chartWidth chartHeight : num) (xMax : Z) : list op :=
  let logPoints :=
    map (fun p => {| lx := ofZ (normalizedDay p);
                     ly := round (Math_log10 (value (point p))) |}) points in
  let slope := fitSlope logPoints in
  let intercept := fitIntercept logPoints in
  let startX := trendStartX points xMax in
  let endX := trendEndX points xMax in
  let startY := round (Math_pow10 (intercept +! slope *! startX)%num) in
  let endY := round (Math_pow10 (intercept +! slope *! endX)%num) in
  [ strokeStyle color; lineWidth (Fin (3 / 2));
    setLineDash [Fin 5; Fin 5]; globalAlpha (Fin (8 / 10));
    beginPath;
    moveTo (startX / ofZ xMax * chartWidth)%num (valueToY startY chartHeight);
    lineTo (endX / ofZ xMax * chartWidth)%num (valueToY endY chartHeight);
    stroke;
    setLineDash []; globalAlpha (Fin 1) ].

(** ** One data series *)

(** The body of the [forEach] that builds the connecting path; the
    accumulator is the [started] flag and the path so far. *)
Definition connectStep (chartWidth chartHeight : num) (xMax : Z)
    (acc : bool * list op) (p : NPoint) : bool * list op :=
  let (started, path) := acc in
  if (value (point p) <=? Fin 0)%num then acc
  else
    let x := pixelX (normalizedDay p) xMax chartWidth in
    let y := valueToY (value (point p)) chartHeight in
    if negb started then (true, path ++ [moveTo x y])
    else (started, path ++ [lineTo x y]).

Definition connectPath (chartWidth chartHeight : num) (xMax : Z)
    (visible : list NPoint) : list op :=
  snd (fold_left (connectStep chartWidth chartHeight xMax) visible (false, [])).

Definition connectOps (st : State) (color : option string)
    (visible : list NPoint) (chartWidth chartHeight : num) (xMax : Z)
  : list op :=
  if connectPoints (displayOptions st) && (1 <? List.length visible)%nat then
    [ strokeStyle color; lineWidth (Fin 2); globalAlpha (Fin (7 / 10));
      beginPath ]
    ++ connectPath chartWidth chartHeight xMax visible
    ++ [ stroke; globalAlpha (Fin 1) ]
  else [].

Definition validPoints (visible : list NPoint) : list NPoint :=
  filter (fun p => (value (point p) >? Fin 0)%num) visible.

Definition celerationOps (st : State) (color : option string)
    (visible : list NPoint) (chartWidth chartHeight : num) (xMax : Z)
  : list op :=
  if showCelerationLines (displayOptions st)
     && (2 <=? List.length visible)%nat then
    if (2 <=? List.length (validPoints visible))%nat then
      drawCelerationLine (validPoints visible) color chartWidth chartHeight xMax
    else []
  else [].

Definition markerOps (metric : string) (color : option string)
    (chartWidth chartHeight : num) (xMax : Z) (p : NPoint) : list op :=
  let x := pixelX (normalizedDay p) xMax chartWidth in
  let y :=
    valueToY (if (value (point p) >? Fin 0)%num then value (point p)
              else Fin (5 / 10000)) chartHeight in
  if String.eqb metric "errorsPerMinute" then drawXMark x y (Fin 6) color
  else if (value (point p) =? Fin 0)%num then drawQuestionMark x y color
  else drawDot x y (Fin 5) color.

Definition pointOps (st : State) (metric : string) (color : option string)
    (visible : list NPoint) (chartWidth chartHeight : num) (xMax : Z)
  : list op :=
  if showDataPoints (displayOptions st) then
    flat_map (markerOps metric color chartWidth chartHeight xMax) visible
  else [].

Definition floorTick (color : option string) (chartWidth chartHeight : num)
    (xMax : Z) (p : NPoint) : list op :=
  match p_countingTimeMin (point p) with
  | Some c =>
      if truthy (Some c) && (c >? Fin 0)%num then
        let x := pixelX (normalizedDay p) xMax chartWidth in
        let floorValue := (Fin 1 / c)%num in
        let y := valueToY floorValue chartHeight in
        [ strokeStyle color; lineWidth (Fin 2); globalAlpha (Fin (5 / 10));
          beginPath;
          moveTo (x - Fin 8)%num y; lineTo (x + Fin 8)%num y;
          stroke; globalAlpha (Fin 1) ]
      else []
  | None => []
  end.

Definition floorOps (st : State) (color : option string)
    (visible : list NPoint) (chartWidth chartHeight : num) (xMax : Z)
  : list op :=
  if showRecordFloor (displayOptions st) then
    flat_map (floorTick color chartWidth chartHeight xMax) visible
  else [].

Definition drawDataSeries (st : State) (student : Student) (metric : string)
    (chartWidth chartHeight : num) (xMax : Z) : list op :=
  let color := base.lookup metric CONFIG.metricColors in
  let dataPoints := getDataPoints student metric in
  if (List.length dataPoints =? 0)%nat then []
  else
    let visible := visiblePoints dataPoints xMax in
    connectOps st color visible chartWidth chartHeight xMax
    ++ celerationOps st color visible chartWidth chartHeight xMax
    ++ pointOps st metric color visible chartWidth chartHeight xMax
    ++ floorOps st color visible chartWidth chartHeight xMax.

(** ** Grid, axes and the whole chart *)

(** [for (let i = from; i <= to; i += step) body(i)], for a positive
    [step]; [fuel] bounds the number of rounds. *)
Fixpoint forLoop (fuel : nat) (i to step : Z) (body : Z -> list op) : list op :=
  match fuel with
  | O => []
  | S fuel' =>
      if (i <=? to)%Z then body i ++ forLoop fuel' (i + step)%Z to step body
      else []
  end.

Definition digitsOf (n : Z) : string :=
  NilZero.string_of_uint (N.to_uint (Z.to_N n)).

(** [toString()] of an integer. *)
Definition Z_toString (n : Z) : string :=
  if (n <? 0)%Z then ("-" ++ digitsOf (- n))%string else digitsOf n.

(** [Math.ceil(xMax / 7)] *)
Definition maxWeeksOf (xMax : Z) : Z := (- ((- xMax) / 7))%Z.

Definition drawGrid (width height : num) (xMax : Z)
    (zoomConfig : CONFIG.ZoomLevel) : list op :=
  [ strokeStyle (Some "rgba(6, 182, 212, 0.1)"); lineWidth (Fin 1) ]
  ++ forLoop (Z.to_nat xMax + 1) 0 xMax (CONFIG.dayInterval zoomConfig)
       (fun day =>
          let x := (ofZ day / ofZ xMax * width)%num in
          [ beginPath; moveTo x (Fin 0); lineTo x height; stroke ])
  ++ [ fillStyle (Some "rgba(6, 182, 212, 0.5)"); font "10px system-ui";
       textAlign "center" ]
  ++ forLoop (Z.to_nat (maxWeeksOf xMax) + 1) 0 (maxWeeksOf xMax)
       (CONFIG.weekInterval zoomConfig)
       (fun week =>
          let x := (ofZ week * Fin 7 / ofZ xMax * width)%num in
          if (x <=? width)%num then [ fillText (Z_toString week) x (Fin (-8)) ]
          else [])
  ++ flat_map
       (fun value =>
          let y := valueToY (Fin value) height in
          let isMajor :=
            existsb (fun m => (Fin (fst m) =? Fin value)%num)
              CONFIG.majorLogLines in
          [ strokeStyle (Some (if isMajor then "rgba(6, 182, 212, 0.3)"
                               else "rgba(6, 182, 212, 0.1)"));
            lineWidth (if isMajor then Fin 1 else Fin (5 / 10));
            beginPath; moveTo (Fin 0) y; lineTo width y; stroke ])
       CONFIG.logGridLines.

Definition drawAxes (width height : num) (xMax : Z)
    (zoomConfig : CONFIG.ZoomLevel) : list op :=
  [ fillStyle (Some "#06b6d4"); font "11px system-ui"; textAlign "right";
    textBaseline "middle" ]
  ++ flat_map
       (fun m =>
          let y := valueToY (Fin (fst m)) height in
          [ fillText (snd m) (Fin (-10)) y ])
       CONFIG.majorLogLines
  ++ [ textAlign "center"; textBaseline "top" ]
  ++ forLoop (Z.to_nat xMax + 1) 0 xMax (CONFIG.dayInterval zoomConfig)
       (fun day =>
          let x := (ofZ day / ofZ xMax * width)%num in
          [ fillText (Z_toString day) x (height + Fin 10)%num ]).

Definition drawAxisLabels (width height : num) : list op :=
  [ save; fillStyle (Some "#06b6d4"); font "bold 12px system-ui";
    textAlign "center"; translate (Fin 20) (height / Fin 2)%num;
    rotate (Fin (- PI / 2)); fillText "COUNT PER MINUTE" (Fin 0) (Fin 0);
    restore;
    fillStyle (Some "#06b6d4"); font "bold 10px system-ui";
    textAlign "center";
    fillText "SUCCESSIVE CALENDAR WEEKS" (width / Fin 2)%num (Fin 20) ].

Definition findStudent (st : State) (studentId : string) : option Student :=
  find (fun s => String.eqb (id s) studentId) (students st).

Definition chartWidthOf (st : State) : num :=
  (clientWidth (canvas st) - CONFIG.left CONFIG.margin
   - CONFIG.right CONFIG.margin)%num.

Definition chartHeightOf (st : State) : num :=
  (clientHeight (canvas st) - CONFIG.top CONFIG.margin
   - CONFIG.bottom CONFIG.margin)%num.

Definition drawChart (st : State) : list op :=
  let width := clientWidth (canvas st) in
  let height := clientHeight (canvas st) in
  let zoomConfig := getZoomConfig st in
  let xMax := zoom st in
  let chartWidth := chartWidthOf st in
  let chartHeight := chartHeightOf st in
  [ clearRect (Fin 0) (Fin 0) width height;
    fillStyle (Some "#0a1628"); fillRect (Fin 0) (Fin 0) width height;
    save; translate (CONFIG.left CONFIG.margin) (CONFIG.top CONFIG.margin) ]
  ++ drawGrid chartWidth chartHeight xMax zoomConfig
  ++ drawAxes chartWidth chartHeight xMax zoomConfig
  ++ flat_map
       (fun studentId =>
          match findStudent st studentId with
          | None => []
          | Some student =>
              flat_map
                (fun metric =>
                   drawDataSeries st student metric chartWidth chartHeight xMax)
                (activeMetrics st)
          end)
       (activeStudents st)
  ++ [ restore ]
  ++ drawAxisLabels width height.

(** ** Celeration calculations *)

(** The [{day, value}] objects [updateStats] passes to
    [calculateCeleration]. *)
Record Sample := { s_day : Z; s_value : num }.

Definition calculateCeleration (dataPoints : list Sample) : num :=
  if (List.length dataPoints <? 2)%nat then Fin 1
  else
    let validPoints := filter (fun p => (s_value p >? Fin 0)%num) dataPoints in
    if (List.length validPoints <? 2)%nat then Fin 1
    else
      let logPoints :=
        map (fun p => {| lx := ofZ (s_day p);
                         ly := round (Math_log10 (s_value p)) |})
          validPoints in
      let slope := fitSlope logPoints in
      let weeklyCeleration := round (Math_pow10 (slope *! Fin 7)%num) in
      weeklyCeleration.

Fixpoint zeros (k : nat) : string :=
  match k with
  | O => ""
  | S k' => String "0" (zeros k')
  end.

(** The digit string [m] of [toFixed] with the point before its last
    [fd] digits, padded with zeros to more than [fd] digits. *)
Definition placePoint (fd : nat) (m : string) : string :=
  if (fd =? 0)%nat then m
  else
    let k := String.length m in
    let m := if (k <=? fd)%nat then (zeros (fd + 1 - k) ++ m)%string else m in
    let k := String.length m in
    (substring 0 (k - fd) m ++ "." ++ substring (k - fd) fd m)%string.

(** [Number.prototype.toFixed] on a magnitude [0 <= x < 10^21]: the
    digits of the integer nearest to [x * 10^fd], the larger one of two
    equally near. *)
Definition fixedDigits (fd : nat) (x : R) : string :=
  let n := Zfloor (x * 10 ^ fd + 1 / 2) in
  placePoint fd (digitsOf n).

Section Formatting.

(** [Number::toString] on a finite number, used by [toFixed] for the
    magnitudes from [10^21] on, where it gives exponential notation. *)
Variable Number_toString : R -> string.

Definition toFixed (fd : nat) (a : num) : string :=
  match a with
  | NaN => "NaN"
  | PInf => "Infinity"
  | NInf => "-Infinity"
  | Fin x =>
      let s := if Rlt_dec x 0 then "-" else "" in
      let x := if Rlt_dec x 0 then - x else x in
      if Rle_dec (10 ^ 21) x then (s ++ Number_toString x)%string
      else (s ++ fixedDigits fd x)%string
  end.

Definition formatCeleration (value : num) : string :=
  if negb (isFinite value) || isNaN value then "N/A"
  else if (value >=? Fin 1)%num then ("x" ++ toFixed 2 value)%string
  else ("/" ++ toFixed 2 (Fin 1 / value))%string.

(** The two celeration rows of the statistics panel. *)
Record Stats := { correctCeleration : string; errorCeleration : string }.

(** [assessments.filter(a => a.celeration && field > 0).map(...)] *)
Definition samplesOf (field : Celeration -> option num) (student : Student)
  : list Sample :=
  flat_map
    (fun a =>
       match celeration a with
       | Some c =>
           match field c with
           | Some v =>
               if (v >? Fin 0)%num
               then [ {| s_day := calendarDay c; s_value := v |} ]
               else []
           | None => []
           end
       | None => []
       end)
    (assessments student).

Definition updateStats (st : State) : option Stats :=
  if (List.length (activeStudents st) =? 0)%nat then None
  else
    match
      find (fun s => existsb (String.eqb (id s)) (activeStudents st))
        (students st)
    with
    | None => None
    | Some student =>
        let correctData := samplesOf correctPerMinute student in
        let errorData := samplesOf errorsPerMinute student in
        Some {| correctCeleration :=
                  formatCeleration (calculateCeleration correctData);
                errorCeleration :=
                  formatCeleration (calculateCeleration errorData) |}
    end.

End Formatting.

(** ** Mouse interaction *)

Record MouseEvent := { clientX : num; clientY : num }.

(** The [closestPoint] object. *)
Record Hit := {
  h_student : Student;
  h_metric : string;
  h_point : Point;
  h_x : num;
  h_y : num
}.

(** Pixel distance from the pointer [(x, y)] to [(px, py)]. *)
Definition pixelDist (x y px py : num) : num :=
  Math_sqrt ((x - px) * (x - px) + (y - py) * (y - py))%num.

(** The body of the innermost [forEach]; the accumulator is
    [(closestPoint, closestDist)]. *)
Definition hitPoint (x y chartWidth chartHeight : num) (xMax : Z)
    (student : Student) (metric : string) (minDay : Z)
    (acc : option Hit * num) (point : Point) : option Hit * num :=
  let (closestPoint, closestDist) := acc in
  if (value point <=? Fin 0)%num then acc
  else
    let normalizedDay := (day point - minDay)%Z in
    if (normalizedDay >? xMax)%Z then acc
    else
      let px := pixelX normalizedDay xMax chartWidth in
      let py := valueToY (value point) chartHeight in
      let dist := pixelDist x y px py in
      if (dist <? closestDist)%num && (dist <? Fin 20)%num then
        (Some {| h_student := student; h_metric := metric; h_point := point;
                 h_x := px; h_y := py |}, dist)
      else acc.

Definition hitMetric (x y chartWidth chartHeight : num) (xMax : Z)
    (student : Student) (acc : option Hit * num) (metric : string)
  : option Hit * num :=
  let dataPoints := getDataPoints student metric in
  let minDay := minDay dataPoints in
  fold_left (hitPoint x y chartWidth chartHeight xMax student metric minDay)
    dataPoints acc.

Definition hitStudent (st : State) (x y chartWidth chartHeight : num)
    (xMax : Z) (acc : option Hit * num) (studentId : string)
  : option Hit * num :=
  match findStudent st studentId with
  | None => acc
  | Some student =>
      fold_left (hitMetric x y chartWidth chartHeight xMax student)
        (activeMetrics st) acc
  end.

(** The pointer position relative to the plot area. *)
Definition pointerX (st : State) (e : MouseEvent) : num :=
  (clientX e - rect_left (canvas st) - CONFIG.left CONFIG.margin)%num.

Definition pointerY (st : State) (e : MouseEvent) : num :=
  (clientY e - rect_top (canvas st) - CONFIG.top CONFIG.margin)%num.

(** [handleMouseMove] up to the tooltip: the closest point it shows, or
    [None] when it hides the tooltip. *)
Definition handleMouseMove (st : State) (e : MouseEvent) : option Hit :=
  let x := pointerX st e in
  let y := pointerY st e in
  let chartWidth := chartWidthOf st in
  let chartHeight := chartHeightOf st in
  let xMax := zoom st in
  if (x <? Fin 0)%num || (x >? chartWidth)%num
     || (y <? Fin 0)%num || (y >? chartHeight)%num
  then None
  else
    fst (fold_left (hitStudent st x y chartWidth chartHeight xMax)
           (activeStudents st) (None, PInf)).

(** ** File handling and the controls *)

(** [data.student] of an exported file. *)
Record StudentInfo := { i_id : string; i_name : string }.

(** A parsed file; [student] and [assessments] may be missing. *)
Record DataFile := {
  d_student : option StudentInfo;
  d_assessments : option (list Assessment)
}.

(** [Array.prototype.findIndex], with [None] for -1. *)
Fixpoint findIndex {A} (f : A -> bool) (l : list A) : option nat :=
  match l with
  | [] => None
  | x :: t => if f x then Some O else option_map S (findIndex f t)
  end.

(** [processStudentData] as a change of the state; the refresh of the
    panels and of the chart that follows reads the new state.  [now] is
    the value of [Date.now()].  A student is exported with its [id] and
    [name]; an empty [id] is falsy. *)
Definition processStudentData (now : Z) (data : DataFile) (st : State)
  : State :=
  match d_student data, d_assessments data with
  | Some info, Some newAssessments =>
      let studentId :=
        if String.eqb (i_id info) "" then ("student-" ++ Z_toString now)%string
        else i_id info in
      match findIndex (fun s => String.eqb (id s) studentId) (students st) with
      | Some existingIndex =>
          match base.lookup existingIndex (students st) with
          | Some existing =>
              {| students :=
                   base.insert existingIndex
                     {| id := i_id info; name := i_name info;
                        assessments := newAssessments;
                        color := color existing |}
                     (students st);
                 activeStudents := activeStudents st;
                 activeMetrics := activeMetrics st;
                 displayOptions := displayOptions st;
                 zoom := zoom st;
                 canvas := canvas st |}
          | None => st
          end
      | None =>
          let colorIndex :=
            (List.length (students st)
             mod List.length CONFIG.studentColors)%nat in
          {| students :=
               students st
               ++ [ {| id := i_id info; name := i_name info;
                       assessments := newAssessments;
                       color := nth colorIndex CONFIG.studentColors "" |} ];
             activeStudents := activeStudents st ++ [studentId];
             activeMetrics := activeMetrics st;
             displayOptions := displayOptions st;
             zoom := zoom st;
             canvas := canvas st |}
      end
  | _, _ => st
  end.

(** The click on the item of student [id0] in the list: it toggles the
    selection. *)
Definition studentItemClick (id0 : string) (st : State) : State :=
  {| students := students st;
     activeStudents :=
       if existsb (String.eqb id0) (activeStudents st)
       then filter (fun s => negb (String.eqb s id0)) (activeStudents st)
       else activeStudents st ++ [id0];
     activeMetrics := activeMetrics st;
     displayOptions := displayOptions st;
     zoom := zoom st;
     canvas := canvas st |}.

(** The click on the remove button of student [id0]. *)
Definition removeButtonClick (id0 : string) (st : State) : State :=
  {| students := filter (fun s => negb (String.eqb (id s) id0)) (students st);
     activeStudents :=
       filter (fun s => negb (String.eqb s id0)) (activeStudents st);
     activeMetrics := activeMetrics st;
     displayOptions := displayOptions st;
     zoom := zoom st;
     canvas := canvas st |}.

(** The change of the checkbox of [metric]. *)
Definition metricCheckboxChange (metric : string) (checked : bool)
    (st : State) : State :=
  {| students := students st;
     activeStudents := activeStudents st;
     activeMetrics :=
       if checked then
         if negb (existsb (String.eqb metric) (activeMetrics st))
         then activeMetrics st ++ [metric]
         else activeMetrics st
       else filter (fun m => negb (String.eqb m metric)) (activeMetrics st);
     displayOptions := displayOptions st;
     zoom := zoom st;
     canvas := canvas st |}.

(** ** Utilities *)

(** The replacement of one character by [escapeHtml]. *)
Definition escapeChar (c : ascii) : string :=
  if Ascii.eqb c "&" then "&amp;"
  else if Ascii.eqb c "<" then "&lt;"
  else if Ascii.eqb c ">" then "&gt;"
  else if Ascii.eqb c (ascii_of_nat 34) then "&quot;"
  else if Ascii.eqb c "'" then "&#39;"
  else String c "".

(** [escapeHtml]: the empty string is falsy and gives the empty
    string. *)
Fixpoint escapeHtml (str : string) : string :=
  match str with
  | EmptyString => ""
  | String c rest => (escapeChar c ++ escapeHtml rest)%string
  end.

(** * Vocabulary of the properties

    Definitions the statements below are written with; none of them is
    part of the program. *)

(** ** The value/pixel mapping *)

(** The value [valueToY] takes the logarithm of. *)
Definition clamp (value : num) : num :=
  Math_max CONFIG.yMin (Math_min CONFIG.yMax value).

(** ** Sorting *)

(** The order of the sort: ascending by key. *)
Definition keyLe {A} (key : A -> Z) (a b : A) : Prop := (key a <= key b)%Z.

(** ** The least-squares fit *)

(** The real number a finite [num] holds. *)
Definition Rval (a : num) : R :=
  match a with Fin r => r | _ => 0 end.

(** The regression points [calculateCeleration] builds. *)
Definition logPointsOf (validPoints : list Sample) : list LogPoint :=
  map (fun p => {| lx := ofZ (s_day p);
                   ly := round (Math_log10 (s_value p)) |})
    validPoints.

(** The points [calculateCeleration] keeps. *)
Definition positivePoints (dataPoints : list Sample) : list Sample :=
  filter (fun p => (s_value p >? Fin 0)%num) dataPoints.

(** The sum of integers. *)
Definition Zsum {A} (f : A -> Z) (l : list A) : Z :=
  fold_right (fun p acc => (f p + acc)%Z) 0%Z l.

(** The largest relative error of one rounding in the normal range:
    half the spacing of the numbers in [[1, 2)]. *)
Definition eps : R := bpow (-53).

(** [r] is [c] up to a relative error of [k] times [eps]. *)
Definition near (k c r : R) : Prop :=
  c * (1 - k * eps) <= r <= c * (1 + k * eps).

(** A value counts as positive: the test [value > 0] written by cases. *)
Definition positiveValue (a : num) : bool :=
  match a with
  | Fin r => if Rlt_dec 0 r then true else false
  | PInf => true
  | NInf | NaN => false
  end.

(** The regression points [drawCelerationLine] builds. *)
Definition trendLogPoints (points : list NPoint) : list LogPoint :=
  map (fun p => {| lx := ofZ (normalizedDay p);
                   ly := round (Math_log10 (value (point p))) |}) points.

(** ** The connecting line *)

(** The pixel of a point on the connecting line. *)
Definition vertexOf (chartWidth chartHeight : num) (xMax : Z) (p : NPoint)
  : num * num :=
  (pixelX (normalizedDay p) xMax chartWidth,
   valueToY (value (point p)) chartHeight).

(** One open path through the vertices: a [moveTo] to the first, a
    [lineTo] to each of the others. *)
Definition pathThrough (vertices : list (num * num)) : list op :=
  match vertices with
  | [] => []
  | v :: rest =>
      moveTo (fst v) (snd v) :: map (fun w => lineTo (fst w) (snd w)) rest
  end.

(** The points the connecting [forEach] does not skip. *)
Definition linePoints (visible : list NPoint) : list NPoint :=
  filter (fun p => negb (value (point p) <=? Fin 0)%num) visible.

(** ** The hit test *)

(** What [hitPoint] does with a point it does not skip. *)
Definition hitStep (x y : num) (acc : option Hit * num) (h : Hit)
  : option Hit * num :=
  let dist := pixelDist x y (h_x h) (h_y h) in
  if (dist <? snd acc)%num && (dist <? Fin 20)%num then (Some h, dist)
  else acc.

(** The points [handleMouseMove] does not skip, in iteration order,
    each at the pixel it computes for it. *)
Definition pointCandidate (chartWidth chartHeight : num) (xMax : Z)
    (student : Student) (metric : string) (minDay : Z) (point : Point)
  : list Hit :=
  if (value point <=? Fin 0)%num then []
  else if (day point - minDay >? xMax)%Z then []
  else [ {| h_student := student; h_metric := metric; h_point := point;
            h_x := pixelX (day point - minDay) xMax chartWidth;
            h_y := valueToY (value point) chartHeight |} ].

Definition metricCandidates (chartWidth chartHeight : num) (xMax : Z)
    (student : Student) (metric : string) : list Hit :=
  let dataPoints := getDataPoints student metric in
  flat_map (pointCandidate chartWidth chartHeight xMax student metric
              (minDay dataPoints)) dataPoints.

Definition candidates (st : State) (chartWidth chartHeight : num) (xMax : Z)
  : list Hit :=
  flat_map
    (fun studentId =>
       match findStudent st studentId with
       | None => []
       | Some student =>
           flat_map (metricCandidates chartWidth chartHeight xMax student)
             (activeMetrics st)
       end)
    (activeStudents st).

(** The pointer lies outside the plot area. *)
Definition outsidePlot (st : State) (e : MouseEvent) : bool :=
  (pointerX st e <? Fin 0)%num || (pointerX st e >? chartWidthOf st)%num
  || (pointerY st e <? Fin 0)%num || (pointerY st e >? chartHeightOf st)%num.

(** The candidate the composer's marker of a visible point gives. *)
Definition hitOf (chartWidth chartHeight : num) (xMax : Z)
    (student : Student) (metric : string) (p : NPoint) : Hit :=
  {| h_student := student; h_metric := metric; h_point := point p;
     h_x := fst (vertexOf chartWidth chartHeight xMax p);
     h_y := snd (vertexOf chartWidth chartHeight xMax p) |}.

(** The distance of a candidate from the pointer [(x, y)]. *)
Definition hitDist (x y : num) (h : Hit) : num :=
  pixelDist x y (h_x h) (h_y h).

(** What the scan knows after the candidates [seen]. *)
Definition scanned (x y : num) (seen : list Hit) (acc : option Hit * num)
  : Prop :=
  match fst acc with
  | None =>
      snd acc = PInf
      /\ forall h, In h seen -> (hitDist x y h <? Fin 20)%num = false
  | Some h =>
      snd acc = hitDist x y h
      /\ (hitDist x y h <? Fin 20)%num = true
      /\ exists pre post,
          seen = pre ++ h :: post
          /\ (forall h', In h' pre -> (hitDist x y h' <? Fin 20)%num = true ->
                         (hitDist x y h <? hitDist x y h')%num = true)
          /\ (forall h', In h' post -> (hitDist x y h' <? Fin 20)%num = true ->
                         (hitDist x y h' <? hitDist x y h)%num = false)
  end.

(** ** The dots of a chart *)

Definition isArc (o : op) : bool :=
  match o with arc _ _ _ _ _ => true | _ => false end.

(** The number of dots drawn. *)
Definition countArcs (ops : list op) : nat := List.length (filter isArc ops).

(** ** Example data *)

(** An assessment on day [d] with [correct] correct per minute. *)
Definition assessmentOf (d : Z) (correct : num) : Assessment :=
  {| celeration :=
       Some {| calendarDay := d; date := "";
               correctPerMinute := Some correct;
               errorsPerMinute := None;
               countingTimeMin := None |};
     performance := None;
     prosody := None |}.

Definition studentOf (series : list (Z * num)) : Student :=
  {| id := "s1"; name := "Ada";
     assessments := map (fun dv => assessmentOf (fst dv) (snd dv)) series;
     color := "#06b6d4" |}.

(** The state of the dashboard after one student was loaded, with the
    display options and metrics it starts with, on a 960 x 720 canvas. *)
Definition stateOf (student : Student) (zoomDays : Z) : State :=
  {| students := [student];
     activeStudents := [id student];
     activeMetrics := ["correctPerMinute"; "errorsPerMinute"];
     displayOptions :=
       {| showCelerationLines := true; showDataPoints := true;
          showRecordFloor := false; connectPoints := true |};
     zoom := zoomDays;
     canvas := {| clientWidth := Fin 960; clientHeight := Fin 720;
                  rect_left := Fin 0; rect_top := Fin 0 |} |}.

(** Normalized days 0, 5 and 12. *)
Definition clippedStudent : Student :=
  studentOf [ (10%Z, Fin 2); (15%Z, Fin 4); (22%Z, Fin 8) ].

(** A value 0 between two positive values. *)
Definition gapStudent : Student :=
  studentOf [ (0%Z, Fin 2); (1%Z, Fin 0); (2%Z, Fin 4) ].

(** A single assessment with value 0. *)
Definition zeroStudent : Student := studentOf [ (0%Z, Fin 0) ].

(** Assessments out of order, two of them on day 3 and two on day 5. *)
Definition tiedStudent : Student :=
  studentOf [ (5%Z, Fin 1); (3%Z, Fin 2); (5%Z, Fin 3); (3%Z, Fin 4) ].

(** Two assessments 100 days apart. *)
Definition spanStudent : Student :=
  studentOf [ (0%Z, Fin 5); (100%Z, Fin 6) ].

(** The pixel row of the first point of [clippedStudent] (value 2) on a
    plot 600 px high. *)
Definition firstPixelY : R := 600 * (1 - (Rlog10 2 + 3) / 6).

(** The student of the scenario of the specification. *)
Definition scenarioStudent : Student :=
  studentOf [ (10%Z, Fin 2); (17%Z, Fin 4); (24%Z, Fin 8) ].

(** The scenario of the specification: days 10, 17, 24 with 2, 4 and 8
    correct per minute. *)
Definition scenarioSamples : list Sample :=
  [ {| s_day := 10; s_value := Fin 2 |};
    {| s_day := 17; s_value := Fin 4 |};
    {| s_day := 24; s_value := Fin 8 |} ].

(** A series of one point. *)
Definition singleSample : list Sample :=
  [ {| s_day := 10; s_value := Fin 5 |} ].

(** Two points on one day. *)
Definition sameDaySamples : list Sample :=
  [ {| s_day := 3; s_value := Fin 2 |}; {| s_day := 3; s_value := Fin 4 |} ].

(** Two points a week apart on the line [10^((x - 10^8) / 7)], of
    weekly celeration 10, on calendar days near [10^8]. *)
Definition lateSamples : list Sample :=
  [ {| s_day := 100000000; s_value := Fin 1 |};
    {| s_day := 100000007; s_value := Fin 10 |} ].

(** The student with those two assessments. *)
Definition lateStudent : Student :=
  studentOf [ (100000000%Z, Fin 1); (100000007%Z, Fin 10) ].

(** Three points on the line [10^x]: a factor 10 a day. *)
Definition decadeSamples : list Sample :=
  [ {| s_day := 0; s_value := Fin 1 |};
    {| s_day := 1; s_value := Fin 10 |};
    {| s_day := 2; s_value := Fin 100 |} ].

(** A positive value and a zero: one point for the trend line. *)
Definition lonePositiveStudent : Student :=
  studentOf [ (0%Z, Fin 2); (3%Z, Fin 0) ].

(** ** Further vocabulary *)

(** The metric is one of the five the [switch] of [getDataPoints]
    knows. *)
Definition knownMetric (metric : string) : bool :=
  String.eqb metric "correctPerMinute" || String.eqb metric "errorsPerMinute"
  || String.eqb metric "wpm" || String.eqb metric "accuracy"
  || String.eqb metric "prosody".

(** Two assessments on one day. *)
Definition sameDayStudent : Student :=
  studentOf [ (3%Z, Fin 2); (3%Z, Fin 4) ].

(** The roster and the selection fit: no two students of the roster
    have one id, no id is selected twice, and every selected id is the
    id of a student of the roster. *)
Definition consistent (st : State) : Prop :=
  NoDup (map id (students st))
  /\ NoDup (activeStudents st)
  /\ incl (activeStudents st) (map id (students st)).

(** The dashboard before a file is loaded. *)
Definition initialState (cv : Canvas) : State :=
  {| students := [];
     activeStudents := [];
     activeMetrics := ["correctPerMinute"; "errorsPerMinute"];
     displayOptions :=
       {| showCelerationLines := true; showDataPoints := true;
          showRecordFloor := false; connectPoints := true |};
     zoom := 7;
     canvas := cv |}.

(** The file of a student as the analyzer exports it. *)
Definition fileOf (student : Student) : DataFile :=
  {| d_student := Some {| i_id := id student; i_name := name student |};
     d_assessments := Some (assessments student) |}.

(** The characters that open or close a tag or an attribute value. *)
Definition isMarkup (c : ascii) : bool :=
  Ascii.eqb c "<" || Ascii.eqb c ">" || Ascii.eqb c (ascii_of_nat 34)
  || Ascii.eqb c "'".

(** The characters [escapeHtml] replaces. *)
Definition isSpecial (c : ascii) : bool := Ascii.eqb c "&" || isMarkup c.

(** * Properties *)

(** ** Numbers *)

Ltac destr_dec :=
  repeat match goal with
    | |- context [Rlt_dec ?a ?b] => destruct (Rlt_dec a b)
    | |- context [Rle_dec ?a ?b] => destruct (Rle_dec a b)
    | |- context [Req_dec_T ?a ?b] => destruct (Req_dec_T a b)
    | H : context [Rlt_dec ?a ?b] |- _ => destruct (Rlt_dec a b)
    | H : context [Rle_dec ?a ?b] |- _ => destruct (Rle_dec a b)
    | H : context [Req_dec_T ?a ?b] |- _ => destruct (Req_dec_T a b)
    end.

(** Decides a comparison of concrete numbers. *)
Ltac num_cmp :=
  cbv [nlt nle ngt nge neq Math_max Math_min Rsign inf_of CompOpp
       CONFIG.yMin CONFIG.yMax];
  destr_dec; try reflexivity; try discriminate; try lra.

Lemma nlt_Fin (a b : R) : (Fin a <? Fin b)%num = true <-> a < b.
Proof. simpl. destr_dec; split; intros; try discriminate; auto; lra. Qed.

Lemma nle_Fin (a b : R) : (Fin a <=? Fin b)%num = true <-> a <= b.
Proof. simpl. destr_dec; split; intros; try discriminate; auto; lra. Qed.

Lemma nlt_Fin_false (a b : R) : (Fin a <? Fin b)%num = false <-> b <= a.
Proof. simpl. destr_dec; split; intros; try discriminate; auto; lra. Qed.

Lemma nle_Fin_false (a b : R) : (Fin a <=? Fin b)%num = false <-> b < a.
Proof. simpl. destr_dec; split; intros; try discriminate; auto; lra. Qed.

Lemma ndiv_Fin (a b : R) : b <> 0 -> (Fin a / Fin b)%num = Fin (a / b).
Proof. intros Hb. simpl. destr_dec; [contradiction | reflexivity]. Qed.

Lemma nlt_irrefl (a : num) : (a <? a)%num = false.
Proof. destruct a; simpl; auto. destr_dec; auto; lra. Qed.

Lemma nlt_trans (a b c : num) :
  (a <? b)%num = true -> (b <? c)%num = true -> (a <? c)%num = true.
Proof.
  destruct a, b, c; simpl; intros; try discriminate; auto.
  destr_dec; auto; try discriminate; lra.
Qed.

Lemma ln10_pos : 0 < ln 10.
Proof. rewrite <- ln_1. apply ln_increasing; lra. Qed.

Lemma Rlog10_pow10 (x : R) : Rlog10 (Rpow10 x) = x.
Proof.
  unfold Rlog10, Rpow10, Rpower. rewrite ln_exp.
  field. pose proof ln10_pos; lra.
Qed.

Lemma Rpow10_log10 (x : R) : 0 < x -> Rpow10 (Rlog10 x) = x.
Proof.
  intros Hx. unfold Rlog10, Rpow10, Rpower.
  replace (ln x / ln 10 * ln 10) with (ln x)
    by (field; pose proof ln10_pos; lra).
  now apply exp_ln.
Qed.

Lemma Rpow10_pos (x : R) : 0 < Rpow10 x.
Proof. apply exp_pos. Qed.

Lemma Rlog10_mult (a b : R) :
  0 < a -> 0 < b -> Rlog10 (a * b) = Rlog10 a + Rlog10 b.
Proof.
  intros Ha Hb. unfold Rlog10. rewrite ln_mult by assumption.
  field. pose proof ln10_pos; lra.
Qed.

Lemma Rlog10_10 : Rlog10 10 = 1.
Proof. unfold Rlog10. field. pose proof ln10_pos; lra. Qed.

Lemma Rlog10_1 : Rlog10 1 = 0.
Proof. unfold Rlog10. rewrite ln_1. field. pose proof ln10_pos; lra. Qed.

Lemma Rlog10_1000 : Rlog10 1000 = 3.
Proof.
  replace 1000 with (10 * (10 * 10)) by lra.
  rewrite !Rlog10_mult, Rlog10_10 by lra. lra.
Qed.

Lemma Rlog10_inv (a : R) : 0 < a -> Rlog10 (1 / a) = - Rlog10 a.
Proof.
  intros Ha.
  assert (H : Rlog10 (a * (1 / a)) = 0).
  { replace (a * (1 / a)) with 1 by (field; lra). apply Rlog10_1. }
  rewrite Rlog10_mult in H; try lra.
  apply Rdiv_lt_0_compat; lra.
Qed.

Lemma Rlog10_yMin : Rlog10 (1 / 1000) = -3.
Proof. rewrite Rlog10_inv by lra. rewrite Rlog10_1000. lra. Qed.

Lemma Rlog10_le (a b : R) : 0 < a -> a <= b -> Rlog10 a <= Rlog10 b.
Proof.
  intros Ha Hab. unfold Rlog10.
  apply Rmult_le_compat_r.
  - left. apply Rinv_0_lt_compat, ln10_pos.
  - destruct Hab as [Hlt | ->]; [left; apply ln_increasing; lra | lra].
Qed.

Lemma Rlog10_lt (a b : R) : 0 < a -> a < b -> Rlog10 a < Rlog10 b.
Proof.
  intros Ha Hab. unfold Rlog10.
  apply Rmult_lt_compat_r.
  - apply Rinv_0_lt_compat, ln10_pos.
  - apply ln_increasing; lra.
Qed.

(** ** Binary64 rounding *)

Lemma bpow_pos (e : Z) : 0 < bpow e.
Proof. apply powerRZ_lt. lra. Qed.

Lemma bpow_add (a b : Z) : bpow (a + b) = bpow a * bpow b.
Proof. apply powerRZ_add. lra. Qed.

Lemma bpow_0 : bpow 0 = 1.
Proof. reflexivity. Qed.

Lemma bpow_1 : bpow 1 = 2.
Proof. unfold bpow. simpl. lra. Qed.

Lemma bpow_m1 : bpow (-1) = 1 / 2.
Proof. unfold bpow. simpl. lra. Qed.

Lemma bpow_succ (e : Z) : bpow (e + 1) = 2 * bpow e.
Proof. rewrite bpow_add, bpow_1. lra. Qed.

Lemma bpow_pred (e : Z) : bpow (e - 1) = bpow e / 2.
Proof.
  replace (e - 1)%Z with (e + -1)%Z by lia.
  rewrite bpow_add, bpow_m1. lra.
Qed.

Lemma bpow_Rpower (e : Z) : bpow e = Rpower 2 (IZR e).
Proof. apply powerRZ_Rpower. lra. Qed.

Lemma bpow_lt (a b : Z) : (a < b)%Z -> bpow a < bpow b.
Proof.
  intros H. rewrite !bpow_Rpower. apply Rpower_lt; [lra |].
  now apply IZR_lt.
Qed.

Lemma bpow_le (a b : Z) : (a <= b)%Z -> bpow a <= bpow b.
Proof.
  intros H. rewrite !bpow_Rpower. apply Rle_Rpower; [lra |].
  now apply IZR_le.
Qed.

Lemma bpow_lt_inv (a b : Z) : bpow a < bpow b -> (a < b)%Z.
Proof.
  intros H. destruct (Z_lt_le_dec a b) as [|Hle]; [assumption |].
  apply bpow_le in Hle. lra.
Qed.

Lemma bpow_IZR (k : Z) : (0 <= k)%Z -> bpow k = IZR (2 ^ k).
Proof.
  intros Hk. unfold bpow.
  rewrite <- (Z2Nat.id k Hk) at 1. rewrite <- pow_powerRZ.
  rewrite <- (Z2Nat.id k Hk) at 2.
  rewrite <- Zpower_nat_Z. generalize (Z.to_nat k). intros n.
  induction n as [| n IH]; [reflexivity |].
  rewrite Zpower_nat_succ_r, mult_IZR, <- IH. simpl. reflexivity.
Qed.

Lemma ln2_pos : 0 < ln 2.
Proof. rewrite <- ln_1. apply ln_increasing; lra. Qed.

(** The exponent [expo x] is the one of the binade of [x]. *)
Lemma expo_spec (x : R) :
  x <> 0 -> bpow (expo x) <= Rabs x < bpow (expo x + 1).
Proof.
  intros Hx. pose proof ln2_pos as H2.
  assert (Ha : 0 < Rabs x) by now apply Rabs_pos_lt.
  unfold expo. set (t := ln (Rabs x) / ln 2).
  pose proof (Zfloor_bound t) as [Hlo Hhi].
  assert (E : Rpower 2 t = Rabs x).
  { unfold Rpower, t. replace (ln (Rabs x) / ln 2 * ln 2) with (ln (Rabs x))
      by (field; lra).
    now rewrite exp_ln. }
  rewrite !bpow_Rpower, plus_IZR, <- E. split.
  - apply Rle_Rpower; lra.
  - apply Rpower_lt; lra.
Qed.

Lemma expo_unique (x : R) (e : Z) :
  bpow e <= Rabs x < bpow (e + 1) -> expo x = e.
Proof.
  intros [Hlo Hhi].
  assert (Hx : x <> 0).
  { intros ->. rewrite Rabs_R0 in Hlo. pose proof (bpow_pos e). lra. }
  destruct (expo_spec x Hx) as [Hlo' Hhi'].
  assert (H1 : (e < expo x + 1)%Z) by (apply bpow_lt_inv; lra).
  assert (H2 : (expo x < e + 1)%Z) by (apply bpow_lt_inv; lra).
  lia.
Qed.

Lemma nearestEven_IZR (z : Z) : nearestEven (IZR z) = z.
Proof.
  unfold nearestEven. rewrite ZfloorZ.
  destruct (Rlt_dec (IZR z - IZR z) (1 / 2)); [reflexivity | lra].
Qed.

Lemma nearestEven_error (x : R) : Rabs (IZR (nearestEven x) - x) <= 1 / 2.
Proof.
  unfold nearestEven. pose proof (Zfloor_bound x) as [Hlo Hhi].
  destruct (Rlt_dec (x - IZR (Zfloor x)) (1 / 2)) as [H1 | H1].
  - apply Rabs_le. lra.
  - destruct (Rlt_dec (1 / 2) (x - IZR (Zfloor x))) as [H2 | H2].
    + rewrite plus_IZR. apply Rabs_le. lra.
    + destruct (Z.even (Zfloor x)); [| rewrite plus_IZR]; apply Rabs_le; lra.
Qed.

Lemma fl_0 : fl 0 = Fin 0.
Proof. unfold fl. destruct (Req_dec_T 0 0); [reflexivity | lra]. Qed.

(** A result whose quotient by the spacing of its binade is an integer
    is a number of the format: it is not rounded. *)
Lemma fl_exact (x : R) (e m : Z) :
  x <> 0 -> (-1022 <= e)%Z -> bpow e <= Rabs x < bpow (e + 1) ->
  (e <= 1023)%Z -> x = IZR m * bpow (e - 52) ->
  fl x = Fin x.
Proof.
  intros Hx He Hb Hmax Em. unfold fl.
  destruct (Req_dec_T x 0); [contradiction |].
  rewrite (expo_unique x e Hb). rewrite Z.max_l by lia.
  pose proof (bpow_pos (e - 52)) as Hu.
  replace (x / bpow (e - 52)) with (IZR m) by (rewrite Em; field; lra).
  rewrite nearestEven_IZR, <- Em.
  destruct (Rle_dec (bpow 1024) (Rabs x)) as [Hov |]; [| reflexivity].
  assert (bpow (e + 1) <= bpow 1024) by (apply bpow_le; lia). lra.
Qed.

(** Integers up to [2^53] are numbers of the format. *)
Lemma fl_int (z : Z) : (Z.abs z <= 2 ^ 53)%Z -> fl (IZR z) = Fin (IZR z).
Proof.
  intros Hz. destruct (Z.eq_dec z 0) as [-> | Hnz]; [apply fl_0 |].
  assert (Hx : IZR z <> 0) by now apply not_0_IZR.
  destruct (expo_spec (IZR z) Hx) as [Hlo Hhi].
  rewrite <- abs_IZR in Hlo, Hhi.
  set (e := expo (IZR z)) in *.
  assert (He0 : (0 <= e)%Z).
  { assert (bpow 0 < bpow (e + 1)); [| apply bpow_lt_inv in H; lia].
    rewrite bpow_0. apply Rle_lt_trans with (IZR (Z.abs z)); [| assumption].
    apply IZR_le. lia. }
  assert (He53 : (e <= 53)%Z).
  { assert (bpow e < bpow 54); [| apply bpow_lt_inv in H; lia].
    apply Rle_lt_trans with (IZR (Z.abs z)); [assumption |].
    rewrite (bpow_IZR 54) by lia. apply IZR_lt. lia. }
  destruct (Z_le_gt_dec e 52) as [He52 | He52].
  - apply (fl_exact _ e (z * 2 ^ (52 - e))); try assumption; try lia.
    + now rewrite <- abs_IZR.
    + rewrite mult_IZR, <- (bpow_IZR (52 - e)) by lia.
      rewrite Rmult_assoc, <- bpow_add.
      replace (52 - e + (e - 52))%Z with 0%Z by lia. rewrite bpow_0. lra.
  - assert (e = 53)%Z by lia. subst e.
    assert (Habs : Z.abs z = (2 ^ 53)%Z).
    { apply Z.le_antisymm; [assumption |].
      apply le_IZR. rewrite <- (bpow_IZR 53) by lia. now rewrite H in Hlo. }
    apply (fl_exact _ 53 (z / 2)); try assumption; try lia.
    + rewrite <- abs_IZR. now rewrite H in Hlo, Hhi.
    + replace (53 - 52)%Z with 1%Z by lia. rewrite bpow_1, <- mult_IZR.
      f_equal. destruct (Z.abs_spec z) as [[_ E] | [_ E]];
        rewrite E in Habs.
      * rewrite Habs. reflexivity.
      * replace z with (- 2 ^ 53)%Z by lia. reflexivity.
Qed.

(** The standard model: in the normal range a result is rounded with a
    relative error of at most [2^-53]. *)
Lemma fl_rel (x : R) :
  bpow (-1022) <= Rabs x <= bpow 1023 ->
  exists d, Rabs d <= bpow (-53) /\ fl x = Fin (x * (1 + d)).
Proof.
  intros [Hlo Hhi].
  assert (Hx : x <> 0).
  { intros ->. rewrite Rabs_R0 in Hlo. pose proof (bpow_pos (-1022)). lra. }
  assert (Ha : 0 < Rabs x) by now apply Rabs_pos_lt.
  destruct (expo_spec x Hx) as [Elo Ehi].
  set (e := expo x) in *.
  assert (He1 : (-1022 <= e)%Z).
  { assert (bpow (-1022) < bpow (e + 1)) by lra.
    apply bpow_lt_inv in H. lia. }
  assert (He2 : (e <= 1023)%Z).
  { assert (bpow e < bpow 1024); [| apply bpow_lt_inv in H; lia].
    apply Rle_lt_trans with (bpow 1023); [lra | apply bpow_lt; lia]. }
  set (u := bpow (e - 52)).
  assert (Hu : 0 < u) by apply bpow_pos.
  set (m := nearestEven (x / u)).
  pose proof (nearestEven_error (x / u)) as Hm. fold m in Hm.
  assert (Herr : Rabs (IZR m * u - x) <= u / 2).
  { replace (IZR m * u - x) with ((IZR m - x / u) * u) by (field; lra).
    rewrite Rabs_mult, (Rabs_pos_eq u) by lra.
    apply Rle_trans with (1 / 2 * u); [| lra].
    apply Rmult_le_compat_r; lra. }
  assert (Hu2 : u / 2 = bpow e * bpow (-53)).
  { unfold u. rewrite <- bpow_add. replace (e + -53)%Z with (e - 52 - 1)%Z by lia.
    now rewrite bpow_pred. }
  exists ((IZR m * u - x) / x). split.
  - unfold Rdiv. rewrite Rabs_mult, Rabs_inv.
    apply Rmult_le_reg_r with (Rabs x); [assumption |].
    rewrite Rmult_assoc, Rinv_l, Rmult_1_r by lra.
    pose proof (bpow_pos (-53)).
    apply Rle_trans with (u / 2); [assumption |]. rewrite Hu2.
    rewrite Rmult_comm. apply Rmult_le_compat_l; lra.
  - unfold fl. destruct (Req_dec_T x 0); [contradiction |].
    fold e. rewrite Z.max_l by lia. fold u m.
    replace (x * (1 + (IZR m * u - x) / x)) with (IZR m * u) by (field; lra).
    destruct (Rle_dec (bpow 1024) (Rabs (IZR m * u))) as [Hov |];
      [| reflexivity].
    exfalso.
    assert (Hy : Rabs (IZR m * u) <= Rabs x + u / 2).
    { replace (IZR m * u) with (x + (IZR m * u - x)) by ring.
      eapply Rle_trans; [apply Rabs_triang |]. lra. }
    destruct (Z.eq_dec e 1023) as [E1023 | Hne].
    + assert (Ex : Rabs x = bpow 1023) by (rewrite E1023 in Elo; lra).
      assert (Hxm : x / u = IZR (if Rlt_dec 0 x then 2 ^ 52 else - 2 ^ 52)).
      { unfold u. rewrite E1023.
        replace (1023 - 52)%Z with 971%Z by lia.
        assert (Eb : bpow 1023 = IZR (2 ^ 52) * bpow 971).
        { rewrite <- (bpow_IZR 52), <- bpow_add by lia. reflexivity. }
        pose proof (bpow_pos 971).
        destruct (Rlt_dec 0 x) as [Hp | Hn].
        - rewrite Rabs_pos_eq in Ex by lra. rewrite Ex, Eb. field. lra.
        - rewrite Rabs_left1 in Ex by lra.
          replace x with (- bpow 1023) by lra.
          rewrite Eb, opp_IZR. field. lra. }
      subst m. rewrite Hxm, nearestEven_IZR in Hov.
      rewrite <- Hxm in Hov.
      replace (x / u * u) with x in Hov by (field; lra).
      assert (bpow 1023 < bpow 1024) by (apply bpow_lt; lia). lra.
    + assert (Hb : bpow (e + 1) <= bpow 1023) by (apply bpow_le; lia).
      assert (Hb2 : bpow 1024 = 2 * bpow 1023)
        by (replace 1024%Z with (1023 + 1)%Z by lia; apply bpow_succ).
      assert (u / 2 <= bpow e).
      { rewrite Hu2. pose proof (bpow_pos e).
        assert (bpow (-53) <= bpow 0) by (apply bpow_le; lia).
        rewrite bpow_0 in H0. nra. }
      pose proof (bpow_pos 1023). pose proof (bpow_pos e). lra.
Qed.

(** ** Powers of ten *)

Lemma Rpow10_range (e : R) :
  -3 <= e <= 3 -> 1 / 1000 <= Rpow10 e <= 1000.
Proof.
  intros [Hlo Hhi]. pose proof (Rpow10_pos e) as Hp. split.
  - destruct (Rle_lt_dec (1 / 1000) (Rpow10 e)) as [|Hlt]; [assumption |].
    apply Rlog10_lt in Hlt; [| assumption].
    rewrite Rlog10_pow10, Rlog10_yMin in Hlt. lra.
  - destruct (Rle_lt_dec (Rpow10 e) 1000) as [|Hlt]; [assumption |].
    apply Rlog10_lt in Hlt; [| lra].
    rewrite Rlog10_pow10, Rlog10_1000 in Hlt. lra.
Qed.

(** The powers of the chart's range neither overflow nor underflow. *)
Lemma Math_pow10_range (r : R) :
  1 / 1024 < Rpow10 r < 1024 -> Math_pow10 (Fin r) = Fin (Rpow10 r).
Proof.
  intros [Hlo Hhi]. cbn [Math_pow10].
  assert (H10 : bpow 10 = 1024) by (unfold bpow; simpl; lra).
  assert (Hm10 : bpow (-10) = 1 / 1024) by (unfold bpow; simpl; lra).
  assert (Hbig : bpow 10 <= bpow 970) by (apply bpow_le; lia).
  assert (Hbig2 : 2 * bpow 970 <= bpow 1024).
  { rewrite <- bpow_succ. apply bpow_le. lia. }
  assert (Hsmall : bpow (-1075) <= bpow (-10)) by (apply bpow_le; lia).
  destruct (Rle_dec (bpow 1024 - bpow 970) (Rpow10 r)); [lra |].
  destruct (Rle_dec (Rpow10 r) (bpow (-1075))); [lra | reflexivity].
Qed.

Lemma Math_pow10_Fin (e : R) :
  -3 <= e <= 3 -> Math_pow10 (Fin e) = Fin (Rpow10 e).
Proof.
  intros He. apply Math_pow10_range.
  pose proof (Rpow10_range e He). lra.
Qed.

(** ** The value/pixel mapping *)

Lemma clamp_in_range (r : R) :
  1 / 1000 <= r <= 1000 -> clamp (Fin r) = Fin r.
Proof.
  intros [Hlo Hhi]. unfold clamp, CONFIG.yMin, CONFIG.yMax.
  cbv [Math_min Math_max nlt]. destr_dec; try reflexivity; f_equal; lra.
Qed.

Lemma clamp_low (v : num) :
  (v <=? Fin 0)%num = true -> clamp v = CONFIG.yMin.
Proof.
  unfold clamp, CONFIG.yMin, CONFIG.yMax.
  destruct v; cbv [Math_min Math_max nlt nle]; intros H;
    destr_dec; try reflexivity; try discriminate; lra.
Qed.

Lemma clamp_bounds (v : num) :
  v <> NaN -> exists c, clamp v = Fin c /\ 1 / 1000 <= c <= 1000.
Proof.
  intros Hv. unfold clamp, CONFIG.yMin, CONFIG.yMax.
  destruct v; try congruence; cbv [Math_min Math_max nlt];
    destr_dec; eexists; (split; [reflexivity | lra]).
Qed.

Lemma valueToY_clamped (v : num) (c H : R) :
  clamp v = Fin c -> 0 < c ->
  valueToY v (Fin H) = Fin (H * (1 - (Rlog10 c + 3) / 6)).
Proof.
  intros Hc Hpos. unfold valueToY. fold (clamp v). rewrite Hc.
  unfold CONFIG.yMin, CONFIG.yMax, Math_log10.
  destr_dec; try lra.
  rewrite Rlog10_yMin, Rlog10_1000.
  change (Fin (Rlog10 c) - Fin (-3))%num with (Fin (Rlog10 c + - -3)).
  change (Fin 3 - Fin (-3))%num with (Fin (3 + - -3)).
  rewrite ndiv_Fin by lra. simpl.
  replace (3 + - -3) with 6 by lra.
  replace (Rlog10 c + - -3) with (Rlog10 c + 3) by lra.
  reflexivity.
Qed.

Lemma yToValue_Fin (y H : R) :
  H <> 0 -> -3 <= -3 + (1 - y / H) * 6 <= 3 ->
  yToValue (Fin y) (Fin H) = Fin (Rpow10 (-3 + (1 - y / H) * 6)).
Proof.
  intros HH He. unfold yToValue, CONFIG.yMin, CONFIG.yMax, Math_log10.
  destr_dec; try lra.
  rewrite Rlog10_yMin, Rlog10_1000.
  rewrite ndiv_Fin by assumption. cbn [nsub nadd nneg nmul].
  replace (-3 + (1 + - (y / H)) * (3 + - -3)) with (-3 + (1 - y / H) * 6)
    by lra.
  now apply Math_pow10_Fin.
Qed.

Lemma pixel_exponent (c H : R) :
  0 < H -> 1 / 1000 <= c <= 1000 ->
  -3 <= -3 + (1 - H * (1 - (Rlog10 c + 3) / 6) / H) * 6 <= 3.
Proof.
  intros HH [Hlo Hhi].
  assert (H1 : -3 <= Rlog10 c).
  { rewrite <- Rlog10_yMin. apply Rlog10_le; lra. }
  assert (H2 : Rlog10 c <= 3).
  { rewrite <- Rlog10_1000. apply Rlog10_le; lra. }
  replace (H * (1 - (Rlog10 c + 3) / 6) / H) with (1 - (Rlog10 c + 3) / 6)
    by (field; lra).
  lra.
Qed.

(** C4.  On the value range [yMin, yMax] and for every positive height
    the pixel mapping followed by its inverse gives the value back:
    [yToValue (valueToY v H) H = v]. *)
Theorem yToValue_valueToY (v H : R) :
  (CONFIG.yMin <=? Fin v)%num = true ->
  (Fin v <=? CONFIG.yMax)%num = true ->
  0 < H ->
  yToValue (valueToY (Fin v) (Fin H)) (Fin H) = Fin v.
Proof.
  unfold CONFIG.yMin, CONFIG.yMax. rewrite !nle_Fin. intros Hlo Hhi HH.
  rewrite (valueToY_clamped (Fin v) v H) by (try apply clamp_in_range; lra).
  rewrite yToValue_Fin by (try apply pixel_exponent; lra).
  f_equal. rewrite <- (Rpow10_log10 v) at 2 by lra.
  f_equal. field. lra.
Qed.

Lemma yToValue_valueToY_witness :
  yToValue (valueToY (Fin 10) (Fin 600)) (Fin 600) = Fin 10.
Proof.
  apply yToValue_valueToY; [num_cmp | num_cmp | lra].
Defined.

(** C10.  [valueToY] clamps before it takes the logarithm: for every
    value that is a number (finite or infinite) and every positive height
    [H] the result is a finite pixel in [[0, H]], and a value [<= 0] is
    mapped to [H], the axis floor. *)
Theorem valueToY_total (v : num) (H : R) :
  v <> NaN -> 0 < H ->
  (exists y, valueToY v (Fin H) = Fin y /\ 0 <= y <= H)
  /\ ((v <=? Fin 0)%num = true -> valueToY v (Fin H) = Fin H).
Proof.
  intros Hv HH. split.
  - destruct (clamp_bounds v Hv) as (c & Hc & Hlo & Hhi).
    rewrite (valueToY_clamped v c H Hc) by lra.
    eexists. split; [reflexivity |].
    assert (H1 : -3 <= Rlog10 c).
    { rewrite <- Rlog10_yMin. apply Rlog10_le; lra. }
    assert (H2 : Rlog10 c <= 3).
    { rewrite <- Rlog10_1000. apply Rlog10_le; lra. }
    split; nra.
  - intros Hle. rewrite (valueToY_clamped v (1 / 1000) H).
    + rewrite Rlog10_yMin. f_equal. lra.
    + now apply clamp_low.
    + lra.
Qed.

Lemma valueToY_total_witness :
  (exists y, valueToY (Fin 0) (Fin 480) = Fin y /\ 0 <= y <= 480)
  /\ ((Fin 0 <=? Fin 0)%num = true -> valueToY (Fin 0) (Fin 480) = Fin 480).
Proof.
  apply valueToY_total; [discriminate | lra].
Defined.

(** ** Sorting by a key

    [Array_sort] with the comparator [a.key - b.key]. *)

Section SortByKey.

Context {A : Type} (key : A -> Z).

Let cmp (a b : A) : Z := (key a - key b)%Z.

Lemma sort_insert_perm (x : A) (l : list A) :
  Permutation (sort_insert cmp x l) (x :: l).
Proof.
  induction l as [| y t IH]; simpl; [reflexivity |].
  destruct (cmp x y <=? 0)%Z; [reflexivity |].
  rewrite IH. apply perm_swap.
Qed.

Lemma Array_sort_perm (l : list A) : Permutation (Array_sort cmp l) l.
Proof.
  induction l as [| x t IH]; simpl; [reflexivity |].
  rewrite sort_insert_perm. now constructor.
Qed.

Lemma sort_insert_sorted (x : A) (l : list A) :
  StronglySorted (keyLe key) l ->
  StronglySorted (keyLe key) (sort_insert cmp x l).
Proof.
  induction 1 as [| y t Ht IH Hy]; simpl.
  - repeat constructor.
  - destruct (Z.leb_spec (cmp x y) 0) as [Hle | Hgt]; unfold cmp in *.
    + constructor; [now constructor |].
      constructor; [unfold keyLe; lia |].
      eapply Forall_impl; [| exact Hy].
      unfold keyLe; intros; lia.
    + constructor; [assumption |].
      eapply Permutation_Forall; [symmetry; apply sort_insert_perm |].
      constructor; [unfold keyLe; lia | assumption].
Qed.

Lemma Array_sort_sorted (l : list A) :
  StronglySorted (keyLe key) (Array_sort cmp l).
Proof.
  induction l as [| x t IH]; simpl; [constructor |].
  now apply sort_insert_sorted.
Qed.

(** Stability: the elements of one key keep their order. *)
Lemma sort_insert_stable (d : Z) (x : A) (l : list A) :
  StronglySorted (keyLe key) l ->
  filter (fun a => (key a =? d)%Z) (sort_insert cmp x l)
  = filter (fun a => (key a =? d)%Z) (x :: l).
Proof.
  induction 1 as [| y t Ht IH Hy]; [reflexivity |].
  cbn [sort_insert].
  destruct (Z.leb_spec (cmp x y) 0) as [Hle | Hgt]; [reflexivity |].
  unfold cmp in Hgt.
  cbn [filter] in *. rewrite IH.
  destruct (Z.eqb_spec (key x) d) as [Hx | Hx];
    destruct (Z.eqb_spec (key y) d) as [Hy' | Hy']; try reflexivity.
  lia.
Qed.

Lemma Array_sort_stable (d : Z) (l : list A) :
  filter (fun a => (key a =? d)%Z) (Array_sort cmp l)
  = filter (fun a => (key a =? d)%Z) l.
Proof.
  induction l as [| x t IH]; [reflexivity |].
  cbn [Array_sort fold_right].
  rewrite sort_insert_stable by apply Array_sort_sorted.
  cbn [filter]. fold (Array_sort cmp t). now rewrite IH.
Qed.

End SortByKey.

(** ** The extracted series and its day normalization *)

Lemma fold_min_le (l : list Z) (d : Z) :
  (fold_left Z.min l d <= d)%Z
  /\ Forall (fun x => (fold_left Z.min l d <= x)%Z) l.
Proof.
  revert d. induction l as [| x t IH]; intros d; simpl.
  - split; [lia | constructor].
  - destruct (IH (Z.min d x)) as [H1 H2]. split; [lia |].
    constructor; [lia | assumption].
Qed.

Lemma fold_min_in (l : list Z) (d : Z) : In (fold_left Z.min l d) (d :: l).
Proof.
  revert d. induction l as [| x t IH]; intros d; simpl; [auto |].
  destruct (IH (Z.min d x)) as [H | H]; [| auto].
  rewrite <- H.
  destruct (Z.min_spec d x) as [[_ E] | [_ E]]; rewrite E; auto.
Qed.

Lemma minDay_le (dataPoints : list Point) (q : Point) :
  In q dataPoints -> (minDay dataPoints <= day q)%Z.
Proof.
  unfold minDay. intros Hq. apply (in_map day) in Hq.
  destruct (map day dataPoints) as [| d rest]; [contradiction |].
  destruct (fold_min_le rest d) as [H1 H2].
  destruct Hq as [<- | Hq]; [assumption |].
  rewrite Forall_forall in H2. now apply H2.
Qed.

Lemma minDay_in (dataPoints : list Point) :
  dataPoints <> [] ->
  exists q, In q dataPoints /\ day q = minDay dataPoints.
Proof.
  unfold minDay. intros Hne.
  destruct (map day dataPoints) as [| d rest] eqn:E.
  - destruct dataPoints; [congruence | discriminate].
  - pose proof (fold_min_in rest d) as H. rewrite <- E in H.
    apply in_map_iff in H. destruct H as (q & Hq & Hin). eauto.
Qed.

Lemma minDay_sorted_head (p : Point) (rest : list Point) :
  StronglySorted (keyLe day) (p :: rest) -> minDay (p :: rest) = day p.
Proof.
  intros Hs. inversion Hs as [| ? ? _ Hall]; subst.
  pose proof (minDay_le (p :: rest) p (or_introl eq_refl)) as H1.
  destruct (minDay_in (p :: rest)) as (q & [<- | Hq] & E);
    [discriminate | lia |].
  rewrite Forall_forall in Hall. apply Hall in Hq. unfold keyLe in Hq. lia.
Qed.

Lemma normalizedPoints_points (dataPoints : list Point) :
  map point (normalizedPoints dataPoints) = dataPoints.
Proof.
  unfold normalizedPoints. rewrite map_map. cbn [point]. apply map_id.
Qed.

Lemma normalizedPoints_offsets (dataPoints : list Point) :
  map normalizedDay (normalizedPoints dataPoints)
  = map (fun p => (day p - minDay dataPoints)%Z) dataPoints.
Proof. unfold normalizedPoints. rewrite map_map. reflexivity. Qed.

Lemma visiblePoints_points (dataPoints : list Point) (xMax : Z) :
  map point (visiblePoints dataPoints xMax)
  = filter (fun q => (day q - minDay dataPoints <=? xMax)%Z) dataPoints.
Proof.
  unfold visiblePoints, normalizedPoints.
  generalize (minDay dataPoints). intros m.
  induction dataPoints as [| q t IH]; [reflexivity |].
  cbn [map filter normalizedDay].
  destruct (day q - m <=? xMax)%Z; cbn [map point]; now rewrite IH.
Qed.

(** C5.  The extracted series holds the points of the assessments with
    celeration data, sorted ascending by day with the points of one day
    in their original order.  The normalization keeps every point, in
    that order, and gives it its day minus the least day of the entire
    series, so that the first point has normalized day 0.  A zoom level
    keeps exactly the points within [xMax] days of that least day, and
    their normalized days are still counted from it. *)
Theorem getDataPoints_sorted_normalized (student : Student) (metric : string) :
  let extracted := flat_map (toPoint metric) (assessments student) in
  let dataPoints := getDataPoints student metric in
  StronglySorted (fun a b => (day a <= day b)%Z) dataPoints
  /\ Permutation dataPoints extracted
  /\ (forall d, filter (fun p => (day p =? d)%Z) dataPoints
                = filter (fun p => (day p =? d)%Z) extracted)
  /\ (forall p rest, normalizedPoints dataPoints = p :: rest ->
                     normalizedDay p = 0%Z)
  /\ (forall q, In q dataPoints -> (minDay dataPoints <= day q)%Z)
  /\ (dataPoints <> [] ->
      exists q, In q dataPoints /\ day q = minDay dataPoints)
  /\ (forall xMax p, In p (visiblePoints dataPoints xMax) ->
        In (point p) dataPoints
        /\ normalizedDay p = (day (point p) - minDay dataPoints)%Z)
  /\ map point (normalizedPoints dataPoints) = dataPoints
  /\ map normalizedDay (normalizedPoints dataPoints)
     = map (fun p => (day p - minDay dataPoints)%Z) dataPoints
  /\ (dataPoints <> [] ->
      exists p rest, normalizedPoints dataPoints = p :: rest
                     /\ normalizedDay p = 0%Z
                     /\ Forall (fun q => (0 <= normalizedDay q)%Z) rest)
  /\ (forall xMax,
         map point (visiblePoints dataPoints xMax)
         = filter (fun q => (day q - minDay dataPoints <=? xMax)%Z) dataPoints
         /\ (forall q, In q dataPoints ->
                       (day q - minDay dataPoints <= xMax)%Z ->
                       In {| point := q;
                             normalizedDay := (day q - minDay dataPoints)%Z |}
                         (visiblePoints dataPoints xMax))).
Proof.
  intros extracted dataPoints.
  assert (Hs : StronglySorted (keyLe day) dataPoints)
    by apply Array_sort_sorted.
  assert (Hhead : forall p rest, normalizedPoints dataPoints = p :: rest ->
                                 normalizedDay p = 0%Z).
  { intros p rest E. unfold normalizedPoints in E.
    destruct dataPoints as [| p0 ps]; [discriminate |].
    cbn [map] in E. injection E as <- _. cbn [normalizedDay].
    rewrite minDay_sorted_head by assumption. lia. }
  split; [exact Hs |].
  split; [apply Array_sort_perm |].
  split; [intros d; apply Array_sort_stable |].
  split; [exact Hhead |].
  split; [apply minDay_le |].
  split; [apply minDay_in |].
  split.
  { intros xMax p H. unfold visiblePoints, normalizedPoints in H.
    apply filter_In in H. destruct H as [H _].
    apply in_map_iff in H. destruct H as (q & <- & Hq).
    split; [exact Hq | reflexivity]. }
  split; [apply normalizedPoints_points |].
  split; [apply normalizedPoints_offsets |].
  split.
  { intros Hne.
    destruct (normalizedPoints dataPoints) as [| p rest] eqn:E.
    - exfalso. apply Hne. rewrite <- (normalizedPoints_points dataPoints).
      now rewrite E.
    - exists p, rest. split; [reflexivity |].
      split; [now apply (Hhead p rest) |].
      apply Forall_forall. intros q Hq.
      assert (Hin : In q (normalizedPoints dataPoints))
        by (rewrite E; now right).
      unfold normalizedPoints in Hin. apply in_map_iff in Hin.
      destruct Hin as (q0 & <- & Hq0). cbn [normalizedDay].
      apply minDay_le in Hq0. lia. }
  intros xMax. split; [apply visiblePoints_points |].
  intros q Hq Hle. unfold visiblePoints. apply filter_In. split.
  - unfold normalizedPoints. apply in_map_iff. now exists q.
  - cbn [normalizedDay]. now apply Z.leb_le.
Qed.

(** The series of [tiedStudent], given out of order on the days 5, 3,
    5, 3: sorted to 3, 3, 5, 5, counted from day 3, and cut to the two
    points of day 3 by a zoom of one day. *)
Lemma getDataPoints_sorted_normalized_witness :
  let dataPoints := getDataPoints tiedStudent "correctPerMinute" in
  map day dataPoints = [3; 3; 5; 5]%Z
  /\ map normalizedDay (normalizedPoints dataPoints) = [0; 0; 2; 2]%Z
  /\ map (fun p => day (point p)) (visiblePoints dataPoints 1) = [3; 3]%Z.
Proof.
  intros dataPoints.
  destruct (getDataPoints_sorted_normalized tiedStudent "correctPerMinute")
    as (_ & _ & _ & _ & _ & _ & _ & _ & Hn & _ & Hv).
  fold dataPoints in Hn, Hv.
  split; [reflexivity |].
  split; [rewrite Hn; reflexivity |].
  rewrite <- map_map, (proj1 (Hv 1%Z)). reflexivity.
Defined.

(** ** Operations on integers

    An operation whose operands and result are integers of at most
    [2^53] is not rounded. *)

Lemma fl_IZR (x : R) (z : Z) :
  x = IZR z -> (Z.abs z <= 2 ^ 53)%Z -> fl x = Fin x.
Proof. intros -> Hz. now apply fl_int. Qed.

Lemma fadd_int (a b : Z) :
  (Z.abs (a + b) <= 2 ^ 53)%Z ->
  (Fin (IZR a) +! Fin (IZR b))%num = Fin (IZR (a + b)).
Proof.
  intros H. unfold fadd. cbn [nadd round]. rewrite <- plus_IZR.
  now apply fl_int.
Qed.

Lemma fsub_int (a b : Z) :
  (Z.abs (a - b) <= 2 ^ 53)%Z ->
  (Fin (IZR a) -! Fin (IZR b))%num = Fin (IZR (a - b)).
Proof.
  intros H. unfold fsub. cbn [nsub nadd nneg round].
  rewrite <- opp_IZR, <- plus_IZR. now apply fl_int.
Qed.

Lemma fmul_int (a b : Z) :
  (Z.abs (a * b) <= 2 ^ 53)%Z ->
  (Fin (IZR a) *! Fin (IZR b))%num = Fin (IZR (a * b)).
Proof.
  intros H. unfold fmul. cbn [nmul round]. rewrite <- mult_IZR.
  now apply fl_int.
Qed.

Lemma Zabs_mul_le (x y a b : Z) :
  (Z.abs x <= a)%Z -> (Z.abs y <= b)%Z -> (Z.abs (x * y) <= a * b)%Z.
Proof.
  intros Hx Hy. rewrite Z.abs_mul.
  apply Z.mul_le_mono_nonneg; try assumption; apply Z.abs_nonneg.
Qed.

Lemma Zsquare_scale (n m : Z) : (1 <= n)%Z -> (0 <= m)%Z -> (m <= n * n * m)%Z.
Proof. intros Hn Hm. assert (1 <= n * n)%Z by nia. nia. Qed.

Lemma ofnat_IZR (n : nat) : ofnat n = Fin (IZR (Z.of_nat n)).
Proof. unfold ofnat. now rewrite INR_IZR_INZ. Qed.

Lemma Zsum_bound {A} (g : A -> Z) (l : list A) (M : Z) :
  (forall p, In p l -> (Z.abs (g p) <= M)%Z) ->
  (Z.abs (Zsum g l) <= Z.of_nat (List.length l) * M)%Z.
Proof.
  induction l as [| p t IH]; intros Hg; [cbn; lia |].
  cbn [Zsum fold_right List.length].
  pose proof (Hg p (or_introl eq_refl)) as Hp.
  assert (Ht : forall q, In q t -> (Z.abs (g q) <= M)%Z)
    by (intros; apply Hg; now right).
  specialize (IH Ht). fold (Zsum g t). lia.
Qed.

Lemma Zsum_const {A} (d : Z) (l : list A) :
  Zsum (fun _ => d) l = (Z.of_nat (List.length l) * d)%Z.
Proof.
  induction l as [| p t IH]; [reflexivity |].
  cbn [Zsum fold_right List.length]. fold (Zsum (fun _ : A => d) t).
  rewrite IH. lia.
Qed.

Lemma Zsum_ext {A} (f g : A -> Z) (l : list A) :
  (forall p, In p l -> f p = g p) -> Zsum f l = Zsum g l.
Proof.
  induction l as [| p t IH]; intros H; [reflexivity |].
  cbn [Zsum fold_right]. fold (Zsum f t) (Zsum g t).
  rewrite (H p) by (now left). rewrite IH; [reflexivity |].
  intros; apply H; now right.
Qed.

Lemma fold_fadd_int {A} (f : A -> num) (g : A -> Z) (l : list A) (a M : Z) :
  (forall p, In p l -> f p = Fin (IZR (g p))) ->
  (forall p, In p l -> (Z.abs (g p) <= M)%Z) ->
  (Z.abs a + Z.of_nat (List.length l) * M <= 2 ^ 53)%Z ->
  fold_left (fun sum p => (sum +! f p)%num) l (Fin (IZR a))
  = Fin (IZR (a + Zsum g l)).
Proof.
  revert a. induction l as [| p t IH]; intros a Hf Hg Hb.
  - cbn. now rewrite Z.add_0_r.
  - cbn [fold_left Zsum fold_right]. fold (Zsum g t).
    pose proof (Hg p (or_introl eq_refl)) as Hp.
    rewrite (Hf p (or_introl eq_refl)).
    cbn [List.length] in Hb.
    assert (HM : (0 <= M)%Z) by lia.
    assert (Hn : (0 <= Z.of_nat (List.length t) * M)%Z) by nia.
    rewrite fadd_int by lia.
    rewrite IH.
    + f_equal. f_equal. lia.
    + intros; apply Hf; now right.
    + intros; apply Hg; now right.
    + lia.
Qed.

Lemma sumOf_int (f : LogPoint -> num) (g : LogPoint -> Z)
    (l : list LogPoint) (M : Z) :
  (forall p, In p l -> f p = Fin (IZR (g p))) ->
  (forall p, In p l -> (Z.abs (g p) <= M)%Z) ->
  (Z.of_nat (List.length l) * M <= 2 ^ 53)%Z ->
  sumOf f l = Fin (IZR (Zsum g l)).
Proof.
  intros Hf Hg Hb. unfold sumOf.
  rewrite (fold_fadd_int f g l 0 M) by (assumption || lia).
  reflexivity.
Qed.

(** The sums over the days, and with them the denominator of the
    slope, are not rounded while [n^2 M^2 <= 2^53] for a bound [M] of
    the days. *)
Section IntegerDays.

Variable logPoints : list LogPoint.
Variable X : LogPoint -> Z.
Variable M : Z.
Hypothesis HX : forall p, In p logPoints -> lx p = Fin (IZR (X p)).
Hypothesis HMX : forall p, In p logPoints -> (Z.abs (X p) <= M)%Z.

Let n := Z.of_nat (List.length logPoints).

Hypothesis HM : (n * n * (M * M) <= 2 ^ 53)%Z.

Lemma days_bound : (0 <= M)%Z \/ logPoints = [].
Proof.
  destruct logPoints as [| p t]; [now right |].
  left. pose proof (HMX p (or_introl eq_refl)). lia.
Qed.

Lemma days_sum_bound : (n * M <= 2 ^ 53)%Z /\ (n * (M * M) <= 2 ^ 53)%Z.
Proof.
  assert (Hn : (0 <= n)%Z) by (unfold n; lia).
  destruct days_bound as [HM0 | E].
  - assert (Hk : (0 <= n * M)%Z) by nia.
    assert (Ek : (n * M * (n * M) = n * n * (M * M))%Z) by ring.
    assert (Hm : (0 <= M * M)%Z) by nia.
    split.
    + destruct (Z.eq_dec (n * M) 0) as [-> | Hne]; [lia |].
      assert (n * M <= n * M * (n * M))%Z by nia. lia.
    + destruct (Z.eq_dec n 0) as [-> | Hne]; [lia |].
      assert (n * (M * M) <= n * n * (M * M))%Z by nia. lia.
  - unfold n in *. rewrite E in *. cbn. lia.
Qed.

Lemma sumX_int : sumOf lx logPoints = Fin (IZR (Zsum X logPoints)).
Proof. apply (sumOf_int lx X logPoints M); try assumption. apply days_sum_bound. Qed.

Lemma sumX2_int :
  sumOf (fun p => (lx p *! lx p)%num) logPoints
  = Fin (IZR (Zsum (fun p => (X p * X p)%Z) logPoints)).
Proof.
  assert (Hn : (0 <= n)%Z) by (unfold n; lia).
  apply (sumOf_int _ _ logPoints (M * M)).
  - intros p Hp. cbv beta. rewrite (HX p Hp). apply fmul_int.
    pose proof (HMX p Hp) as Hxp.
    assert (H1 : (1 <= n)%Z).
    { unfold n. destruct logPoints; [destruct Hp | cbn; lia]. }
    pose proof (Zabs_mul_le _ _ _ _ Hxp Hxp) as Hsq.
    assert (Hm : (0 <= M * M)%Z) by nia.
    pose proof (Zsquare_scale n (M * M) H1 Hm). lia.
  - intros p Hp. pose proof (HMX p Hp) as Hxp.
    exact (Zabs_mul_le _ _ _ _ Hxp Hxp).
  - apply days_sum_bound.
Qed.

Lemma denominator_int :
  (ofnat (List.length logPoints)
   *! sumOf (fun p => (lx p *! lx p)%num) logPoints
   -! sumOf lx logPoints *! sumOf lx logPoints)%num
  = Fin (IZR (n * Zsum (fun p => (X p * X p)%Z) logPoints
              - Zsum X logPoints * Zsum X logPoints)).
Proof.
  assert (Hn : (0 <= n)%Z) by (unfold n; lia).
  rewrite sumX_int, sumX2_int, ofnat_IZR. fold n.
  pose proof (Zsum_bound X logPoints M HMX) as B1. fold n in B1.
  assert (B2 : (Z.abs (Zsum (fun p => (X p * X p)%Z) logPoints)
                <= n * (M * M))%Z).
  { apply Zsum_bound. intros p Hp. pose proof (HMX p Hp) as Hxp.
    exact (Zabs_mul_le _ _ _ _ Hxp Hxp). }
  assert (B3 : (0 <= Zsum (fun p => (X p * X p)%Z) logPoints)%Z).
  { clear. induction logPoints as [| p t IH]; [cbn; lia |].
    cbn [Zsum fold_right]. fold (Zsum (fun p => (X p * X p)%Z) t). nia. }
  set (S2 := Zsum (fun p => (X p * X p)%Z) logPoints) in *.
  set (S1 := Zsum X logPoints) in *.
  assert (B4 : (Z.abs (n * S2) <= n * n * (M * M))%Z).
  { replace (n * n * (M * M))%Z with (n * (n * (M * M)))%Z by ring.
    apply Zabs_mul_le; lia. }
  assert (B5 : (Z.abs (S1 * S1) <= n * n * (M * M))%Z).
  { replace (n * n * (M * M))%Z with (n * M * (n * M))%Z by ring.
    now apply Zabs_mul_le. }
  assert (B6 : (0 <= S1 * S1)%Z) by nia.
  assert (B7 : (0 <= n * S2)%Z) by nia.
  rewrite (fmul_int n S2), (fmul_int S1 S1) by lia.
  rewrite fsub_int by lia. reflexivity.
Qed.

End IntegerDays.

(** Points on one day: the denominator of the slope is 0. *)
Lemma denominator_same_day (logPoints : list LogPoint) (d : Z) :
  (forall p, In p logPoints -> lx p = Fin (IZR d)) ->
  (Z.of_nat (List.length logPoints) * Z.of_nat (List.length logPoints)
   * (d * d) <= 2 ^ 53)%Z ->
  (ofnat (List.length logPoints)
   *! sumOf (fun p => (lx p *! lx p)%num) logPoints
   -! sumOf lx logPoints *! sumOf lx logPoints)%num
  = Fin 0.
Proof.
  intros Hx Hb.
  rewrite (denominator_int logPoints (fun _ => d) (Z.abs d)).
  - rewrite !Zsum_const. f_equal. f_equal. ring.
  - assumption.
  - intros. lia.
  - rewrite <- Z.abs_mul, Z.abs_eq by nia. exact Hb.
Qed.

(** A quotient by 0 is NaN or an infinity. *)
Lemma fdiv_zero (a : num) :
  (a /! Fin 0)%num = NaN \/ (a /! Fin 0)%num = PInf \/ (a /! Fin 0)%num = NInf.
Proof.
  unfold fdiv. destruct a as [r | | |]; cbn [ndiv].
  - destruct (Req_dec_T 0 0); [| lra].
    unfold Rsign. destr_dec; cbn; auto.
  - destruct (Rlt_dec 0 0); [lra |]. cbn. auto.
  - destruct (Rlt_dec 0 0); [lra |]. cbn. auto.
  - cbn. auto.
Qed.

(** What [calculateCeleration] makes of a slope that is NaN or an
    infinity. *)
Lemma celeration_of_slope (slope : num) :
  slope = NaN \/ slope = PInf \/ slope = NInf ->
  let c := round (Math_pow10 (slope *! Fin 7)%num) in
  (slope = NaN /\ c = NaN) \/ (slope = PInf /\ c = PInf)
  \/ (slope = NInf /\ c = Fin 0).
Proof.
  intros [-> | [-> | ->]]; cbv zeta; unfold fmul; cbn [nmul].
  - left. split; reflexivity.
  - right. left. split; [reflexivity |].
    unfold Rsign. destr_dec; try lra. reflexivity.
  - right. right. split; [reflexivity |].
    unfold Rsign. destr_dec; try lra. cbn. apply fl_0.
Qed.

(** ** [calculateCeleration] *)

Lemma filter_length_le {A} (f : A -> bool) (l : list A) :
  (List.length (filter f l) <= List.length l)%nat.
Proof.
  induction l as [| a t IH]; [apply le_n |].
  cbn [filter]. destruct (f a); cbn [List.length]; lia.
Qed.

Lemma calculateCeleration_few (dataPoints : list Sample) :
  (List.length (positivePoints dataPoints) < 2)%nat ->
  calculateCeleration dataPoints = Fin 1.
Proof.
  intros Hlen. unfold calculateCeleration. fold (positivePoints dataPoints).
  destruct (Nat.ltb_spec (List.length dataPoints) 2); [reflexivity |].
  destruct (Nat.ltb_spec (List.length (positivePoints dataPoints)) 2);
    [reflexivity | lia].
Qed.

Lemma calculateCeleration_many (dataPoints : list Sample) :
  (2 <= List.length (positivePoints dataPoints))%nat ->
  calculateCeleration dataPoints
  = round
      (Math_pow10
         (fitSlope (logPointsOf (positivePoints dataPoints)) *! Fin 7)%num).
Proof.
  intros Hlen. unfold calculateCeleration.
  fold (positivePoints dataPoints).
  fold (logPointsOf (positivePoints dataPoints)).
  pose proof (filter_length_le (fun p => (s_value p >? Fin 0)%num) dataPoints)
    as Hle.
  fold (positivePoints dataPoints) in Hle.
  destruct (Nat.ltb_spec (List.length dataPoints) 2); [lia |].
  destruct (Nat.ltb_spec (List.length (positivePoints dataPoints)) 2);
    [lia | reflexivity].
Qed.

(** ** Formatting *)

Lemma pow10_21 : 10 ^ 21 = 1000000000000000000000.
Proof. simpl. lra. Qed.

Section FormattingFacts.

Variable nts : R -> string.

Lemma toFixed2_nearest (x : R) (n : Z) :
  0 <= x < 10 ^ 21 ->
  IZR n - 1 / 2 <= 100 * x < IZR n + 1 / 2 ->
  toFixed nts 2 (Fin x) = placePoint 2 (digitsOf n).
Proof.
  intros [Hx0 Hx1] Hn. unfold toFixed.
  destruct (Rlt_dec x 0); [lra |].
  destruct (Rle_dec (10 ^ 21) x); [lra |].
  unfold fixedDigits. rewrite (Zfloor_eq n); [reflexivity |].
  simpl pow. lra.
Qed.

Lemma formatCeleration_ge1 (v : R) :
  1 <= v ->
  formatCeleration nts (Fin v) = ("x" ++ toFixed nts 2 (Fin v))%string.
Proof.
  intros Hv. unfold formatCeleration. cbn [isFinite isNaN negb orb].
  unfold nge. rewrite (proj2 (nle_Fin 1 v)) by assumption. reflexivity.
Qed.

Lemma formatCeleration_lt1 (v : R) :
  v < 1 ->
  formatCeleration nts (Fin v)
  = ("/" ++ toFixed nts 2 (Fin 1 / Fin v))%string.
Proof.
  intros Hv. unfold formatCeleration. cbn [isFinite isNaN negb orb].
  unfold nge. rewrite (proj2 (nle_Fin_false 1 v)) by assumption. reflexivity.
Qed.

Lemma formatCeleration_not_finite (a : num) :
  isFinite a = false -> formatCeleration nts a = "N/A".
Proof. destruct a; cbn; intros; [discriminate | reflexivity ..]. Qed.

Lemma formatCeleration_2 : formatCeleration nts (Fin 2) = "x2.00".
Proof.
  rewrite formatCeleration_ge1 by lra.
  rewrite (toFixed2_nearest 2 200) by (rewrite ?pow10_21; lra).
  reflexivity.
Qed.

Lemma formatCeleration_half : formatCeleration nts (Fin (1 / 2)) = "/2.00".
Proof.
  rewrite formatCeleration_lt1 by lra.
  rewrite ndiv_Fin by lra.
  rewrite (toFixed2_nearest (1 / (1 / 2)) 200) by (rewrite ?pow10_21; lra).
  reflexivity.
Qed.

Lemma formatCeleration_1 : formatCeleration nts (Fin 1) = "x1.00".
Proof.
  rewrite formatCeleration_ge1 by lra.
  rewrite (toFixed2_nearest 1 100) by (rewrite ?pow10_21; lra).
  reflexivity.
Qed.

Lemma formatCeleration_0 : formatCeleration nts (Fin 0) = "/Infinity".
Proof.
  rewrite formatCeleration_lt1 by lra.
  cbn [ndiv]. destruct (Req_dec_T 0 0); [| lra].
  unfold Rsign. destr_dec; try lra. reflexivity.
Qed.

End FormattingFacts.

(** C2, as the program has it.  [formatCeleration] gives ["x2.00"] for
    2 and ["/2.00"] for 0.5, with the ASCII letter [x] and the slash as
    prefixes, and ["N/A"] for NaN and the infinities.  A finite value
    [>= 1] gets the prefix [x] and the value to two decimals, a finite
    value [< 1] the prefix [/] and [1/value] to two decimals; below
    [10^21] the two decimals are the digits of the nearest hundredth. *)
Theorem formatCeleration_cases (nts : R -> string) :
  formatCeleration nts (Fin 2) = "x2.00"
  /\ formatCeleration nts (Fin (1 / 2)) = "/2.00"
  /\ (forall a, isFinite a = false -> formatCeleration nts a = "N/A")
  /\ (forall v, 1 <= v ->
       formatCeleration nts (Fin v) = ("x" ++ toFixed nts 2 (Fin v))%string)
  /\ (forall v, v < 1 ->
       formatCeleration nts (Fin v)
       = ("/" ++ toFixed nts 2 (Fin 1 / Fin v))%string)
  /\ (forall v n, 1 <= v < 10 ^ 21 ->
       IZR n - 1 / 2 <= 100 * v < IZR n + 1 / 2 ->
       formatCeleration nts (Fin v) = ("x" ++ placePoint 2 (digitsOf n))%string)
  /\ (forall v n, 0 < v < 1 -> 1 / v < 10 ^ 21 ->
       IZR n - 1 / 2 <= 100 * (1 / v) < IZR n + 1 / 2 ->
       formatCeleration nts (Fin v)
       = ("/" ++ placePoint 2 (digitsOf n))%string).
Proof.
  split; [apply formatCeleration_2 |].
  split; [apply formatCeleration_half |].
  split; [apply formatCeleration_not_finite |].
  split; [apply formatCeleration_ge1 |].
  split; [apply formatCeleration_lt1 |].
  split.
  - intros v n Hv Hn. rewrite formatCeleration_ge1 by lra.
    rewrite (toFixed2_nearest nts v n) by (try split; lra). reflexivity.
  - intros v n Hv Hbig Hn. rewrite formatCeleration_lt1 by lra.
    rewrite ndiv_Fin by lra.
    assert (0 < 1 / v) by (apply Rdiv_lt_0_compat; lra).
    rewrite (toFixed2_nearest nts (1 / v) n) by (try split; lra).
    reflexivity.
Qed.

Lemma formatCeleration_cases_witness :
  formatCeleration (fun _ => "") (Fin 3) = "x3.00"
  /\ formatCeleration (fun _ => "") (Fin (1 / 4)) = "/4.00".
Proof.
  pose proof (formatCeleration_cases (fun _ => ""))
    as (_ & _ & _ & _ & _ & Hx & Hd).
  split.
  - apply (Hx 3 300%Z); rewrite ?pow10_21; lra.
  - apply (Hd (1 / 4) 400%Z); rewrite ?pow10_21; lra.
Defined.

(** The claim C2 has the multiplication and division signs as prefixes;
    the program writes the letter [x] for 2. *)
Lemma formatCeleration_times_sign_counterexample :
  formatCeleration (fun _ => "") (Fin 2) = "x2.00"
  /\ formatCeleration (fun _ => "") (Fin 2) <> "×2.00".
Proof.
  rewrite formatCeleration_2. split; [reflexivity | discriminate].
Qed.

(** ** Rounding errors *)

Lemma eps_pos : 0 < eps.
Proof. apply bpow_pos. Qed.

Lemma eps_small : eps < 1 / 1000000000000000.
Proof.
  unfold eps. rewrite <- (Z.opp_involutive (-53)).
  unfold bpow. rewrite powerRZ_neg'. change (- -53)%Z with 53%Z.
  fold (bpow 53). rewrite (bpow_IZR 53) by lia.
  change (2 ^ 53)%Z with 9007199254740992%Z.
  apply Rmult_lt_reg_r with 9007199254740992; [lra |].
  rewrite Rinv_l by lra. lra.
Qed.

Lemma Rabs_bounds (a b : R) : Rabs a <= b -> - b <= a <= b.
Proof. unfold Rabs. destruct (Rcase_abs a); lra. Qed.

Lemma near_exact (c : R) : 0 <= c -> near 0 c c.
Proof. intros Hc. unfold near. lra. Qed.

Lemma near_weaken (k k' c r : R) :
  0 <= c -> k <= k' -> near k c r -> near k' c r.
Proof.
  intros Hc Hk [H1 H2]. pose proof eps_pos as He. unfold near.
  assert (c * (k * eps) <= c * (k' * eps)).
  { apply Rmult_le_compat_l; [assumption |].
    apply Rmult_le_compat_r; lra. }
  lra.
Qed.

Lemma near_plus (k c1 c2 r1 r2 : R) :
  near k c1 r1 -> near k c2 r2 -> near k (c1 + c2) (r1 + r2).
Proof. unfold near. intros [H1 H2] [H3 H4]. lra. Qed.

Lemma near_scale (k c r m : R) :
  0 <= m -> near k c r -> near k (m * c) (m * r).
Proof.
  unfold near. intros Hm [H1 H2].
  split.
  - replace (m * c * (1 - k * eps)) with (m * (c * (1 - k * eps))) by ring.
    now apply Rmult_le_compat_l.
  - replace (m * c * (1 + k * eps)) with (m * (c * (1 + k * eps))) by ring.
    now apply Rmult_le_compat_l.
Qed.

Lemma near_minus (k1 k2 k c1 c2 r1 r2 : R) :
  near k1 c1 r1 -> near k2 c2 r2 ->
  k1 * c1 + k2 * c2 <= k * (c1 - c2) ->
  near k (c1 - c2) (r1 - r2).
Proof.
  unfold near. intros [H1 H2] [H3 H4] Hk. pose proof eps_pos as He.
  assert (H : (k1 * c1 + k2 * c2) * eps <= k * (c1 - c2) * eps)
    by (apply Rmult_le_compat_r; lra).
  split; lra.
Qed.

(** The rounding of a positive number of moderate size adds at most two
    units to the bound of its relative error. *)
Lemma fl_near (k c r : R) :
  near k c r -> 0 <= k <= 1048576 -> 1 / 1048576 <= c <= 1048576 ->
  exists y, fl r = Fin y /\ near (k + 2) c y.
Proof.
  intros [H1 H2] [Hk0 Hk1] [Hc0 Hc1].
  pose proof eps_pos as He. pose proof eps_small as Hs.
  assert (Hke : k * eps <= 1 / 2) by nra.
  assert (Hr0 : c / 2 <= r) by nra.
  assert (Hr1 : r <= 2 * c) by nra.
  assert (Hlo : bpow (-1022) <= Rabs r).
  { rewrite Rabs_pos_eq by lra.
    apply Rle_trans with (bpow (-21)); [apply bpow_le; lia |].
    assert (bpow (-21) = 1 / 2097152) by (unfold bpow; simpl; lra). lra. }
  assert (Hhi : Rabs r <= bpow 1023).
  { rewrite Rabs_pos_eq by lra.
    apply Rle_trans with (bpow 21); [| apply bpow_le; lia].
    assert (bpow 21 = 2097152) by (unfold bpow; simpl; lra). lra. }
  destruct (fl_rel r (conj Hlo Hhi)) as (d & Hd & E).
  fold eps in Hd. apply Rabs_bounds in Hd.
  exists (r * (1 + d)). split; [exact E |].
  unfold near. split.
  - apply Rle_trans with (c * (1 - k * eps) * (1 - eps)).
    + assert (0 <= c * (k * eps) * eps) by
        (apply Rmult_le_pos; [apply Rmult_le_pos |]; nra).
      nra.
    + apply Rle_trans with (r * (1 - eps)).
      * apply Rmult_le_compat_r; lra.
      * apply Rmult_le_compat_l; lra.
  - apply Rle_trans with (c * (1 + k * eps) * (1 + eps)).
    + apply Rle_trans with (r * (1 + eps)).
      * apply Rmult_le_compat_l; lra.
      * apply Rmult_le_compat_r; lra.
    + assert (c * (k * eps) * eps <= c * eps).
      { replace (c * (k * eps) * eps) with (c * eps * (k * eps)) by ring.
        rewrite <- (Rmult_1_r (c * eps)) at 2.
        apply Rmult_le_compat_l; [nra | lra]. }
      nra.
Qed.

Lemma fadd_Fin (a b : R) : (Fin a +! Fin b)%num = fl (a + b).
Proof. reflexivity. Qed.

Lemma fsub_Fin (a b : R) : (Fin a -! Fin b)%num = fl (a - b).
Proof. reflexivity. Qed.

Lemma fmul_Fin (a b : R) : (Fin a *! Fin b)%num = fl (a * b).
Proof. reflexivity. Qed.

Lemma fdiv_Fin (a b : R) : b <> 0 -> (Fin a /! Fin b)%num = fl (a / b).
Proof. intros Hb. unfold fdiv. now rewrite ndiv_Fin. Qed.

Lemma Math_log10_Fin (r : R) : 0 < r -> Math_log10 (Fin r) = Fin (Rlog10 r).
Proof.
  intros Hr. cbn [Math_log10]. destruct (Rlt_dec 0 r); [reflexivity | lra].
Qed.

Lemma Rlog10_4 : Rlog10 4 = 2 * Rlog10 2.
Proof. replace 4 with (2 * 2) by lra. rewrite Rlog10_mult by lra. lra. Qed.

Lemma Rlog10_8 : Rlog10 8 = 3 * Rlog10 2.
Proof.
  replace 8 with (2 * 4) by lra. rewrite Rlog10_mult, Rlog10_4 by lra. lra.
Qed.

Lemma Rlog10_2_range : 1 / 4 < Rlog10 2 < 1.
Proof.
  split.
  - assert (H : Rlog10 10 < Rlog10 16) by (apply Rlog10_lt; lra).
    replace 16 with (4 * 4) in H by lra.
    rewrite Rlog10_mult, Rlog10_4, Rlog10_10 in H by lra. lra.
  - rewrite <- Rlog10_10. apply Rlog10_lt; lra.
Qed.

Lemma ln10_le_3 : ln 10 <= 3.
Proof.
  assert (H : 10 < exp 3).
  { pose proof (exp_ineq1_le (1 / 2)) as H.
    assert (E : exp 3
                = exp (1/2) * exp (1/2) * exp (1/2) * exp (1/2)
                  * exp (1/2) * exp (1/2)).
    { rewrite <- !exp_plus. f_equal. lra. }
    rewrite E. pose proof (exp_pos (1 / 2)).
    set (x := exp (1 / 2)) in *.
    assert (9 / 4 <= x * x) by nra.
    assert (27 / 8 <= x * x * x) by nra.
    assert (81 / 8 <= x * x * x * (x * x * x)) by nra.
    lra. }
  apply Rlt_le. rewrite <- (ln_exp 3). apply ln_increasing; lra.
Qed.

Lemma ln10_ge_2 : 2 <= ln 10.
Proof.
  assert (H : exp 2 < 10).
  { replace 2 with (1 + 1) by lra. rewrite exp_plus.
    pose proof exp_le_3. pose proof (exp_pos 1). nra. }
  apply Rlt_le. rewrite <- (ln_exp 2). apply ln_increasing; [apply exp_pos | lra].
Qed.

(** [exp] near 0. *)
Lemma exp_near_0 (t s : R) :
  Rabs t <= s -> s <= 1 / 2 -> 1 - s <= exp t <= 1 + 2 * s.
Proof.
  intros Ht Hs. apply Rabs_bounds in Ht. split.
  - pose proof (exp_ineq1_le t). lra.
  - pose proof (exp_ineq1_le (- t)) as H. rewrite exp_Ropp in H.
    pose proof (exp_pos t) as Hp.
    assert (H1 : (1 - t) * exp t <= 1).
    { apply Rmult_le_reg_r with (/ exp t).
      - now apply Rinv_0_lt_compat.
      - rewrite Rmult_assoc, Rinv_r, Rmult_1_r, Rmult_1_l by lra. lra. }
    destruct (Rle_lt_dec t 0) as [Hneg | Hpos'].
    + assert (exp t <= 1).
      { rewrite <- exp_0. destruct Hneg as [Hlt | ->]; [| lra].
        apply Rlt_le. now apply exp_increasing. }
      lra.
    + assert (H2 : (1 - t) * (1 + 2 * t) >= 1) by nra.
      assert (H3 : exp t <= 1 + 2 * t).
      { apply Rmult_le_reg_l with (1 - t); [lra |]. nra. }
      lra.
Qed.

(** A power of ten whose exponent is near [e]. *)
Lemma Rpow10_near (e e' s : R) :
  Rabs (e' - e) <= s -> s <= 1 / 6 ->
  Rpow10 e * (1 - 3 * s) <= Rpow10 e' <= Rpow10 e * (1 + 6 * s).
Proof.
  intros He Hs. pose proof ln10_le_3 as H3. pose proof ln10_pos as H0.
  assert (E : Rpow10 e' = Rpow10 e * exp ((e' - e) * ln 10)).
  { unfold Rpow10, Rpower. rewrite <- exp_plus. f_equal. ring. }
  assert (Ht : Rabs ((e' - e) * ln 10) <= 3 * s).
  { rewrite Rabs_mult, (Rabs_pos_eq (ln 10)) by lra.
    pose proof (Rabs_pos (e' - e)). nra. }
  destruct (exp_near_0 _ (3 * s) Ht) as [H1 H2]; [lra |].
  pose proof (Rpow10_pos e) as Hp. rewrite E. split.
  - apply Rmult_le_compat_l; lra.
  - apply Rmult_le_compat_l; lra.
Qed.

Lemma near_abs (k c r : R) : 0 <= c -> near k c r -> Rabs (r - c) <= k * eps * c.
Proof. intros Hc [H1 H2]. apply Rabs_le. lra. Qed.

(** ** The scenario of the specification *)

Ltac positive_filter :=
  unfold positivePoints; cbn [filter s_value]; unfold ngt;
  repeat (rewrite (proj2 (nlt_Fin 0 _)) by lra);
  try reflexivity.

Lemma scenario_positive : positivePoints scenarioSamples = scenarioSamples.
Proof. unfold scenarioSamples. positive_filter. Qed.

Lemma single_positive : positivePoints singleSample = singleSample.
Proof. unfold singleSample. positive_filter. Qed.

Lemma sameDay_positive : positivePoints sameDaySamples = sameDaySamples.
Proof. unfold sameDaySamples. positive_filter. Qed.

Lemma late_positive : positivePoints lateSamples = lateSamples.
Proof. unfold lateSamples. positive_filter. Qed.

(** One rounding of a value known up to a relative error. *)
Tactic Notation "fl_step" constr(H) ident(y) ident(Hy) :=
  let E := fresh "E" in
  destruct (fl_near _ _ _ H) as (y & E & Hy);
  [ lra | lra | rewrite ?E; cbv beta in Hy ].

(** The slope of the scenario is [log10(2) / 7] up to 177 roundings. *)
Lemma scenario_slope :
  exists s, fitSlope (logPointsOf scenarioSamples) = Fin s
            /\ near 177 (Rlog10 2 / 7) s.
Proof.
  pose proof Rlog10_2_range as HL. set (L := Rlog10 2) in *.
  unfold logPointsOf, scenarioSamples.
  cbn [map s_day s_value]. unfold ofZ.
  rewrite !Math_log10_Fin by lra. cbn [round].
  rewrite Rlog10_4, Rlog10_8. fold L.
  destruct (fl_near 0 L L) as (y1 & E1 & H1);
    [apply near_exact; lra | lra | lra |].
  destruct (fl_near 0 (2 * L) (2 * L)) as (y2 & E2 & H2);
    [apply near_exact; lra | lra | lra |].
  destruct (fl_near 0 (3 * L) (3 * L)) as (y3 & E3 & H3);
    [apply near_exact; lra | lra | lra |].
  rewrite E1, E2, E3. clear E1 E2 E3.
  replace (0 + 2) with 2 in H1, H2, H3 by lra.
  set (lp := [ {| lx := Fin 10; ly := Fin y1 |};
               {| lx := Fin 17; ly := Fin y2 |};
               {| lx := Fin 24; ly := Fin y3 |} ]).
  assert (EX : sumOf lx lp = Fin 51).
  { unfold sumOf, lp. cbn [fold_left lx].
    rewrite !fadd_Fin.
    rewrite (fl_IZR (0 + 10) 10) by (lra || (cbn; lia)).
    rewrite fadd_Fin, (fl_IZR (0 + 10 + 17) 27) by (lra || (cbn; lia)).
    rewrite fadd_Fin, (fl_IZR (0 + 10 + 17 + 24) 51) by (lra || (cbn; lia)).
    f_equal. lra. }
  assert (EX2 : sumOf (fun p => (lx p *! lx p)%num) lp = Fin 965).
  { unfold sumOf, lp. cbn [fold_left lx].
    rewrite !fmul_Fin.
    rewrite (fl_IZR (10 * 10) 100), (fl_IZR (17 * 17) 289),
      (fl_IZR (24 * 24) 576) by (lra || (cbn; lia)).
    rewrite fadd_Fin, (fl_IZR (0 + 10 * 10) 100) by (lra || (cbn; lia)).
    rewrite fadd_Fin, (fl_IZR (0 + 10 * 10 + 17 * 17) 389)
      by (lra || (cbn; lia)).
    rewrite fadd_Fin, (fl_IZR (0 + 10 * 10 + 17 * 17 + 24 * 24) 965)
      by (lra || (cbn; lia)).
    f_equal. lra. }
  assert (EY : exists sy, sumOf ly lp = Fin sy /\ near 8 (6 * L) sy).
  { unfold sumOf, lp. cbn [fold_left ly].
    rewrite fadd_Fin.
    assert (N1 : near 2 L (0 + y1))
      by (replace (0 + y1) with y1 by lra; exact H1).
    fl_step N1 a1 A1. rewrite fadd_Fin.
    assert (N2 : near 4 (3 * L) (a1 + y2)).
    { replace (3 * L) with (L + 2 * L) by lra.
      apply near_plus; [replace 4 with (2 + 2) by lra; exact A1 |].
      apply (near_weaken 2); [lra | lra | exact H2]. }
    fl_step N2 a2 A2. rewrite fadd_Fin.
    assert (N3 : near 6 (6 * L) (a2 + y3)).
    { replace (6 * L) with (3 * L + 3 * L) by lra.
      apply near_plus; [replace 6 with (4 + 2) by lra; exact A2 |].
      apply (near_weaken 2); [lra | lra | exact H3]. }
    fl_step N3 a3 A3.
    exists a3. split; [reflexivity |].
    replace 8 with (6 + 2) by lra. exact A3. }
  assert (EXY : exists sxy, sumOf (fun p => (lx p *! ly p)%num) lp = Fin sxy
                            /\ near 10 (116 * L) sxy).
  { unfold sumOf, lp. cbn [fold_left lx ly].
    rewrite !fmul_Fin.
    assert (T1 : near 2 (10 * L) (10 * y1))
      by (apply near_scale; [lra | exact H1]).
    assert (T2 : near 2 (34 * L) (17 * y2)).
    { replace (34 * L) with (17 * (2 * L)) by lra.
      apply near_scale; [lra | exact H2]. }
    assert (T3 : near 2 (72 * L) (24 * y3)).
    { replace (72 * L) with (24 * (3 * L)) by lra.
      apply near_scale; [lra | exact H3]. }
    fl_step T1 t1 P1. fl_step T2 t2 P2. fl_step T3 t3 P3.
    rewrite fadd_Fin.
    assert (N1 : near (2 + 2) (10 * L) (0 + t1))
      by (replace (0 + t1) with t1 by lra; exact P1).
    fl_step N1 a1 A1. rewrite fadd_Fin.
    assert (N2 : near (2 + 2 + 2) (44 * L) (a1 + t2)).
    { replace (44 * L) with (10 * L + 34 * L) by lra.
      apply near_plus; [exact A1 |].
      apply (near_weaken (2 + 2)); [lra | lra | exact P2]. }
    fl_step N2 a2 A2. rewrite fadd_Fin.
    assert (N3 : near (2 + 2 + 2 + 2) (116 * L) (a2 + t3)).
    { replace (116 * L) with (44 * L + 72 * L) by lra.
      apply near_plus; [exact A2 |].
      apply (near_weaken (2 + 2)); [lra | lra | exact P3]. }
    fl_step N3 a3 A3.
    exists a3. split; [reflexivity |].
    replace 10 with (2 + 2 + 2 + 2 + 2) by lra. exact A3. }
  destruct EY as (sy & EY & HY). destruct EXY as (sxy & EXY & HXY).
  unfold fitSlope. rewrite EX, EX2, EY, EXY.
  change (List.length lp) with 3%nat. rewrite ofnat_IZR.
  change (Z.of_nat 3) with 3%Z.
  (* the denominator *)
  rewrite (fmul_Fin 3 965), (fl_IZR (3 * 965) 2895) by (lra || (cbn; lia)).
  rewrite (fmul_Fin 51 51), (fl_IZR (51 * 51) 2601) by (lra || (cbn; lia)).
  rewrite (fsub_Fin (3 * 965)), (fl_IZR (3 * 965 - 51 * 51) 294)
    by (lra || (cbn; lia)).
  (* the numerator *)
  rewrite (fmul_Fin 3 sxy), (fmul_Fin 51 sy).
  assert (NA : near 10 (348 * L) (3 * sxy)).
  { replace (348 * L) with (3 * (116 * L)) by lra.
    apply near_scale; [lra | exact HXY]. }
  assert (NB : near 8 (306 * L) (51 * sy)).
  { replace (306 * L) with (51 * (6 * L)) by lra.
    apply near_scale; [lra | exact HY]. }
  fl_step NA a PA. fl_step NB b PB. rewrite fsub_Fin.
  assert (NN : near 173 (42 * L) (a - b)).
  { replace (42 * L) with (348 * L - 306 * L) by lra.
    apply (near_minus (10 + 2) (8 + 2)); [exact PA | exact PB | lra]. }
  fl_step NN nn PN.
  rewrite fdiv_Fin by lra.
  assert (NS : near (173 + 2) (L / 7) (nn / (3 * 965 - 51 * 51))).
  { replace (3 * 965 - 51 * 51) with 294 by lra.
    replace (L / 7) with (1 / 294 * (42 * L)) by lra.
    replace (nn / 294) with (1 / 294 * nn) by lra.
    apply near_scale; [lra | exact PN]. }
  fl_step NS s PS.
  exists s. split; [reflexivity |].
  replace 177 with (173 + 2 + 2) by lra. exact PS.
Qed.

(** The weekly celeration of the scenario is 2 up to about a thousand
    roundings, within [10^-11]. *)
Lemma scenario_celeration :
  exists r, calculateCeleration scenarioSamples = Fin r
            /\ Rabs (r - 2) <= 1 / 10 ^ 11.
Proof.
  pose proof Rlog10_2_range as HL. pose proof eps_pos as He0.
  pose proof eps_small as He1.
  rewrite calculateCeleration_many
    by (rewrite scenario_positive; cbn; lia).
  rewrite scenario_positive.
  destruct scenario_slope as (s & -> & Hs). rewrite fmul_Fin.
  assert (N7 : near 177 (Rlog10 2) (s * 7)).
  { replace (s * 7) with (7 * s) by lra.
    replace (Rlog10 2) with (7 * (Rlog10 2 / 7)) at 1 by lra.
    apply near_scale; [lra | exact Hs]. }
  fl_step N7 e Pe.
  assert (Hd : Rabs (e - Rlog10 2) <= 179 * eps).
  { assert (H0 : 0 <= Rlog10 2) by lra.
    pose proof (near_abs _ _ _ H0 Pe) as H.
    apply Rle_trans with (1 := H).
    replace (177 + 2) with 179 by lra.
    assert (0 <= 179 * eps) by lra. nra. }
  assert (Hs0 : 179 * eps <= 1 / 6).
  { simpl pow in He1. lra. }
  destruct (Rpow10_near _ _ _ Hd Hs0) as [P1 P2].
  rewrite Rpow10_log10 in P1, P2 by lra.
  rewrite Math_pow10_range.
  2:{ simpl pow in He1. split; nra. }
  cbn [round].
  assert (NP : near 1074 2 (Rpow10 e)).
  { unfold near. split; lra. }
  fl_step NP r Pr.
  exists r. split; [reflexivity |].
  destruct Pr as [R1 R2]. simpl pow in *. apply Rabs_le. lra.
Qed.

(** ... and it is shown as ["x2.00"]. *)
Lemma scenario_format (nts : R -> string) :
  formatCeleration nts (calculateCeleration scenarioSamples) = "x2.00".
Proof.
  destruct scenario_celeration as (r & -> & Hr).
  apply Rabs_bounds in Hr. simpl pow in Hr.
  rewrite formatCeleration_ge1 by lra.
  rewrite (toFixed2_nearest nts r 200) by (rewrite ?pow10_21; lra).
  reflexivity.
Qed.

(** ** Points on a line with integer coefficients

    When the days, the logarithms [a + b x] and the sums of their
    products are integers below [2^53], no operation of the fit is
    rounded and the slope is [b] itself. *)

Lemma Zsum_affine {A} (X : A -> Z) (a b : Z) (l : list A) :
  Zsum (fun p => (a + b * X p)%Z) l
  = (Z.of_nat (List.length l) * a + b * Zsum X l)%Z.
Proof.
  induction l as [| p t IH]; [cbn; lia |].
  cbn [Zsum fold_right List.length]. fold (Zsum X t).
  fold (Zsum (fun p => (a + b * X p)%Z) t). rewrite IH. lia.
Qed.

Lemma Zsum_affine_product {A} (X : A -> Z) (a b : Z) (l : list A) :
  Zsum (fun p => (X p * (a + b * X p))%Z) l
  = (a * Zsum X l + b * Zsum (fun p => (X p * X p)%Z) l)%Z.
Proof.
  induction l as [| p t IH]; [cbn; lia |].
  cbn [Zsum fold_right]. fold (Zsum X t).
  fold (Zsum (fun p => (X p * X p)%Z) t).
  fold (Zsum (fun p => (X p * (a + b * X p))%Z) t). rewrite IH. lia.
Qed.

Lemma Zsum_map {A B} (f : A -> B) (g : B -> Z) (l : list A) :
  Zsum g (map f l) = Zsum (fun p => g (f p)) l.
Proof.
  induction l as [| p t IH]; [reflexivity |].
  cbn [map Zsum fold_right]. fold (Zsum g (map f t)).
  fold (Zsum (fun p => g (f p)) t). now rewrite IH.
Qed.

Section IntegerLine.

Variable logPoints : list LogPoint.
Variable X : LogPoint -> Z.
Variables a b M : Z.
Hypothesis HX : forall p, In p logPoints -> lx p = Fin (IZR (X p)).
Hypothesis HY : forall p, In p logPoints -> ly p = Fin (IZR (a + b * X p)).
Hypothesis HMX : forall p, In p logPoints -> (Z.abs (X p) <= M)%Z.
Hypothesis HMY : forall p, In p logPoints -> (Z.abs (a + b * X p) <= M)%Z.

Let n := Z.of_nat (List.length logPoints).
Let S1 := Zsum X logPoints.
Let S2 := Zsum (fun p => (X p * X p)%Z) logPoints.

Hypothesis HM : (n * n * (M * M) <= 2 ^ 52)%Z.
Hypothesis HD : (n * S2 - S1 * S1 <> 0)%Z.

Lemma fitSlope_integer_line : fitSlope logPoints = Fin (IZR b).
Proof.
  assert (HM' : (n * n * (M * M) <= 2 ^ 53)%Z) by (unfold n in *; lia).
  assert (Hn : (0 <= n)%Z) by (unfold n; lia).
  destruct (days_sum_bound logPoints X M HX HMX HM') as [Bn Bn2].
  fold n in Bn, Bn2.
  assert (H1 : (1 <= n)%Z).
  { unfold n. destruct logPoints; [| cbn; lia].
    exfalso. apply HD. reflexivity. }
  assert (HM0 : (0 <= M)%Z).
  { destruct (days_bound logPoints X M HX HMX HM') as [H | E]; [exact H |].
    exfalso. apply HD. unfold n, S1, S2. rewrite E. reflexivity. }
  assert (Hm : (0 <= M * M)%Z) by nia.
  pose proof (Zsquare_scale n (M * M) H1 Hm) as Hmm.
  unfold fitSlope.
  rewrite (denominator_int logPoints X M HX HMX HM').
  fold n S1 S2.
  rewrite (sumX_int logPoints X M HX HMX HM'). fold S1.
  rewrite (sumOf_int ly (fun p => (a + b * X p)%Z) logPoints M HY HMY Bn).
  rewrite (sumOf_int _ (fun p => (X p * (a + b * X p))%Z) logPoints (M * M)).
  2:{ intros p Hp. cbv beta. rewrite (HX p Hp), (HY p Hp). apply fmul_int.
      pose proof (Zabs_mul_le _ _ _ _ (HMX p Hp) (HMY p Hp)). lia. }
  2:{ intros p Hp. exact (Zabs_mul_le _ _ _ _ (HMX p Hp) (HMY p Hp)). }
  2:{ exact Bn2. }
  rewrite ofnat_IZR. fold n.
  pose proof (Zsum_bound X logPoints M HMX) as B1. fold n S1 in B1.
  pose proof (Zsum_bound _ logPoints M HMY) as B2. fold n in B2.
  assert (B3 : (Z.abs (Zsum (fun p => (X p * (a + b * X p))%Z) logPoints)
                <= n * (M * M))%Z).
  { apply Zsum_bound. intros p Hp.
    exact (Zabs_mul_le _ _ _ _ (HMX p Hp) (HMY p Hp)). }
  set (SY := Zsum (fun p => (a + b * X p)%Z) logPoints) in *.
  set (SXY := Zsum (fun p => (X p * (a + b * X p))%Z) logPoints) in *.
  assert (B4 : (Z.abs (n * SXY) <= n * n * (M * M))%Z).
  { replace (n * n * (M * M))%Z with (n * (n * (M * M)))%Z by ring.
    apply Zabs_mul_le; lia. }
  assert (B5 : (Z.abs (S1 * SY) <= n * n * (M * M))%Z).
  { replace (n * n * (M * M))%Z with (n * M * (n * M))%Z by ring.
    now apply Zabs_mul_le. }
  rewrite (fmul_int n SXY), (fmul_int S1 SY) by lia.
  rewrite fsub_int by lia.
  assert (EN : (n * SXY - S1 * SY = b * (n * S2 - S1 * S1))%Z).
  { unfold SXY, SY. rewrite Zsum_affine, Zsum_affine_product.
    fold n S1 S2. ring. }
  assert (Hb : (Z.abs b <= 2 ^ 53)%Z).
  { assert (HN : (Z.abs (b * (n * S2 - S1 * S1)) <= 2 ^ 53)%Z)
      by (rewrite <- EN; lia).
    rewrite Z.abs_mul in HN.
    assert (1 <= Z.abs (n * S2 - S1 * S1))%Z by lia.
    pose proof (Z.abs_nonneg b). nia. }
  rewrite EN. rewrite fdiv_Fin by (apply not_0_IZR; exact HD).
  rewrite mult_IZR.
  replace (IZR b * IZR (n * S2 - S1 * S1) / IZR (n * S2 - S1 * S1))
    with (IZR b) by (field; apply not_0_IZR; exact HD).
  now apply fl_int.
Qed.

End IntegerLine.

(** The same for [calculateCeleration]: samples with the values
    [10^(a + b day)], on integer days. *)
Lemma calculateCeleration_integer_line (dataPoints : list Sample) (a b M : Z) :
  let n := Z.of_nat (List.length dataPoints) in
  (forall p, In p dataPoints ->
             s_value p = Fin (Rpow10 (IZR (a + b * s_day p)))) ->
  (forall p, In p dataPoints ->
             (Z.abs (s_day p) <= M)%Z /\ (Z.abs (a + b * s_day p) <= M)%Z) ->
  (n * n * (M * M) <= 2 ^ 52)%Z ->
  (n * Zsum (fun p => (s_day p * s_day p)%Z) dataPoints
   - Zsum s_day dataPoints * Zsum s_day dataPoints <> 0)%Z ->
  positivePoints dataPoints = dataPoints
  /\ fitSlope (logPointsOf dataPoints) = Fin (IZR b)
  /\ calculateCeleration dataPoints = round (Math_pow10 (Fin (IZR (b * 7)))).
Proof.
  intros n Hv Hb HM HD.
  assert (Hpos : positivePoints dataPoints = dataPoints).
  { unfold positivePoints. apply forallb_filter_id, forallb_forall.
    intros p Hp.
    rewrite (Hv p Hp). unfold ngt. apply nlt_Fin. apply Rpow10_pos. }
  assert (Hlen : (2 <= List.length dataPoints)%nat).
  { destruct dataPoints as [| p [| q t]]; [| | cbn; lia]; exfalso; apply HD.
    - reflexivity.
    - subst n. cbn. lia. }
  set (X := fun q : LogPoint => Zfloor (Rval (lx q))).
  assert (Es : fitSlope (logPointsOf dataPoints) = Fin (IZR b)).
  { apply (fitSlope_integer_line (logPointsOf dataPoints) X a b M).
    - intros q Hq. unfold logPointsOf in Hq. apply in_map_iff in Hq.
      destruct Hq as (p & <- & Hp). unfold X. cbn [lx ofZ Rval].
      unfold ofZ. cbn [Rval]. now rewrite ZfloorZ.
    - intros q Hq. unfold logPointsOf in Hq. apply in_map_iff in Hq.
      destruct Hq as (p & <- & Hp). unfold X. cbn [lx ly].
      unfold ofZ. cbn [Rval]. rewrite ZfloorZ, (Hv p Hp).
      rewrite Math_log10_Fin by apply Rpow10_pos.
      rewrite Rlog10_pow10. cbn [round]. apply fl_int.
      destruct (Hb p Hp) as [B1 B2].
      assert (H1 : (1 <= n)%Z) by (subst n; lia).
      assert (HM0 : (0 <= M)%Z) by lia.
      assert (Hm : (0 <= M * M)%Z) by nia.
      pose proof (Zsquare_scale n (M * M) H1 Hm).
      assert (M <= M * M \/ M = 0)%Z by nia. lia.
    - intros q Hq. unfold logPointsOf in Hq. apply in_map_iff in Hq.
      destruct Hq as (p & <- & Hp). unfold X. cbn [lx].
      unfold ofZ. cbn [Rval]. rewrite ZfloorZ. apply (Hb p Hp).
    - intros q Hq. unfold logPointsOf in Hq. apply in_map_iff in Hq.
      destruct Hq as (p & <- & Hp). unfold X. cbn [lx].
      unfold ofZ. cbn [Rval]. rewrite ZfloorZ. apply (Hb p Hp).
    - unfold logPointsOf. rewrite length_map. exact HM.
    - unfold logPointsOf. rewrite length_map, !Zsum_map.
      unfold X. cbn [lx]. unfold ofZ. cbn [Rval].
      rewrite (Zsum_ext (fun p => Zfloor (IZR (s_day p))) s_day)
        by (intros; apply ZfloorZ).
      rewrite (Zsum_ext
                 (fun p => (Zfloor (IZR (s_day p)) * Zfloor (IZR (s_day p)))%Z)
                 (fun p => (s_day p * s_day p)%Z))
        by (intros; now rewrite ZfloorZ).
      exact HD. }
  split; [exact Hpos |]. split; [exact Es |].
  rewrite calculateCeleration_many by (rewrite Hpos; exact Hlen).
  rewrite Hpos, Es. rewrite fmul_int.
  - reflexivity.
  - (* |7 b| <= 2^53: the slope times the denominator is an integer of
       at most 2^52 *)
    destruct dataPoints as [| p [| q t]]; [cbn in Hlen; lia .. |].
    assert (Hn2 : (2 <= n)%Z) by (subst n; cbn [List.length]; lia).
    destruct (Z.eq_dec (s_day p) (s_day q)) as [E | NE].
    + (* two samples on one day: look for a sample on another day *)
      clear - Hb HM HD Hn2. 
      assert (Hex : exists r, In r (p :: q :: t) /\ s_day r <> s_day p).
      { destruct (Exists_dec (fun r => s_day r <> s_day p) (p :: q :: t))
          as [Hex | Hall].
        - intros r. destruct (Z.eq_dec (s_day r) (s_day p)); [right | left]; tauto.
        - apply Exists_exists in Hex. exact Hex.
        - exfalso. apply HD.
          assert (Hc : forall r, In r (p :: q :: t) -> s_day r = s_day p).
          { intros r Hr. destruct (Z.eq_dec (s_day r) (s_day p)); [assumption |].
            exfalso. apply Hall. apply Exists_exists. now exists r. }
          rewrite (Zsum_ext s_day (fun _ => s_day p)) by exact Hc.
          rewrite (Zsum_ext (fun r => (s_day r * s_day r)%Z)
                     (fun _ => (s_day p * s_day p)%Z))
            by (intros r Hr; now rewrite (Hc r Hr)).
          rewrite !Zsum_const. fold n. ring. }
      destruct Hex as (r & Hr & Hne).
      destruct (Hb p (or_introl eq_refl)) as [_ B1].
      destruct (Hb r Hr) as [_ B2].
      assert (Ed : ((a + b * s_day r) - (a + b * s_day p)
                    = b * (s_day r - s_day p))%Z) by ring.
      assert (Hbd : (Z.abs (b * (s_day r - s_day p)) <= 2 * M)%Z) by lia.
      rewrite Z.abs_mul in Hbd.
      assert (1 <= Z.abs (s_day r - s_day p))%Z by lia.
      assert (Z.abs b <= 2 * M)%Z by (pose proof (Z.abs_nonneg b); nia).
      assert (HM0 : (0 <= M)%Z) by lia.
      assert (Hq : (4 * (M * M) <= 2 ^ 52)%Z) by nia.
      assert (M * M <= 2 ^ 50)%Z by lia.
      assert (M <= 2 ^ 25)%Z by nia.
      lia.
    + destruct (Hb p (or_introl eq_refl)) as [_ B1].
      destruct (Hb q (or_intror (or_introl eq_refl))) as [_ B2].
      assert (Ed : ((a + b * s_day q) - (a + b * s_day p)
                    = b * (s_day q - s_day p))%Z) by ring.
      assert (Hbd : (Z.abs (b * (s_day q - s_day p)) <= 2 * M)%Z) by lia.
      rewrite Z.abs_mul in Hbd.
      assert (1 <= Z.abs (s_day q - s_day p))%Z by lia.
      assert (Z.abs b <= 2 * M)%Z by (pose proof (Z.abs_nonneg b); nia).
      assert (HM0 : (0 <= M)%Z) by lia.
      assert (Hq : (4 * (M * M) <= 2 ^ 52)%Z) by nia.
      assert (M * M <= 2 ^ 50)%Z by lia.
      assert (M <= 2 ^ 25)%Z by nia.
      lia.
Qed.

(** ** Rounding of integers above [2^53] *)

Lemma nearestEven_down (x : R) (f : Z) :
  IZR f <= x < IZR f + 1 / 2 -> nearestEven x = f.
Proof.
  intros H. unfold nearestEven.
  rewrite (Zfloor_eq f) by lra.
  destruct (Rlt_dec (x - IZR f) (1 / 2)); [reflexivity | lra].
Qed.

Lemma nearestEven_tie (f : Z) :
  Z.even f = true -> nearestEven (IZR f + 1 / 2) = f.
Proof.
  intros H. unfold nearestEven.
  rewrite (Zfloor_eq f) by lra.
  destruct (Rlt_dec (IZR f + 1 / 2 - IZR f) (1 / 2)); [lra |].
  destruct (Rlt_dec (1 / 2) (IZR f + 1 / 2 - IZR f)); [lra |].
  now rewrite H.
Qed.

(** The rounding of [x] in the binade [[2^e, 2^(e+1))], [e >= 52],
    where the spacing of the numbers is [w = 2^(e-52)]. *)
Lemma fl_at (x y : R) (e lo hi w q : Z) :
  (52 <= e <= 1022)%Z ->
  lo = (2 ^ e)%Z -> hi = (2 ^ (e + 1))%Z -> w = (2 ^ (e - 52))%Z ->
  IZR lo <= x < IZR hi ->
  nearestEven (x / IZR w) = q ->
  y = IZR (q * w) ->
  0 <= y <= IZR hi ->
  fl x = Fin y.
Proof.
  intros He -> -> -> Hx Hq -> Hy.
  rewrite <- !bpow_IZR in * by lia.
  pose proof (bpow_pos e) as Hpe.
  assert (Hx0 : 0 < x) by lra.
  unfold fl. destruct (Req_dec_T x 0); [lra |].
  rewrite (expo_unique x e) by (rewrite Rabs_pos_eq by lra; exact Hx).
  rewrite Z.max_l by lia. rewrite Hq.
  rewrite mult_IZR in Hy.
  rewrite <- (bpow_IZR (e - 52)) in Hy by lia.
  rewrite mult_IZR, <- (bpow_IZR (e - 52)) by lia.
  destruct (Rle_dec (bpow 1024) (Rabs (IZR q * bpow (e - 52)))) as [Ho |];
    [| reflexivity].
  exfalso. rewrite Rabs_pos_eq in Ho by lra.
  assert (bpow (e + 1) < bpow 1024) by (apply bpow_lt; lia). lra.
Qed.

(** ** Two late days

    On days near [10^8] the squares of the days are above [2^53], and
    the denominator of the slope loses all its digits but the
    leading one. *)

Lemma late_slope : fitSlope (logPointsOf lateSamples) = fl (7 / 48).
Proof.
  unfold logPointsOf, lateSamples. cbn [map s_day s_value]. unfold ofZ.
  rewrite !Math_log10_Fin by lra. rewrite Rlog10_1, Rlog10_10.
  cbn [round]. rewrite fl_0, (fl_IZR 1 1) by (lra || (cbn; lia)).
  unfold fitSlope, sumOf. cbn [fold_left lx ly List.length].
  rewrite ofnat_IZR. change (Z.of_nat 2) with 2%Z.
  (* the sum of the days *)
  assert (EX : ((Fin 0 +! Fin 100000000) +! Fin 100000007)%num
               = Fin 200000007).
  { rewrite fadd_Fin, (fl_IZR _ 100000000) by (lra || (cbn; lia)).
    rewrite fadd_Fin, (fl_IZR _ 200000007) by (lra || (cbn; lia)).
    f_equal. lra. }
  (* the sum of the logarithms *)
  assert (EY : ((Fin 0 +! Fin 0) +! Fin 1)%num = Fin 1).
  { rewrite fadd_Fin, (fl_IZR _ 0) by (lra || (cbn; lia)).
    rewrite fadd_Fin, (fl_IZR _ 1) by (lra || (cbn; lia)).
    f_equal. lra. }
  (* the sum of the products *)
  assert (EXY : ((Fin 0 +! Fin 100000000 *! Fin 0)
                 +! Fin 100000007 *! Fin 1)%num = Fin 100000007).
  { rewrite !fmul_Fin.
    rewrite (fl_IZR (100000000 * 0) 0) by (lra || (cbn; lia)).
    rewrite (fl_IZR (100000007 * 1) 100000007) by (lra || (cbn; lia)).
    rewrite fadd_Fin, (fl_IZR _ 0) by (lra || (cbn; lia)).
    rewrite fadd_Fin, (fl_IZR _ 100000007) by (lra || (cbn; lia)).
    f_equal. lra. }
  (* the sum of the squares: the second square is a tie, rounded to
     the even neighbour below *)
  assert (EX2 : ((Fin 0 +! Fin 100000000 *! Fin 100000000)
                 +! Fin 100000007 *! Fin 100000007)%num
                = Fin 20000001400000048).
  { rewrite !fmul_Fin.
    rewrite (fl_at (100000000 * 100000000) 10000000000000000 53
               9007199254740992 18014398509481984 2 5000000000000000);
      [| lia | reflexivity | reflexivity | reflexivity | lra
       | replace (100000000 * 100000000 / 2) with (IZR 5000000000000000)
           by lra; apply nearestEven_IZR
       | reflexivity | lra ].
    rewrite (fl_at (100000007 * 100000007) 10000001400000048 53
               9007199254740992 18014398509481984 2 5000000700000024);
      [| lia | reflexivity | reflexivity | reflexivity | lra
       | replace (100000007 * 100000007 / 2)
           with (IZR 5000000700000024 + 1 / 2) by lra;
         apply nearestEven_tie; reflexivity
       | reflexivity | lra ].
    rewrite fadd_Fin.
    rewrite (fl_at (0 + 10000000000000000) 10000000000000000 53
               9007199254740992 18014398509481984 2 5000000000000000);
      [| lia | reflexivity | reflexivity | reflexivity | lra
       | replace ((0 + 10000000000000000) / 2) with (IZR 5000000000000000)
           by lra; apply nearestEven_IZR
       | reflexivity | lra ].
    rewrite fadd_Fin.
    apply (fl_at _ _ 54 18014398509481984 36028797018963968 4
             5000000350000012);
      [ lia | reflexivity | reflexivity | reflexivity | lra
      | replace ((10000000000000000 + 10000001400000048) / 4)
          with (IZR 5000000350000012) by lra; apply nearestEven_IZR
      | reflexivity | lra ]. }
  rewrite EX, EY, EXY, EX2.
  (* the denominator: 48, where the exact value is 49 *)
  assert (ED : (Fin 2 *! Fin 20000001400000048
                -! Fin 200000007 *! Fin 200000007)%num = Fin 48).
  { rewrite !fmul_Fin.
    rewrite (fl_at (2 * 20000001400000048) 40000002800000096 55
               36028797018963968 72057594037927936 8 5000000350000012);
      [| lia | reflexivity | reflexivity | reflexivity | lra
       | replace (2 * 20000001400000048 / 8) with (IZR 5000000350000012)
           by lra; apply nearestEven_IZR
       | reflexivity | lra ].
    rewrite (fl_at (200000007 * 200000007) 40000002800000048 55
               36028797018963968 72057594037927936 8 5000000350000006);
      [| lia | reflexivity | reflexivity | reflexivity | lra
       | apply nearestEven_down; lra
       | reflexivity | lra ].
    rewrite fsub_Fin, (fl_IZR _ 48) by (lra || (cbn; lia)).
    f_equal. lra. }
  rewrite ED.
  (* the numerator: 7 *)
  rewrite !fmul_Fin.
  rewrite (fl_IZR (2 * 100000007) 200000014) by (lra || (cbn; lia)).
  rewrite (fl_IZR (200000007 * 1) 200000007) by (lra || (cbn; lia)).
  rewrite fsub_Fin, (fl_IZR _ 7) by (lra || (cbn; lia)).
  rewrite fdiv_Fin by lra. f_equal. lra.
Qed.

(** The weekly celeration the program computes for them is above 10.3,
    where the line has 10. *)
Lemma late_celeration :
  exists r, calculateCeleration lateSamples = Fin r /\ 103 / 10 < r.
Proof.
  pose proof eps_pos as He0. pose proof eps_small as He1.
  rewrite calculateCeleration_many by (rewrite late_positive; cbn; lia).
  rewrite late_positive, late_slope.
  assert (N0 : near 0 (7 / 48) (7 / 48)) by (apply near_exact; lra).
  fl_step N0 s Ps. rewrite fmul_Fin.
  assert (N1 : near (0 + 2) (49 / 48) (s * 7)).
  { replace (s * 7) with (7 * s) by lra.
    replace (49 / 48) with (7 * (7 / 48)) by lra.
    apply near_scale; [lra | exact Ps]. }
  fl_step N1 e Pe.
  assert (Hlo : 102 / 100 <= e <= 103 / 100).
  { destruct Pe as [P1 P2]. split; nra. }
  rewrite Math_pow10_Fin by lra. cbn [round].
  assert (Hp : 104 / 10 <= Rpow10 e <= 1000).
  { split; [| apply Rpow10_range; lra].
    assert (E1 : Rpow10 1 = 10).
    { rewrite <- Rlog10_10 at 1. apply Rpow10_log10. lra. }
    assert (E10 : Rpow10 e = Rpow10 1 * exp ((e - 1) * ln 10)).
    { unfold Rpow10, Rpower. rewrite <- exp_plus. f_equal. ring. }
    rewrite E10, E1. pose proof (exp_ineq1_le ((e - 1) * ln 10)) as H.
    pose proof ln10_ge_2. nra. }
  assert (NP : near 0 (Rpow10 e) (Rpow10 e)).
  { apply near_exact. lra. }
  fl_step NP r Pr.
  exists r. split; [reflexivity |].
  destruct Pr as [R1 _]. nra.
Qed.

Lemma decade_positive : positivePoints decadeSamples = decadeSamples.
Proof. unfold decadeSamples. positive_filter. Qed.

Lemma Rpow10_0 : Rpow10 0 = 1.
Proof. rewrite <- Rlog10_1 at 1. apply Rpow10_log10. lra. Qed.

Lemma Rpow10_1 : Rpow10 1 = 10.
Proof. rewrite <- Rlog10_10 at 1. apply Rpow10_log10. lra. Qed.

Lemma Rpow10_2 : Rpow10 2 = 100.
Proof.
  assert (E : Rlog10 100 = 2).
  { replace 100 with (10 * 10) by lra.
    rewrite Rlog10_mult, Rlog10_10 by lra. lra. }
  rewrite <- E at 1. apply Rpow10_log10. lra.
Qed.

(** ** Positive points on one day

    The code has no guard for them: the denominator of the slope is 0,
    and the quotient is NaN or an infinity as the rounded numerator is
    0, positive or negative. *)
Lemma fitSlope_same_day (valid : list Sample) (d : Z) :
  (forall p, In p valid -> s_day p = d) ->
  (Z.of_nat (List.length valid) * Z.of_nat (List.length valid) * (d * d)
   <= 2 ^ 53)%Z ->
  let slope := fitSlope (logPointsOf valid) in
  slope = NaN \/ slope = PInf \/ slope = NInf.
Proof.
  intros Hd Hb slope. subst slope. unfold fitSlope.
  rewrite (denominator_same_day (logPointsOf valid) d).
  - apply fdiv_zero.
  - intros q Hq. unfold logPointsOf in Hq. apply in_map_iff in Hq.
    destruct Hq as (p & <- & Hp). cbn [lx]. unfold ofZ.
    now rewrite (Hd p Hp).
  - unfold logPointsOf. rewrite length_map. exact Hb.
Qed.







(** ** The trend segment *)

Lemma Math_min_Fin (a b : R) : Math_min (Fin a) (Fin b) = Fin (Rmin a b).
Proof.
  unfold Math_min, nlt, Rmin.
  destruct (Rlt_dec b a), (Rle_dec a b); try reflexivity; f_equal; lra.
Qed.

Lemma Math_max_Fin (a b : R) : Math_max (Fin a) (Fin b) = Fin (Rmax a b).
Proof.
  unfold Math_max, nlt, Rmax.
  destruct (Rlt_dec a b), (Rle_dec a b); try reflexivity; f_equal; lra.
Qed.

Lemma Math_min_list_ofZ (l : list Z) :
  l <> [] ->
  exists mn, In mn l /\ (forall z, In z l -> (mn <= z)%Z)
             /\ Math_min_list (map ofZ l) = ofZ mn.
Proof.
  induction l as [| z t IH]; [congruence |]. intros _.
  destruct t as [| z' t'].
  - exists z. split; [now left | split].
    + intros ? [<- | []]; lia.
    + reflexivity.
  - destruct IH as (mn & Hin & Hle & E); [discriminate |].
    change (Math_min_list (map ofZ (z :: z' :: t')))
      with (Math_min (ofZ z) (Math_min_list (map ofZ (z' :: t')))).
    rewrite E. unfold ofZ. rewrite Math_min_Fin.
    destruct (Z.le_ge_cases z mn) as [Hz | Hz].
    + exists z. split; [now left | split].
      * intros y [<- | Hy]; [lia | apply Hle in Hy; lia].
      * rewrite Rmin_left; [reflexivity | now apply IZR_le].
    + exists mn. split; [now right | split].
      * intros y [<- | Hy]; [lia | now apply Hle].
      * rewrite Rmin_right; [reflexivity | now apply IZR_le].
Qed.

Lemma Math_max_list_ofZ (l : list Z) :
  l <> [] ->
  exists mx, In mx l /\ (forall z, In z l -> (z <= mx)%Z)
             /\ Math_max_list (map ofZ l) = ofZ mx.
Proof.
  induction l as [| z t IH]; [congruence |]. intros _.
  destruct t as [| z' t'].
  - exists z. split; [now left | split].
    + intros ? [<- | []]; lia.
    + reflexivity.
  - destruct IH as (mx & Hin & Hle & E); [discriminate |].
    change (Math_max_list (map ofZ (z :: z' :: t')))
      with (Math_max (ofZ z) (Math_max_list (map ofZ (z' :: t')))).
    rewrite E. unfold ofZ. rewrite Math_max_Fin.
    destruct (Z.le_ge_cases z mx) as [Hz | Hz].
    + exists mx. split; [now right | split].
      * intros y [<- | Hy]; [lia | now apply Hle].
      * rewrite Rmax_right; [reflexivity | now apply IZR_le].
    + exists z. split; [now left | split].
      * intros y [<- | Hy]; [lia | apply Hle in Hy; lia].
      * rewrite Rmax_left; [reflexivity | now apply IZR_le].
Qed.

Lemma extendDays_Fin (xMax : Z) :
  extendDays xMax = Fin (Rmin 3 (IZR xMax * (1 / 10))).
Proof. unfold extendDays, ofZ. cbn [nmul]. apply Math_min_Fin. Qed.

Lemma visiblePoints_range (dataPoints : list Point) (xMax : Z) (p : NPoint) :
  In p (visiblePoints dataPoints xMax) ->
  (0 <= normalizedDay p <= xMax)%Z.
Proof.
  unfold visiblePoints, normalizedPoints. intros H.
  apply filter_In in H. destruct H as [H Hle].
  apply in_map_iff in H. destruct H as (q & <- & Hq).
  cbn [normalizedDay] in *. apply minDay_le in Hq. lia.
Qed.

(** The span of the trend segment over points whose normalized days lie
    in [[0, xMax]]. *)
Lemma trend_span (points : list NPoint) (xMax : Z) :
  points <> [] ->
  (forall p, In p points -> (0 <= normalizedDay p <= xMax)%Z) ->
  exists mn mx : Z,
    (exists p, In p points /\ normalizedDay p = mn)
    /\ (forall p, In p points -> (mn <= normalizedDay p)%Z)
    /\ (exists p, In p points /\ normalizedDay p = mx)
    /\ (forall p, In p points -> (normalizedDay p <= mx)%Z)
    /\ trendStartX points xMax
       = Fin (Rmax 0 (IZR mn - Rmin 3 (IZR xMax * (1 / 10))))
    /\ trendEndX points xMax
       = Fin (Rmin (IZR xMax) (IZR mx + Rmin 3 (IZR xMax * (1 / 10))))
    /\ 0 <= Rmax 0 (IZR mn - Rmin 3 (IZR xMax * (1 / 10)))
    /\ Rmax 0 (IZR mn - Rmin 3 (IZR xMax * (1 / 10)))
       <= Rmin (IZR xMax) (IZR mx + Rmin 3 (IZR xMax * (1 / 10)))
    /\ Rmin (IZR xMax) (IZR mx + Rmin 3 (IZR xMax * (1 / 10))) <= IZR xMax.
Proof.
  intros Hne Hrange.
  assert (Hne' : map normalizedDay points <> [])
    by (destruct points; [congruence | discriminate]).
  destruct (Math_min_list_ofZ _ Hne') as (mn & Hmn & Hmnle & Emin).
  destruct (Math_max_list_ofZ _ Hne') as (mx & Hmx & Hmxle & Emax).
  rewrite map_map in Emin, Emax.
  apply in_map_iff in Hmn. destruct Hmn as (pmn & Epmn & Hpmn).
  apply in_map_iff in Hmx. destruct Hmx as (pmx & Epmx & Hpmx).
  exists mn, mx.
  assert (H0 : (0 <= mn)%Z) by (subst mn; now apply Hrange).
  assert (H1 : (mx <= xMax)%Z) by (subst mx; now apply Hrange).
  assert (H2 : (mn <= mx)%Z)
    by (subst mx; apply Hmnle, in_map; assumption).
  apply IZR_le in H0, H1, H2.
  assert (He : 0 <= Rmin 3 (IZR xMax * (1 / 10))).
  { apply Rmin_glb; lra. }
  split; [eauto |]. split; [intros; apply Hmnle, in_map; assumption |].
  split; [eauto |]. split; [intros; apply Hmxle, in_map; assumption |].
  split.
  { unfold trendStartX. rewrite Emin, extendDays_Fin. unfold ofZ.
    cbn [nsub nadd nneg]. rewrite Math_max_Fin. reflexivity. }
  split.
  { unfold trendEndX. rewrite Emax, extendDays_Fin. unfold ofZ.
    cbn [nadd]. rewrite Math_min_Fin. reflexivity. }
  split; [apply Rmax_l |].
  split; [| apply Rmin_l].
  apply Rmax_lub; apply Rmin_glb; lra.
Qed.

Lemma positiveValue_gt (a : num) : (a >? Fin 0)%num = positiveValue a.
Proof.
  destruct a as [r | | |]; unfold ngt, positiveValue; cbn [nlt];
    reflexivity.
Qed.

Lemma validPoints_positive (visible : list NPoint) :
  validPoints visible
  = filter (fun p => positiveValue (value (point p))) visible.
Proof.
  unfold validPoints. apply filter_ext. intros p. apply positiveValue_gt.
Qed.

(** C6.  The trend line of a series is drawn exactly when the option is
    on and at least two of the zoom-clipped visible points have a
    positive value, and nothing is drawn for it otherwise; it is then
    one dashed segment from [startX = max(0, minX - extension)] to
    [endX = min(xMax, maxX + extension)], [extension = min(3, xMax * 0.1)],
    over the least and greatest normalized day of those points, with each
    end at the value [10^(intercept + slope * x)] of the fit through
    those points, mapped by [valueToY]; [0 <= startX <= endX <= xMax]. *)
Theorem celerationOps_segment (st : State) (color : option string)
    (dataPoints : list Point) (chartWidth chartHeight : num) (xMax : Z) :
  let visible := visiblePoints dataPoints xMax in
  let valid := filter (fun p => positiveValue (value (point p))) visible in
  let slope := fitSlope (trendLogPoints valid) in
  let intercept := fitIntercept (trendLogPoints valid) in
  let extension := Rmin 3 (IZR xMax * (1 / 10)) in
  let ops := celerationOps st color visible chartWidth chartHeight xMax in
  (ops <> []
   <-> showCelerationLines (displayOptions st) = true
       /\ (2 <= List.length valid)%nat)
  /\ (showCelerationLines (displayOptions st) = false
      \/ (List.length valid < 2)%nat ->
      ops = [])
  /\ (showCelerationLines (displayOptions st) = true ->
      (2 <= List.length valid)%nat ->
      exists (minX maxX : Z) (startX endX : R),
        (exists p, In p valid /\ normalizedDay p = minX)
        /\ (forall p, In p valid -> (minX <= normalizedDay p)%Z)
        /\ (exists p, In p valid /\ normalizedDay p = maxX)
        /\ (forall p, In p valid -> (normalizedDay p <= maxX)%Z)
        /\ startX = Rmax 0 (IZR minX - extension)
        /\ endX = Rmin (IZR xMax) (IZR maxX + extension)
        /\ 0 <= startX <= endX /\ endX <= IZR xMax
        /\ ops
           = [ strokeStyle color; lineWidth (Fin (3 / 2));
               setLineDash [Fin 5; Fin 5]; globalAlpha (Fin (8 / 10));
               beginPath;
               moveTo (Fin startX / ofZ xMax * chartWidth)%num
                 (valueToY
                    (round (Math_pow10 (intercept +! slope *! Fin startX)%num))
                    chartHeight);
               lineTo (Fin endX / ofZ xMax * chartWidth)%num
                 (valueToY
                    (round (Math_pow10 (intercept +! slope *! Fin endX)%num))
                    chartHeight);
               stroke; setLineDash []; globalAlpha (Fin 1) ]).
Proof.
  intros visible valid slope intercept extension ops.
  assert (Ev : validPoints visible = valid) by apply validPoints_positive.
  assert (Hle : (List.length valid <= List.length visible)%nat)
    by apply filter_length_le.
  assert (Hops : showCelerationLines (displayOptions st) = true ->
                 (2 <= List.length valid)%nat ->
                 ops = drawCelerationLine valid color chartWidth chartHeight
                         xMax).
  { intros Hshow Hlen. unfold ops, celerationOps. rewrite Ev, Hshow.
    destruct (Nat.leb_spec 2 (List.length visible)); [| lia].
    destruct (Nat.leb_spec 2 (List.length valid)); [| lia].
    reflexivity. }
  assert (Hnone : showCelerationLines (displayOptions st) = false
                  \/ (List.length valid < 2)%nat ->
                  ops = []).
  { intros H. unfold ops, celerationOps. rewrite Ev.
    destruct (showCelerationLines (displayOptions st)); cbn [andb];
      [| reflexivity].
    destruct H as [H | H]; [discriminate |].
    destruct (Nat.leb_spec 2 (List.length visible)); [| reflexivity].
    destruct (Nat.leb_spec 2 (List.length valid)); [lia | reflexivity]. }
  split; [| split; [exact Hnone |]].
  - split.
    + intros Hne.
      destruct (showCelerationLines (displayOptions st)) eqn:Hshow.
      * split; [reflexivity |].
        destruct (Nat.le_gt_cases 2 (List.length valid)) as [H | H];
          [exact H |].
        exfalso. apply Hne, Hnone. now right.
      * exfalso. apply Hne, Hnone. now left.
    + intros [Hshow Hlen]. rewrite Hops by assumption. discriminate.
  - intros Hshow Hlen.
    assert (Hne : valid <> []).
    { intros E. rewrite E in Hlen. simpl in Hlen. lia. }
    assert (Hrange : forall p, In p valid -> (0 <= normalizedDay p <= xMax)%Z).
    { intros p Hp. apply filter_In in Hp. destruct Hp as [Hp _].
      now apply visiblePoints_range in Hp. }
    destruct (trend_span valid xMax Hne Hrange)
      as (mn & mx & Hmn & Hmnle & Hmx & Hmxle & Es & Ee & H0 & H1 & H2).
    exists mn, mx, (Rmax 0 (IZR mn - extension)),
      (Rmin (IZR xMax) (IZR mx + extension)).
    repeat (split; [assumption || reflexivity |]).
    split; [split; assumption |]. split; [assumption |].
    rewrite Hops by assumption. unfold drawCelerationLine.
    fold (trendLogPoints valid). fold slope intercept.
    rewrite Es, Ee. reflexivity.
Qed.

(** ** The connecting line and the markers *)

Lemma connectStep_fold (chartWidth chartHeight : num) (xMax : Z)
    (visible : list NPoint) (started : bool) (path : list op) :
  fold_left (connectStep chartWidth chartHeight xMax) visible (started, path)
  = let vs := map (vertexOf chartWidth chartHeight xMax) (linePoints visible) in
    (started || negb (Nat.eqb (List.length vs) 0),
     path ++ (if started then map (fun w => lineTo (fst w) (snd w)) vs
              else pathThrough vs)).
Proof.
  revert started path.
  induction visible as [| p t IH]; intros started path; cbn [fold_left].
  - cbn. destruct started; cbn; now rewrite app_nil_r.
  - unfold connectStep at 2. unfold linePoints. cbn [filter].
    fold (linePoints t).
    destruct (value (point p) <=? Fin 0)%num; cbn [negb].
    + apply IH.
    + destruct started; cbn [negb]; rewrite IH; cbn zeta; cbn [map List.length];
        cbn [Nat.eqb negb orb pathThrough vertexOf fst snd];
        rewrite ?orb_true_r, <- app_assoc; reflexivity.
Qed.

Lemma connectPath_through (chartWidth chartHeight : num) (xMax : Z)
    (visible : list NPoint) :
  connectPath chartWidth chartHeight xMax visible
  = pathThrough (map (vertexOf chartWidth chartHeight xMax)
                   (linePoints visible)).
Proof. unfold connectPath. rewrite connectStep_fold. reflexivity. Qed.

Lemma or_zero_not_NaN (a : option num) : or_zero a <> NaN.
Proof. destruct a as [[] |]; discriminate. Qed.

Lemma metricValue_not_NaN (metric : string) (a : Assessment) (c : Celeration) :
  metricValue metric a c <> NaN.
Proof.
  unfold metricValue.
  repeat match goal with
         | |- context [String.eqb ?x ?y] => destruct (String.eqb x y)
         end; try apply or_zero_not_NaN; try discriminate.
  match goal with
  | |- (or_zero ?o * _)%num <> _ =>
      pose proof (or_zero_not_NaN o); destruct (or_zero o)
  end; cbn; unfold Rsign; destr_dec; try discriminate; try congruence; lra.
Qed.

Lemma getDataPoints_not_NaN (student : Student) (metric : string) (p : Point) :
  In p (getDataPoints student metric) -> value p <> NaN.
Proof.
  unfold getDataPoints. intros H.
  apply (Permutation_in _ (Array_sort_perm day _)) in H.
  apply in_flat_map in H. destruct H as (a & _ & H).
  unfold toPoint in H. destruct (celeration a); [| contradiction].
  destruct H as [<- | []]. apply metricValue_not_NaN.
Qed.

Lemma not_le_gt (a : num) :
  a <> NaN -> negb (a <=? Fin 0)%num = (a >? Fin 0)%num.
Proof.
  destruct a; try congruence; cbn; intros _; destr_dec; try reflexivity; lra.
Qed.

Lemma visiblePoints_In (dataPoints : list Point) (xMax : Z) (p : NPoint) :
  In p (visiblePoints dataPoints xMax) -> In (point p) dataPoints.
Proof.
  unfold visiblePoints, normalizedPoints. intros H.
  apply filter_In in H. destruct H as [H _].
  apply in_map_iff in H. destruct H as (q & <- & Hq). exact Hq.
Qed.

Lemma linePoints_valid (student : Student) (metric : string) (xMax : Z) :
  linePoints (visiblePoints (getDataPoints student metric) xMax)
  = validPoints (visiblePoints (getDataPoints student metric) xMax).
Proof.
  unfold linePoints, validPoints. apply filter_ext_in.
  intros p Hp. apply not_le_gt.
  apply (getDataPoints_not_NaN student metric).
  now apply visiblePoints_In in Hp.
Qed.

Lemma connectOps_through (st : State) (student : Student) (metric : string)
    (color : option string) (chartWidth chartHeight : num) (xMax : Z) :
  let visible := visiblePoints (getDataPoints student metric) xMax in
  connectPoints (displayOptions st) = true ->
  (1 < List.length visible)%nat ->
  connectOps st color visible chartWidth chartHeight xMax
  = [ strokeStyle color; lineWidth (Fin 2); globalAlpha (Fin (7 / 10));
      beginPath ]
    ++ pathThrough (map (vertexOf chartWidth chartHeight xMax)
                      (validPoints visible))
    ++ [ stroke; globalAlpha (Fin 1) ].
Proof.
  intros visible Hc Hlen. unfold connectOps. rewrite Hc.
  destruct (Nat.ltb_spec 1 (List.length visible)); [| lia].
  cbn [andb]. rewrite connectPath_through.
  unfold visible. rewrite linePoints_valid. reflexivity.
Qed.

Lemma markerOps_zero (metric : string) (color : option string)
    (chartWidth chartHeight : num) (xMax : Z) (p : NPoint) :
  value (point p) = Fin 0 ->
  String.eqb metric "errorsPerMinute" = false ->
  markerOps metric color chartWidth chartHeight xMax p
  = drawQuestionMark (pixelX (normalizedDay p) xMax chartWidth)
      (valueToY (Fin (5 / 10000)) chartHeight) color.
Proof.
  intros Hv Hm. unfold markerOps. rewrite Hm, Hv.
  unfold ngt. rewrite (proj2 (nlt_Fin_false 0 0)) by lra.
  cbn [neq]. destruct (Req_dec_T 0 0); [reflexivity | lra].
Qed.

(** C7, as the program has it.  With [connectPoints] on and more than
    one visible point, the connecting line is one open path whose
    vertices are exactly the visible points with value > 0, in series
    order: a point with value <= 0 is not a vertex and the path is not
    restarted after it, so its positive neighbours are joined by one
    segment.  With [showDataPoints] on, a visible point with value 0 of
    a metric other than errors is drawn as a ["?"] at the sentinel
    value 0.0005. *)
Theorem connectOps_polyline (st : State) (student : Student) (metric : string)
    (color : option string) (chartWidth chartHeight : num) (xMax : Z) :
  let visible := visiblePoints (getDataPoints student metric) xMax in
  (connectPoints (displayOptions st) = true ->
   (1 < List.length visible)%nat ->
   connectOps st color visible chartWidth chartHeight xMax
   = [ strokeStyle color; lineWidth (Fin 2); globalAlpha (Fin (7 / 10));
       beginPath ]
     ++ pathThrough (map (vertexOf chartWidth chartHeight xMax)
                       (validPoints visible))
     ++ [ stroke; globalAlpha (Fin 1) ])
  /\ (forall p, In p (validPoints visible) <->
                In p visible /\ (value (point p) >? Fin 0)%num = true)
  /\ (forall p, In p visible -> (value (point p) <=? Fin 0)%num = true ->
                ~ In p (validPoints visible))
  /\ (showDataPoints (displayOptions st) = true ->
      forall p, In p visible -> value (point p) = Fin 0 ->
                String.eqb metric "errorsPerMinute" = false ->
                markerOps metric color chartWidth chartHeight xMax p
                = drawQuestionMark (pixelX (normalizedDay p) xMax chartWidth)
                    (valueToY (Fin (5 / 10000)) chartHeight) color
                /\ incl (markerOps metric color chartWidth chartHeight xMax p)
                     (pointOps st metric color visible chartWidth
                        chartHeight xMax)).
Proof.
  intros visible. split; [| split; [| split]].
  - now apply connectOps_through.
  - intros p. unfold validPoints. apply filter_In.
  - intros p Hp Hle Hin. apply filter_In in Hin. destruct Hin as [_ Hgt].
    destruct (value (point p)); cbn in Hle, Hgt; try discriminate;
      destr_dec; try discriminate; lra.
  - intros Hshow p Hp Hv Hm. split.
    + now apply markerOps_zero.
    + unfold pointOps. rewrite Hshow. intros o Ho.
      apply in_flat_map. exists p. split; assumption.
Qed.

(** ** The hit test *)

Lemma fold_left_flat_map {A B C} (f : A -> B -> A) (g : C -> list B)
    (l : list C) (a : A) :
  fold_left f (flat_map g l) a
  = fold_left (fun acc c => fold_left f (g c) acc) l a.
Proof.
  revert a. induction l as [| c t IH]; intros a; [reflexivity |].
  cbn [flat_map fold_left]. rewrite fold_left_app. apply IH.
Qed.

Lemma hitPoint_step (x y chartWidth chartHeight : num) (xMax : Z)
    (student : Student) (metric : string) (minDay : Z)
    (acc : option Hit * num) (point : Point) :
  hitPoint x y chartWidth chartHeight xMax student metric minDay acc point
  = fold_left (hitStep x y)
      (pointCandidate chartWidth chartHeight xMax student metric minDay point)
      acc.
Proof.
  unfold hitPoint, pointCandidate, hitStep. destruct acc as [c d].
  destruct (value point <=? Fin 0)%num; [reflexivity |].
  destruct (day point - minDay >? xMax)%Z; reflexivity.
Qed.

Lemma fold_left_ext_eq {A B} (f g : A -> B -> A) (l : list B) (a : A) :
  (forall acc b, f acc b = g acc b) -> fold_left f l a = fold_left g l a.
Proof.
  intros H. revert a. induction l as [| b t IH]; intros a; [reflexivity |].
  cbn. rewrite H. apply IH.
Qed.

Lemma handleMouseMove_candidates (st : State) (e : MouseEvent) :
  outsidePlot st e = false ->
  handleMouseMove st e
  = fst (fold_left (hitStep (pointerX st e) (pointerY st e))
           (candidates st (chartWidthOf st) (chartHeightOf st) (zoom st))
           (None, PInf)).
Proof.
  intros Hin. unfold handleMouseMove. fold (outsidePlot st e). rewrite Hin.
  f_equal. unfold candidates. rewrite fold_left_flat_map.
  apply fold_left_ext_eq. intros acc studentId. unfold hitStudent.
  destruct (findStudent st studentId) as [student |]; [| reflexivity].
  rewrite fold_left_flat_map.
  apply fold_left_ext_eq. intros acc' metric.
  unfold hitMetric, metricCandidates. rewrite fold_left_flat_map.
  apply fold_left_ext_eq. intros acc'' point. apply hitPoint_step.
Qed.

Lemma handleMouseMove_outside (st : State) (e : MouseEvent) :
  outsidePlot st e = true -> handleMouseMove st e = None.
Proof.
  intros Hout. unfold handleMouseMove. fold (outsidePlot st e).
  now rewrite Hout.
Qed.

(** The candidates of a series are its visible points with a positive
    value, each at the pixel of its marker. *)
Lemma pointCandidates_visible (chartWidth chartHeight : num) (xMax : Z)
    (student : Student) (metric : string) (m : Z) (l : list Point) :
  (forall p, In p l -> value p <> NaN) ->
  flat_map (pointCandidate chartWidth chartHeight xMax student metric m) l
  = map (hitOf chartWidth chartHeight xMax student metric)
      (validPoints
         (filter (fun p => (normalizedDay p <=? xMax)%Z)
            (map (fun p => {| point := p; normalizedDay := (day p - m)%Z |})
               l))).
Proof.
  induction l as [| p t IH]; intros Hn; [reflexivity |].
  cbn [flat_map map filter normalizedDay].
  rewrite IH by (intros; apply Hn; now right).
  unfold pointCandidate at 1.
  pose proof (not_le_gt (value p) (Hn p (or_introl eq_refl))) as E.
  destruct (Z.leb_spec (day p - m) xMax) as [Hle | Hgt].
  - destruct (Z.gtb_spec (day p - m) xMax) as [Hgt' | _]; [lia |].
    unfold validPoints at 2. cbn [filter point].
    rewrite <- E. destruct (value p <=? Fin 0)%num; reflexivity.
  - destruct (Z.gtb_spec (day p - m) xMax) as [_ | Hle']; [| lia].
    destruct (value p <=? Fin 0)%num; reflexivity.
Qed.

Lemma metricCandidates_visible (chartWidth chartHeight : num) (xMax : Z)
    (student : Student) (metric : string) :
  metricCandidates chartWidth chartHeight xMax student metric
  = map (hitOf chartWidth chartHeight xMax student metric)
      (validPoints (visiblePoints (getDataPoints student metric) xMax)).
Proof.
  unfold metricCandidates. rewrite pointCandidates_visible.
  - reflexivity.
  - apply getDataPoints_not_NaN.
Qed.

Lemma nlt_asym (a b : num) : (a <? b)%num = true -> (b <? a)%num = false.
Proof.
  destruct a, b; simpl; intros; try discriminate; auto.
  destr_dec; auto; try discriminate; lra.
Qed.

Lemma nlt_PInf (a : num) (r : R) :
  (a <? Fin r)%num = true -> (a <? PInf)%num = true.
Proof. destruct a; simpl; intros; try discriminate; auto. Qed.

Lemma nlt_below (a b c : num) (r : R) :
  (a <? b)%num = true -> (c <? b)%num = false -> (c <? Fin r)%num = true ->
  (a <? c)%num = true.
Proof.
  destruct a, b, c; simpl; intros; try discriminate; auto;
    destr_dec; auto; try discriminate; lra.
Qed.

Section Nearest.

Variables x y : num.

Local Abbreviation dist h := (pixelDist x y (h_x h) (h_y h)).

Lemma scanned_step (seen : list Hit) (acc : option Hit * num) (c : Hit) :
  scanned x y seen acc -> scanned x y (seen ++ [c]) (hitStep x y acc c).
Proof.
  destruct acc as [[h |] d]; unfold scanned, hitStep, hitDist; cbn [fst snd].
  - intros (-> & Hr & pre & post & -> & Hpre & Hpost).
    destruct (dist c <? dist h)%num eqn:Hlt;
      destruct (dist c <? Fin 20)%num eqn:Hc; cbn [andb fst snd].
    + split; [reflexivity |]. split; [assumption |].
      exists (pre ++ h :: post), []. split; [reflexivity |].
      split; [| intros ? []].
      intros h' Hin Hr'. apply in_app_or in Hin.
      destruct Hin as [Hin | [<- | Hin]].
      * eapply nlt_trans; [exact Hlt | now apply Hpre].
      * exact Hlt.
      * eapply nlt_below; [exact Hlt | now apply Hpost | exact Hr'].
    + split; [reflexivity |]. split; [assumption |].
      exists pre, (post ++ [c]). split; [now rewrite <- app_assoc |].
      split; [assumption |].
      intros h' Hin Hr'. apply in_app_or in Hin.
      destruct Hin as [Hin | [<- | []]]; [now apply Hpost | congruence].
    + split; [reflexivity |]. split; [assumption |].
      exists pre, (post ++ [c]). split; [now rewrite <- app_assoc |].
      split; [assumption |].
      intros h' Hin Hr'. apply in_app_or in Hin.
      destruct Hin as [Hin | [<- | []]]; [now apply Hpost | assumption].
    + split; [reflexivity |]. split; [assumption |].
      exists pre, (post ++ [c]). split; [now rewrite <- app_assoc |].
      split; [assumption |].
      intros h' Hin Hr'. apply in_app_or in Hin.
      destruct Hin as [Hin | [<- | []]]; [now apply Hpost | assumption].
  - intros (-> & Hnone).
    destruct (dist c <? Fin 20)%num eqn:Hc.
    + rewrite (nlt_PInf _ _ Hc). cbn [andb fst snd].
      split; [reflexivity |]. split; [assumption |].
      exists seen, []. split; [reflexivity |].
      split; [| intros ? []].
      intros h' Hin Hr'. rewrite Hnone in Hr' by assumption. discriminate.
    + rewrite andb_false_r. cbn [fst snd]. split; [reflexivity |].
      intros h' Hin. apply in_app_or in Hin.
      destruct Hin as [Hin | [<- | []]]; [now apply Hnone | assumption].
Qed.

Lemma scanned_fold (cands seen : list Hit) (acc : option Hit * num) :
  scanned x y seen acc ->
  scanned x y (seen ++ cands) (fold_left (hitStep x y) cands acc).
Proof.
  revert seen acc. induction cands as [| c t IH]; intros seen acc H.
  - now rewrite app_nil_r.
  - cbn [fold_left].
    replace (seen ++ c :: t) with ((seen ++ [c]) ++ t)
      by (rewrite <- app_assoc; reflexivity).
    apply IH. now apply scanned_step.
Qed.

Lemma scanned_all (cands : list Hit) :
  scanned x y cands (fold_left (hitStep x y) cands (None, PInf)).
Proof.
  apply (scanned_fold cands [] (None, PInf)).
  split; [reflexivity | intros ? []].
Qed.

(** The scan returns nothing exactly when no candidate is within the
    radius. *)
Lemma nearest_none (cands : list Hit) :
  fst (fold_left (hitStep x y) cands (None, PInf)) = None
  <-> forall h, In h cands -> (dist h <? Fin 20)%num = false.
Proof.
  pose proof (scanned_all cands) as H. unfold scanned, hitDist in H.
  destruct (fst (fold_left (hitStep x y) cands (None, PInf))) as [h |].
  - destruct H as (_ & Hr & pre & post & E & _).
    split; [discriminate |]. intros Hall.
    rewrite Hall in Hr; [discriminate |].
    rewrite E. apply in_or_app. right. now left.
  - destruct H as (_ & Hnone). split; auto.
Qed.

(** The candidate the scan returns is within the radius, no candidate
    is nearer, and the candidates before it that are within the radius
    are strictly farther. *)
Lemma nearest_some (cands : list Hit) (h : Hit) :
  fst (fold_left (hitStep x y) cands (None, PInf)) = Some h ->
  (dist h <? Fin 20)%num = true
  /\ exists pre post,
      cands = pre ++ h :: post
      /\ (forall h', In h' pre -> (dist h' <? Fin 20)%num = true ->
                     (dist h <? dist h')%num = true)
      /\ (forall h', In h' cands -> (dist h' <? dist h)%num = false).
Proof.
  intros E. pose proof (scanned_all cands) as H. unfold scanned, hitDist in H.
  rewrite E in H. destruct H as (_ & Hr & pre & post & Ec & Hpre & Hpost).
  split; [assumption |]. exists pre, post.
  split; [assumption |]. split; [assumption |].
  intros h' Hin.
  destruct (dist h' <? Fin 20)%num eqn:Hr'.
  - rewrite Ec in Hin. apply in_app_or in Hin.
    destruct Hin as [Hin | [<- | Hin]].
    + apply nlt_asym. now apply Hpre.
    + apply nlt_irrefl.
    + now apply Hpost.
  - destruct (dist h' <? dist h)%num eqn:Hlt; [| reflexivity].
    rewrite (nlt_trans _ _ _ Hlt Hr) in Hr'. discriminate.
Qed.

End Nearest.

Lemma pixelDist_same (px py : R) :
  pixelDist (Fin px) (Fin py) (Fin px) (Fin py) = Fin 0.
Proof.
  unfold pixelDist. cbn [nsub nadd nneg nmul Math_sqrt].
  replace ((px + - px) * (px + - px) + (py + - py) * (py + - py)) with 0 by lra.
  destruct (Rlt_dec 0 0); [lra |]. now rewrite sqrt_0.
Qed.

Lemma pixelDist_not_negative (x y px py : num) :
  (pixelDist x y px py <? Fin 0)%num = false.
Proof.
  unfold pixelDist.
  destruct ((x - px) * (x - px) + (y - py) * (y - py))%num as [r | | |];
    cbn; try reflexivity.
  destruct (Rlt_dec r 0); [reflexivity |].
  apply nlt_Fin_false. apply sqrt_pos.
Qed.

Lemma pixelDist_zero (x y : R) (a b : num) :
  pixelDist (Fin x) (Fin y) a b = Fin 0 -> a = Fin x /\ b = Fin y.
Proof.
  unfold pixelDist.
  destruct a as [p | | |], b as [q | | |]; cbn [nsub nadd nneg nmul Math_sqrt];
    unfold Rsign, inf_of, CompOpp; destr_dec; intros E; try discriminate E.
  injection E as E.
  pose proof (Rle_0_sqr (x + - p)) as H1.
  pose proof (Rle_0_sqr (y + - q)) as H2.
  unfold Rsqr in H1, H2.
  apply sqrt_eq_0 in E; [| lra].
  assert (E1 : (x + - p) * (x + - p) = 0) by lra.
  assert (E2 : (y + - q) * (y + - q) = 0) by lra.
  apply Rmult_integral in E1, E2.
  split; f_equal; lra.
Qed.

Lemma candidates_visible (st : State) (chartWidth chartHeight : num)
    (xMax : Z) :
  candidates st chartWidth chartHeight xMax
  = flat_map
      (fun studentId =>
         match findStudent st studentId with
         | None => []
         | Some student =>
             flat_map
               (fun metric =>
                  map (hitOf chartWidth chartHeight xMax student metric)
                    (validPoints
                       (visiblePoints (getDataPoints student metric) xMax)))
               (activeMetrics st)
         end)
      (activeStudents st).
Proof.
  unfold candidates. apply flat_map_ext. intros studentId.
  destruct (findStudent st studentId) as [student |]; [| reflexivity].
  apply flat_map_ext. intros metric. apply metricCandidates_visible.
Qed.

Lemma markerOps_positive (metric : string) (color : option string)
    (chartWidth chartHeight : num) (xMax : Z) (p : NPoint) :
  (value (point p) >? Fin 0)%num = true ->
  markerOps metric color chartWidth chartHeight xMax p
  = let v := vertexOf chartWidth chartHeight xMax p in
    if String.eqb metric "errorsPerMinute"
    then drawXMark (fst v) (snd v) (Fin 6) color
    else drawDot (fst v) (snd v) (Fin 5) color.
Proof.
  intros Hpos. unfold markerOps. rewrite Hpos. cbn zeta.
  cbn [vertexOf fst snd].
  destruct (String.eqb metric "errorsPerMinute"); [reflexivity |].
  destruct (value (point p)) as [r | | |]; cbn in Hpos |- *;
    try discriminate; try reflexivity.
  destr_dec; try discriminate; try reflexivity. lra.
Qed.

(** C8, as the program has it.  The candidates of the hit test are the
    visible points with a positive value of every active series, in
    iteration order (students first, then metrics, then the series), at
    the pixel of their marker; points with value <= 0 are no candidates.
    Outside the plot area the test returns nothing.  Inside, it returns
    nothing exactly when no candidate is nearer than 20 px; otherwise
    it returns a candidate nearer than 20 px such that no candidate is
    nearer and every earlier candidate within the radius is strictly
    farther.  A pointer at the exact pixel of a candidate returns a
    candidate at that pixel, at distance 0. *)
Theorem handleMouseMove_nearest (st : State) (e : MouseEvent) :
  let x := pointerX st e in
  let y := pointerY st e in
  let chartWidth := chartWidthOf st in
  let chartHeight := chartHeightOf st in
  let xMax := zoom st in
  let cands := candidates st chartWidth chartHeight xMax in
  let dist := fun h => pixelDist x y (h_x h) (h_y h) in
  cands
  = flat_map
      (fun studentId =>
         match findStudent st studentId with
         | None => []
         | Some student =>
             flat_map
               (fun metric =>
                  map (hitOf chartWidth chartHeight xMax student metric)
                    (validPoints
                       (visiblePoints (getDataPoints student metric) xMax)))
               (activeMetrics st)
         end)
      (activeStudents st)
  /\ (forall metric color p,
         (value (point p) >? Fin 0)%num = true ->
         markerOps metric color chartWidth chartHeight xMax p
         = let v := vertexOf chartWidth chartHeight xMax p in
           if String.eqb metric "errorsPerMinute"
           then drawXMark (fst v) (snd v) (Fin 6) color
           else drawDot (fst v) (snd v) (Fin 5) color)
  /\ (outsidePlot st e = true -> handleMouseMove st e = None)
  /\ (outsidePlot st e = false ->
      (handleMouseMove st e = None
       <-> forall h, In h cands -> (dist h <? Fin 20)%num = false)
      /\ (forall h, handleMouseMove st e = Some h ->
            (dist h <? Fin 20)%num = true
            /\ exists pre post,
                cands = pre ++ h :: post
                /\ (forall h', In h' pre -> (dist h' <? Fin 20)%num = true ->
                               (dist h <? dist h')%num = true)
                /\ (forall h', In h' cands ->
                               (dist h' <? dist h)%num = false))
      /\ (forall h px py,
            In h cands -> h_x h = Fin px -> h_y h = Fin py ->
            x = Fin px -> y = Fin py ->
            exists h0, handleMouseMove st e = Some h0
                       /\ dist h0 = Fin 0
                       /\ h_x h0 = Fin px /\ h_y h0 = Fin py)).
Proof.
  intros x y chartWidth chartHeight xMax cands dist.
  split; [apply candidates_visible |].
  split; [intros; now apply markerOps_positive |].
  split; [apply handleMouseMove_outside |].
  intros Hin. rewrite (handleMouseMove_candidates st e Hin).
  fold x y chartWidth chartHeight xMax cands.
  subst dist. cbv beta. clearbody cands. clearbody x y.
  split; [apply nearest_none |].
  split; [apply nearest_some |].
  intros h px py Hh Hx Hy Ex Ey.
  assert (Hd : pixelDist x y (h_x h) (h_y h) = Fin 0).
  { rewrite Hx, Hy, Ex, Ey. apply pixelDist_same. }
  destruct (fst (fold_left (hitStep x y) cands (None, PInf))) as [h0 |] eqn:E.
  - exists h0. split; [reflexivity |].
    destruct (nearest_some x y cands h0 E)
      as (Hr & pre & post & _ & _ & Hmin).
    specialize (Hmin h Hh). rewrite Hd in Hmin.
    pose proof (pixelDist_not_negative x y (h_x h0) (h_y h0)) as Hnn.
    assert (E0 : pixelDist x y (h_x h0) (h_y h0) = Fin 0).
    { remember (pixelDist x y (h_x h0) (h_y h0)) as d0 eqn:Ed0.
      clear Ed0. destruct d0 as [r | | |];
        cbn in Hr, Hmin, Hnn; try discriminate.
      destr_dec; try discriminate. f_equal. lra. }
    split; [exact E0 |].
    rewrite Ex, Ey in E0. now apply pixelDist_zero in E0.
  - pose proof (proj1 (nearest_none x y cands) E h Hh) as Hfar.
    rewrite Hd in Hfar. apply nlt_Fin_false in Hfar. lra.
Qed.

(** ** The loops of the grid *)

(** With a positive step the loop ends by its own condition within
    [to - i + 1] rounds: more fuel changes nothing. *)
Lemma forLoop_fuel (fuel fuel' : nat) (i to step : Z) (body : Z -> list op) :
  (1 <= step)%Z ->
  (Z.to_nat (to - i + 1) <= fuel)%nat -> (fuel <= fuel')%nat ->
  forLoop fuel i to step body = forLoop fuel' i to step body.
Proof.
  intros Hstep. revert fuel' i.
  induction fuel as [| fuel IH]; intros fuel' i Hrounds Hle.
  - destruct fuel' as [| fuel']; [reflexivity |]. cbn [forLoop].
    destruct (Z.leb_spec i to); [lia | reflexivity].
  - destruct fuel' as [| fuel']; [lia |]. cbn [forLoop].
    destruct (Z.leb_spec i to); [| reflexivity].
    f_equal. apply IH; lia.
Qed.

Lemma drawGrid_day_loop_fuel (xMax step : Z) (body : Z -> list op)
    (fuel' : nat) :
  (1 <= step)%Z -> (Z.to_nat xMax + 1 <= fuel')%nat ->
  forLoop (Z.to_nat xMax + 1) 0 xMax step body
  = forLoop fuel' 0 xMax step body.
Proof. intros Hstep Hle. apply forLoop_fuel; lia. Qed.

(** ** Zoom levels *)

Lemma zoomLevels_lookup (z : Z) :
  base.lookup z CONFIG.zoomLevels
  = if (z =? 7)%Z then Some CONFIG.zoom7
    else if (z =? 30)%Z then Some CONFIG.zoom30
    else if (z =? 90)%Z then Some CONFIG.zoom90
    else if (z =? 140)%Z then Some CONFIG.zoom140
    else None.
Proof.
  unfold CONFIG.zoomLevels.
  destruct (Z.eqb_spec z 7) as [-> | H7];
    [now rewrite fin_maps.lookup_insert_eq |].
  rewrite fin_maps.lookup_insert_ne by congruence.
  destruct (Z.eqb_spec z 30) as [-> | H30];
    [now rewrite fin_maps.lookup_insert_eq |].
  rewrite fin_maps.lookup_insert_ne by congruence.
  destruct (Z.eqb_spec z 90) as [-> | H90];
    [now rewrite fin_maps.lookup_insert_eq |].
  rewrite fin_maps.lookup_insert_ne by congruence.
  destruct (Z.eqb_spec z 140) as [-> | H140];
    [now rewrite fin_maps.lookup_insert_eq |].
  rewrite fin_maps.lookup_insert_ne by congruence.
  apply fin_maps.lookup_empty.
Qed.

(** C9, as the program has it.  The zoom levels are keyed by the spans
    7, 30, 90 and 140.  For any other requested span [getZoomConfig]
    gives the configuration of 140 days, which governs the label and the
    two tick intervals; the X scale and the visible data span of
    [drawChart] stay the requested span itself. *)
Theorem getZoomConfig_fallback (st : State) :
  (forall z, base.lookup z CONFIG.zoomLevels <> None
             <-> z = 7%Z \/ z = 30%Z \/ z = 90%Z \/ z = 140%Z)
  /\ (zoom st <> 7%Z -> zoom st <> 30%Z -> zoom st <> 90%Z ->
      zoom st <> 140%Z ->
      getZoomConfig st = CONFIG.zoom140
      /\ CONFIG.label (getZoomConfig st) = "Full"
      /\ CONFIG.dayInterval (getZoomConfig st) = 14%Z
      /\ CONFIG.weekInterval (getZoomConfig st) = 4%Z)
  /\ (base.lookup (zoom st) CONFIG.zoomLevels <> None ->
      CONFIG.days (getZoomConfig st) = zoom st)
  /\ drawChart st
     = [ clearRect (Fin 0) (Fin 0) (clientWidth (canvas st))
           (clientHeight (canvas st));
         fillStyle (Some "#0a1628");
         fillRect (Fin 0) (Fin 0) (clientWidth (canvas st))
           (clientHeight (canvas st));
         save;
         translate (CONFIG.left CONFIG.margin) (CONFIG.top CONFIG.margin) ]
       ++ drawGrid (chartWidthOf st) (chartHeightOf st) (zoom st)
            (getZoomConfig st)
       ++ drawAxes (chartWidthOf st) (chartHeightOf st) (zoom st)
            (getZoomConfig st)
       ++ flat_map
            (fun studentId =>
               match findStudent st studentId with
               | None => []
               | Some student =>
                   flat_map
                     (fun metric =>
                        drawDataSeries st student metric (chartWidthOf st)
                          (chartHeightOf st) (zoom st))
                     (activeMetrics st)
               end)
            (activeStudents st)
       ++ [ restore ]
       ++ drawAxisLabels (clientWidth (canvas st)) (clientHeight (canvas st)).
Proof.
  split; [| split; [| split]].
  - intros z. rewrite zoomLevels_lookup.
    destruct (Z.eqb_spec z 7); [split; [auto | discriminate] |].
    destruct (Z.eqb_spec z 30); [split; [auto | discriminate] |].
    destruct (Z.eqb_spec z 90); [split; [auto | discriminate] |].
    destruct (Z.eqb_spec z 140); [split; [auto | discriminate] |].
    split; [congruence | intros [? | [? | [? | ?]]]; contradiction].
  - intros H7 H30 H90 H140.
    assert (E : getZoomConfig st = CONFIG.zoom140).
    { unfold getZoomConfig. rewrite !zoomLevels_lookup.
      destruct (Z.eqb_spec (zoom st) 7); [contradiction |].
      destruct (Z.eqb_spec (zoom st) 30); [contradiction |].
      destruct (Z.eqb_spec (zoom st) 90); [contradiction |].
      destruct (Z.eqb_spec (zoom st) 140); [contradiction |].
      reflexivity. }
    rewrite E. repeat split.
  - unfold getZoomConfig. rewrite !zoomLevels_lookup.
    destruct (Z.eqb_spec (zoom st) 7) as [-> |]; [reflexivity |].
    destruct (Z.eqb_spec (zoom st) 30) as [-> |]; [reflexivity |].
    destruct (Z.eqb_spec (zoom st) 90) as [-> |]; [reflexivity |].
    destruct (Z.eqb_spec (zoom st) 140) as [-> |]; [reflexivity |].
    congruence.
  - reflexivity.
Qed.

(** ** Examples *)

Lemma chartWidthOf_stateOf (student : Student) (z : Z) :
  chartWidthOf (stateOf student z) = Fin 800.
Proof. unfold chartWidthOf. cbn. f_equal. lra. Qed.

Lemma chartHeightOf_stateOf (student : Student) (z : Z) :
  chartHeightOf (stateOf student z) = Fin 600.
Proof. unfold chartHeightOf. cbn. f_equal. lra. Qed.

Lemma findStudent_stateOf (student : Student) (z : Z) :
  findStudent (stateOf student z) (id student) = Some student.
Proof. unfold findStudent. cbn. now rewrite String.eqb_refl. Qed.

Lemma validPoints_all (l : list NPoint) :
  Forall (fun p => (value (point p) >? Fin 0)%num = true) l ->
  validPoints l = l.
Proof.
  induction 1 as [| p t Hp _ IH]; [reflexivity |].
  unfold validPoints in *. cbn [filter]. now rewrite Hp, IH.
Qed.

(** The extracted series is in day order, the points of one day in the
    order of the assessments, and its days are counted from the first. *)
Example tied_series :
  map (fun p => (normalizedDay p, day (point p), value (point p)))
    (normalizedPoints (getDataPoints tiedStudent "correctPerMinute"))
  = [ (0%Z, 3%Z, Fin 2); (0%Z, 3%Z, Fin 4);
      (2%Z, 5%Z, Fin 1); (2%Z, 5%Z, Fin 3) ].
Proof. reflexivity. Qed.

(** Prosody scores are scaled by 20; an unknown metric gives 0. *)
Example prosody_value :
  metricValue "prosody"
    {| celeration := None; performance := None;
       prosody := Some {| score := Some (Fin 3) |} |}
    {| calendarDay := 0; date := ""; correctPerMinute := None;
       errorsPerMinute := None; countingTimeMin := None |}
  = Fin (3 * 20)
  /\ metricValue "other" (assessmentOf 0 (Fin 2))
       {| calendarDay := 0; date := ""; correctPerMinute := Some (Fin 2);
          errorsPerMinute := None; countingTimeMin := None |}
     = Fin 0.
Proof. split; reflexivity. Qed.

Lemma clipped_visible :
  map normalizedDay
    (visiblePoints (getDataPoints clippedStudent "correctPerMinute") 7)
  = [0%Z; 5%Z]
  /\ map (fun p => value (point p))
       (visiblePoints (getDataPoints clippedStudent "correctPerMinute") 7)
     = [Fin 2; Fin 4].
Proof. split; reflexivity. Qed.

Lemma clipped_valid :
  validPoints (visiblePoints (getDataPoints clippedStudent "correctPerMinute") 7)
  = visiblePoints (getDataPoints clippedStudent "correctPerMinute") 7.
Proof.
  apply validPoints_all.
  let l := eval cbv -[IZR] in
      (visiblePoints (getDataPoints clippedStudent "correctPerMinute") 7) in
  change (visiblePoints (getDataPoints clippedStudent "correctPerMinute") 7)
    with l.
  repeat constructor; unfold ngt; cbn [value point]; apply nlt_Fin; lra.
Qed.

(** The scenario of the specification: with a zoom of 7 days and
    normalized days 0, 5 and 12 the trend segment spans days 0 to 5.7. *)
Lemma clipped_trend_span :
  trendStartX
    (validPoints
       (visiblePoints (getDataPoints clippedStudent "correctPerMinute") 7)) 7
  = Fin 0
  /\ trendEndX
       (validPoints
          (visiblePoints (getDataPoints clippedStudent "correctPerMinute") 7))
       7
     = Fin (57 / 10).
Proof.
  rewrite clipped_valid.
  let l := eval cbv -[IZR] in
      (visiblePoints (getDataPoints clippedStudent "correctPerMinute") 7) in
  change (visiblePoints (getDataPoints clippedStudent "correctPerMinute") 7)
    with l.
  unfold trendStartX, trendEndX. rewrite extendDays_Fin.
  cbn [map normalizedDay Math_min_list Math_max_list fold_right].
  unfold ofZ.
  change (Math_min (Fin 5) PInf) with (Fin 5).
  change (Math_max (Fin 5) NInf) with (Fin 5).
  rewrite Math_min_Fin, Math_max_Fin. cbn [nsub nadd nneg].
  rewrite Math_min_Fin, Math_max_Fin.
  assert (E : Rmin 3 (7 * (1 / 10)) = 7 / 10)
    by (rewrite Rmin_right by lra; lra).
  rewrite E.
  rewrite (Rmin_left 0 5), (Rmax_right 0 5) by lra.
  split; f_equal.
  - rewrite Rmax_left by lra. reflexivity.
  - rewrite Rmin_right by lra. lra.
Qed.

Lemma clipped_positive :
  filter (fun p => positiveValue (value (point p)))
    (visiblePoints (getDataPoints clippedStudent "correctPerMinute") 7)
  = visiblePoints (getDataPoints clippedStudent "correctPerMinute") 7.
Proof. rewrite <- validPoints_positive. apply clipped_valid. Qed.

Lemma lone_positive :
  List.length
    (filter (fun p => positiveValue (value (point p)))
       (visiblePoints (getDataPoints lonePositiveStudent "correctPerMinute") 7))
  = 1%nat
  /\ List.length
       (visiblePoints (getDataPoints lonePositiveStudent "correctPerMinute") 7)
     = 2%nat.
Proof.
  split; [| reflexivity].
  let l := eval cbv -[IZR] in
      (visiblePoints (getDataPoints lonePositiveStudent "correctPerMinute") 7)
  in
  change (visiblePoints (getDataPoints lonePositiveStudent "correctPerMinute")
            7)
    with l.
  cbn [filter value point positiveValue].
  destruct (Rlt_dec 0 2); [| lra]. destruct (Rlt_dec 0 0); [lra |].
  reflexivity.
Qed.

(** With a zoom of 7 days the trend segment of [clippedStudent] runs
    from day 0 to day 5.7; the two visible points of
    [lonePositiveStudent], one of them positive, get no trend line. *)
Lemma celerationOps_segment_witness :
  (exists y0 y1 : num,
      celerationOps (stateOf clippedStudent 7) (Some "#22c55e")
        (visiblePoints (getDataPoints clippedStudent "correctPerMinute") 7)
        (Fin 800) (Fin 600) 7
      = [ strokeStyle (Some "#22c55e"); lineWidth (Fin (3 / 2));
          setLineDash [Fin 5; Fin 5]; globalAlpha (Fin (8 / 10));
          beginPath;
          moveTo (Fin 0 / ofZ 7 * Fin 800)%num y0;
          lineTo (Fin (57 / 10) / ofZ 7 * Fin 800)%num y1;
          stroke; setLineDash []; globalAlpha (Fin 1) ])
  /\ celerationOps (stateOf lonePositiveStudent 7) (Some "#22c55e")
       (visiblePoints (getDataPoints lonePositiveStudent "correctPerMinute") 7)
       (Fin 800) (Fin 600) 7
     = [].
Proof.
  split.
  - destruct (celerationOps_segment (stateOf clippedStudent 7)
                (Some "#22c55e")
                (getDataPoints clippedStudent "correctPerMinute")
                (Fin 800) (Fin 600) 7) as (_ & _ & H).
    cbv zeta in H. rewrite clipped_positive in H.
    destruct H as (mn & mx & x0 & x1 & (p & Hp & Ep) & Hmn & (q & Hq & Eq)
                   & Hmx & E0 & E1 & _ & _ & Hops);
      [reflexivity | exact (le_n 2) |].
    destruct clipped_visible as [Hd _].
    assert (Hin : forall r,
               In r (visiblePoints
                       (getDataPoints clippedStudent "correctPerMinute") 7) ->
               normalizedDay r = 0%Z \/ normalizedDay r = 5%Z).
    { intros r Hr. apply (in_map normalizedDay) in Hr. rewrite Hd in Hr.
      destruct Hr as [<- | [<- | []]]; auto. }
    assert (H0 : exists r,
               In r (visiblePoints
                       (getDataPoints clippedStudent "correctPerMinute") 7)
               /\ normalizedDay r = 0%Z).
    { assert (Hi : In 0%Z (map normalizedDay
                             (visiblePoints
                                (getDataPoints clippedStudent
                                   "correctPerMinute") 7)))
        by (rewrite Hd; now left).
      apply in_map_iff in Hi. destruct Hi as (r & Er & Hr). eauto. }
    assert (H5 : exists r,
               In r (visiblePoints
                       (getDataPoints clippedStudent "correctPerMinute") 7)
               /\ normalizedDay r = 5%Z).
    { assert (Hi : In 5%Z (map normalizedDay
                             (visiblePoints
                                (getDataPoints clippedStudent
                                   "correctPerMinute") 7)))
        by (rewrite Hd; right; now left).
      apply in_map_iff in Hi. destruct Hi as (r & Er & Hr). eauto. }
    destruct H0 as (r0 & Hr0 & Er0). destruct H5 as (r5 & Hr5 & Er5).
    assert (Emn : mn = 0%Z).
    { pose proof (Hmn r0 Hr0). destruct (Hin p Hp); lia. }
    assert (Emx : mx = 5%Z).
    { pose proof (Hmx r5 Hr5). destruct (Hin q Hq); lia. }
    assert (Ee : Rmin 3 (7 * (1 / 10)) = 7 / 10)
      by (rewrite Rmin_right by lra; lra).
    rewrite Emn, Ee in E0. rewrite Emx, Ee in E1.
    rewrite Rmax_left in E0 by lra. rewrite Rmin_right in E1 by lra.
    replace (5 + 7 / 10) with (57 / 10) in E1 by lra.
    rewrite E0, E1 in Hops. eexists. eexists. exact Hops.
  - apply (celerationOps_segment (stateOf lonePositiveStudent 7)
             (Some "#22c55e")
             (getDataPoints lonePositiveStudent "correctPerMinute")
             (Fin 800) (Fin 600) 7).
    right. rewrite (proj1 lone_positive). exact (le_n 2).
Defined.

(** Decides the comparisons of concrete finite numbers in the goal. *)
Ltac decide_cmp :=
  unfold ngt, nge;
  repeat first
    [ rewrite (proj2 (nlt_Fin _ _)) by lra
    | rewrite (proj2 (nlt_Fin_false _ _)) by lra
    | rewrite (proj2 (nle_Fin _ _)) by lra
    | rewrite (proj2 (nle_Fin_false _ _)) by lra ].

Lemma gap_visible :
  map (fun p => (normalizedDay p, value (point p)))
    (visiblePoints (getDataPoints gapStudent "correctPerMinute") 7)
  = [ (0%Z, Fin 2); (1%Z, Fin 0); (2%Z, Fin 4) ].
Proof. reflexivity. Qed.

Lemma gap_vertices :
  map (vertexOf (Fin 800) (Fin 600) 7)
    (validPoints
       (visiblePoints (getDataPoints gapStudent "correctPerMinute") 7))
  = [ (pixelX 0 7 (Fin 800), valueToY (Fin 2) (Fin 600));
      (pixelX 2 7 (Fin 800), valueToY (Fin 4) (Fin 600)) ].
Proof.
  let l := eval cbv -[IZR] in
      (visiblePoints (getDataPoints gapStudent "correctPerMinute") 7) in
  change (visiblePoints (getDataPoints gapStudent "correctPerMinute") 7)
    with l.
  unfold validPoints. cbn [filter value point]. decide_cmp. reflexivity.
Qed.

Lemma connectOps_polyline_witness :
  connectOps (stateOf gapStudent 7) (Some "#22c55e")
    (visiblePoints (getDataPoints gapStudent "correctPerMinute") 7)
    (Fin 800) (Fin 600) 7
  = [ strokeStyle (Some "#22c55e"); lineWidth (Fin 2);
      globalAlpha (Fin (7 / 10)); beginPath ]
    ++ pathThrough
         (map (vertexOf (Fin 800) (Fin 600) 7)
            (validPoints
               (visiblePoints (getDataPoints gapStudent "correctPerMinute")
                  7)))
    ++ [ stroke; globalAlpha (Fin 1) ].
Proof.
  apply (connectOps_polyline (stateOf gapStudent 7) gapStudent
           "correctPerMinute" (Some "#22c55e") (Fin 800) (Fin 600) 7).
  - reflexivity.
  - exact (le_S 2 2 (le_n 2)).
Defined.

(** The claim C7 has the line broken at a point with value <= 0; the
    program joins the day before and the day after it by one segment. *)
Lemma connectOps_gap_counterexample :
  map (fun p => (normalizedDay p, value (point p)))
    (visiblePoints (getDataPoints gapStudent "correctPerMinute") 7)
  = [ (0%Z, Fin 2); (1%Z, Fin 0); (2%Z, Fin 4) ]
  /\ connectOps (stateOf gapStudent 7) (Some "#22c55e")
       (visiblePoints (getDataPoints gapStudent "correctPerMinute") 7)
       (Fin 800) (Fin 600) 7
     = [ strokeStyle (Some "#22c55e"); lineWidth (Fin 2);
         globalAlpha (Fin (7 / 10)); beginPath;
         moveTo (pixelX 0 7 (Fin 800)) (valueToY (Fin 2) (Fin 600));
         lineTo (pixelX 2 7 (Fin 800)) (valueToY (Fin 4) (Fin 600));
         stroke; globalAlpha (Fin 1) ].
Proof.
  split; [exact gap_visible |].
  rewrite (connectOps_through (stateOf gapStudent 7) gapStudent
             "correctPerMinute" (Some "#22c55e") (Fin 800) (Fin 600) 7
             eq_refl (le_S 2 2 (le_n 2))).
  rewrite gap_vertices. reflexivity.
Qed.

Lemma clamp_below (r : R) : r <= 1 / 1000 -> clamp (Fin r) = CONFIG.yMin.
Proof.
  intros Hr. unfold clamp, CONFIG.yMin, CONFIG.yMax.
  cbv [Math_min Math_max nlt]. destr_dec; try reflexivity; f_equal; lra.
Qed.

Lemma valueToY_floor (r H : R) :
  r <= 1 / 1000 -> valueToY (Fin r) (Fin H) = Fin H.
Proof.
  intros Hr. rewrite (valueToY_clamped (Fin r) (1 / 1000) H).
  - rewrite Rlog10_yMin. f_equal. lra.
  - now apply clamp_below.
  - lra.
Qed.

Lemma pixelX_origin (xMax : Z) (W : R) :
  xMax <> 0%Z -> pixelX 0 xMax (Fin W) = Fin 0.
Proof.
  intros Hx. unfold pixelX, ofZ. rewrite ndiv_Fin.
  - cbn. f_equal. unfold Rdiv. lra.
  - now apply not_0_IZR.
Qed.

Lemma drawDataSeries_nonempty (st : State) (student : Student)
    (metric : string) (chartWidth chartHeight : num) (xMax : Z) :
  getDataPoints student metric <> [] ->
  drawDataSeries st student metric chartWidth chartHeight xMax
  = let color := base.lookup metric CONFIG.metricColors in
    let visible := visiblePoints (getDataPoints student metric) xMax in
    connectOps st color visible chartWidth chartHeight xMax
    ++ celerationOps st color visible chartWidth chartHeight xMax
    ++ pointOps st metric color visible chartWidth chartHeight xMax
    ++ floorOps st color visible chartWidth chartHeight xMax.
Proof.
  intros Hne. unfold drawDataSeries.
  destruct (getDataPoints student metric); [congruence | reflexivity].
Qed.

Lemma zero_series_correct :
  visiblePoints (getDataPoints zeroStudent "correctPerMinute") 7
  = [ {| point := {| day := 0; value := Fin 0; p_countingTimeMin := None;
                     p_date := ""; assessment := assessmentOf 0 (Fin 0) |};
         normalizedDay := 0 |} ].
Proof. reflexivity. Qed.

Lemma zero_series_errors :
  visiblePoints (getDataPoints zeroStudent "errorsPerMinute") 7
  = [ {| point := {| day := 0; value := Fin 0; p_countingTimeMin := None;
                     p_date := ""; assessment := assessmentOf 0 (Fin 0) |};
         normalizedDay := 0 |} ].
Proof. reflexivity. Qed.

Lemma zero_candidates :
  candidates (stateOf zeroStudent 7) (Fin 800) (Fin 600) 7 = [].
Proof.
  rewrite candidates_visible.
  cbn [stateOf activeStudents activeMetrics flat_map].
  change (id zeroStudent) with "s1".
  change (findStudent (stateOf zeroStudent 7) "s1") with (Some zeroStudent).
  cbn [flat_map].
  rewrite zero_series_correct, zero_series_errors.
  unfold validPoints. cbn [filter value point]. decide_cmp. reflexivity.
Qed.

Lemma zero_marker :
  In (fillText "?" (Fin 0) (Fin 600)) (drawChart (stateOf zeroStudent 7)).
Proof.
  unfold drawChart. apply in_or_app. right. apply in_or_app. right.
  apply in_or_app. right. apply in_or_app. left.
  rewrite chartWidthOf_stateOf, chartHeightOf_stateOf.
  cbn [stateOf activeStudents activeMetrics flat_map zoom].
  change (id zeroStudent) with "s1".
  change (findStudent (stateOf zeroStudent 7) "s1") with (Some zeroStudent).
  cbn [flat_map]. apply in_or_app. left. apply in_or_app. left.
  rewrite drawDataSeries_nonempty by discriminate. cbv zeta.
  apply in_or_app. right. apply in_or_app. right. apply in_or_app. left.
  unfold pointOps. cbn [stateOf displayOptions showDataPoints].
  rewrite zero_series_correct. cbn [flat_map].
  rewrite markerOps_zero by reflexivity.
  cbn [normalizedDay]. rewrite pixelX_origin by discriminate.
  rewrite valueToY_floor by lra.
  cbn. auto 10.
Qed.

Lemma Rlog10_2_bounds : 0 < Rlog10 2 < 1.
Proof.
  split.
  - rewrite <- Rlog10_1. apply Rlog10_lt; lra.
  - rewrite <- Rlog10_10. apply Rlog10_lt; lra.
Qed.

Lemma firstPixelY_bounds : 0 <= firstPixelY <= 600.
Proof. unfold firstPixelY. pose proof Rlog10_2_bounds. split; lra. Qed.

Lemma clipped_first_candidate :
  exists h,
    In h (candidates (stateOf clippedStudent 7) (Fin 800) (Fin 600) 7)
    /\ h_x h = Fin 0 /\ h_y h = Fin firstPixelY.
Proof.
  rewrite candidates_visible.
  cbn [stateOf activeStudents activeMetrics flat_map].
  change (id clippedStudent) with "s1".
  change (findStudent (stateOf clippedStudent 7) "s1")
    with (Some clippedStudent).
  cbn [flat_map]. rewrite clipped_valid.
  let l := eval cbv -[IZR] in
      (visiblePoints (getDataPoints clippedStudent "correctPerMinute") 7) in
  change (visiblePoints (getDataPoints clippedStudent "correctPerMinute") 7)
    with l.
  cbn [map]. eexists. split; [apply in_or_app; left; left; reflexivity |].
  cbn [hitOf h_x h_y vertexOf fst snd normalizedDay point value].
  split.
  - apply pixelX_origin. discriminate.
  - apply valueToY_clamped; [apply clamp_in_range |]; lra.
Qed.

Lemma handleMouseMove_nearest_witness :
  handleMouseMove (stateOf clippedStudent 7)
    {| clientX := Fin 0; clientY := Fin 0 |} = None
  /\ exists h0,
      handleMouseMove (stateOf clippedStudent 7)
        {| clientX := Fin 80; clientY := Fin (60 + firstPixelY) |} = Some h0
      /\ h_x h0 = Fin 0 /\ h_y h0 = Fin firstPixelY.
Proof.
  split.
  - destruct (handleMouseMove_nearest (stateOf clippedStudent 7)
                {| clientX := Fin 0; clientY := Fin 0 |})
      as (_ & _ & Hout & _).
    apply Hout.
    unfold outsidePlot, pointerX. cbn [stateOf canvas rect_left clientX].
    cbn [CONFIG.margin CONFIG.left nsub nadd nneg].
    decide_cmp. reflexivity.
  - set (e := {| clientX := Fin 80; clientY := Fin (60 + firstPixelY) |}).
    assert (Ex : pointerX (stateOf clippedStudent 7) e = Fin 0)
      by (unfold pointerX; cbn; f_equal; lra).
    assert (Ey : pointerY (stateOf clippedStudent 7) e = Fin firstPixelY)
      by (unfold pointerY; cbn; f_equal; lra).
    destruct (handleMouseMove_nearest (stateOf clippedStudent 7) e)
      as (_ & _ & _ & Hin).
    destruct Hin as (_ & _ & Hexact).
    + unfold outsidePlot. rewrite Ex, Ey.
      rewrite chartWidthOf_stateOf, chartHeightOf_stateOf.
      pose proof firstPixelY_bounds. decide_cmp. reflexivity.
    + rewrite chartWidthOf_stateOf, chartHeightOf_stateOf in Hexact.
      change (zoom (stateOf clippedStudent 7)) with 7%Z in Hexact.
      destruct clipped_first_candidate as (h & Hh & Hx & Hy).
      destruct (Hexact h 0 firstPixelY Hh Hx Hy Ex Ey)
        as (h0 & E0 & _ & Hx0 & Hy0).
      exists h0. auto.
Defined.

(** The claim C8 has every plotted point returned at its exact pixel;
    the ["?"] marker of a point with value 0 is plotted at (0, 600) and
    the hit test returns nothing there. *)
Lemma handleMouseMove_zero_marker_counterexample :
  In (fillText "?" (Fin 0) (Fin 600)) (drawChart (stateOf zeroStudent 7))
  /\ pointerX (stateOf zeroStudent 7) {| clientX := Fin 80; clientY := Fin 660 |}
     = Fin 0
  /\ pointerY (stateOf zeroStudent 7) {| clientX := Fin 80; clientY := Fin 660 |}
     = Fin 600
  /\ outsidePlot (stateOf zeroStudent 7)
       {| clientX := Fin 80; clientY := Fin 660 |} = false
  /\ handleMouseMove (stateOf zeroStudent 7)
       {| clientX := Fin 80; clientY := Fin 660 |} = None.
Proof.
  assert (Ex : pointerX (stateOf zeroStudent 7)
                 {| clientX := Fin 80; clientY := Fin 660 |} = Fin 0)
    by (unfold pointerX; cbn; f_equal; lra).
  assert (Ey : pointerY (stateOf zeroStudent 7)
                 {| clientX := Fin 80; clientY := Fin 660 |} = Fin 600)
    by (unfold pointerY; cbn; f_equal; lra).
  assert (Eo : outsidePlot (stateOf zeroStudent 7)
                 {| clientX := Fin 80; clientY := Fin 660 |} = false).
  { unfold outsidePlot. rewrite Ex, Ey.
    rewrite chartWidthOf_stateOf, chartHeightOf_stateOf.
    decide_cmp. reflexivity. }
  split; [exact zero_marker |].
  split; [exact Ex |]. split; [exact Ey |]. split; [exact Eo |].
  rewrite handleMouseMove_candidates by exact Eo.
  rewrite chartWidthOf_stateOf, chartHeightOf_stateOf.
  change (zoom (stateOf zeroStudent 7)) with 7%Z.
  rewrite zero_candidates. reflexivity.
Qed.

(** ** The dots of a chart *)

Lemma countArcs_app (l1 l2 : list op) :
  countArcs (l1 ++ l2) = (countArcs l1 + countArcs l2)%nat.
Proof. unfold countArcs. now rewrite filter_app, length_app. Qed.

Lemma countArcs_flat_map_0 {A} (f : A -> list op) (l : list A) :
  (forall a, countArcs (f a) = 0%nat) -> countArcs (flat_map f l) = 0%nat.
Proof.
  intros Hf. induction l as [| a t IH]; [reflexivity |].
  cbn [flat_map]. now rewrite countArcs_app, Hf, IH.
Qed.

Lemma countArcs_forLoop_0 (fuel : nat) (i to step : Z) (body : Z -> list op) :
  (forall j, countArcs (body j) = 0%nat) ->
  countArcs (forLoop fuel i to step body) = 0%nat.
Proof.
  intros Hb. revert i. induction fuel as [| fuel IH]; intros i; [reflexivity |].
  cbn [forLoop]. destruct (i <=? to)%Z; [| reflexivity].
  now rewrite countArcs_app, Hb, IH.
Qed.

Lemma countArcs_drawGrid (width height : num) (xMax : Z)
    (zoomConfig : CONFIG.ZoomLevel) :
  countArcs (drawGrid width height xMax zoomConfig) = 0%nat.
Proof.
  unfold drawGrid. rewrite !countArcs_app.
  rewrite !countArcs_forLoop_0, countArcs_flat_map_0; try reflexivity.
  intros j. destruct (_ <=? width)%num; reflexivity.
Qed.

Lemma countArcs_drawAxes (width height : num) (xMax : Z)
    (zoomConfig : CONFIG.ZoomLevel) :
  countArcs (drawAxes width height xMax zoomConfig) = 0%nat.
Proof.
  unfold drawAxes. rewrite !countArcs_app.
  rewrite countArcs_forLoop_0, countArcs_flat_map_0; reflexivity.
Qed.

Lemma span_series_correct :
  map (fun p => (normalizedDay p, value (point p)))
    (visiblePoints (getDataPoints spanStudent "correctPerMinute") 50)
  = [ (0%Z, Fin 5) ]
  /\ map (fun p => (normalizedDay p, value (point p)))
       (visiblePoints (getDataPoints spanStudent "correctPerMinute") 140)
     = [ (0%Z, Fin 5); (100%Z, Fin 6) ].
Proof. split; reflexivity. Qed.

Lemma span_dots_correct :
  countArcs (drawDataSeries (stateOf spanStudent 50) spanStudent
               "correctPerMinute" (Fin 800) (Fin 600) 50) = 1%nat.
Proof.
  rewrite drawDataSeries_nonempty by discriminate. cbv zeta.
  let l := eval cbv -[IZR] in
      (visiblePoints (getDataPoints spanStudent "correctPerMinute") 50) in
  change (visiblePoints (getDataPoints spanStudent "correctPerMinute") 50)
    with l.
  unfold connectOps, celerationOps, pointOps, floorOps.
  cbn [stateOf displayOptions showDataPoints showRecordFloor connectPoints
         showCelerationLines List.length Nat.ltb Nat.leb andb flat_map app].
  rewrite markerOps_positive
    by (unfold ngt; cbn [value point]; apply nlt_Fin; lra).
  reflexivity.
Qed.

Lemma span_dots_errors :
  countArcs (drawDataSeries (stateOf spanStudent 50) spanStudent
               "errorsPerMinute" (Fin 800) (Fin 600) 50) = 0%nat.
Proof.
  rewrite drawDataSeries_nonempty by discriminate. cbv zeta.
  let l := eval cbv -[IZR] in
      (visiblePoints (getDataPoints spanStudent "errorsPerMinute") 50) in
  change (visiblePoints (getDataPoints spanStudent "errorsPerMinute") 50)
    with l.
  unfold connectOps, celerationOps, pointOps, floorOps.
  cbn [stateOf displayOptions showDataPoints showRecordFloor connectPoints
         showCelerationLines List.length Nat.ltb Nat.leb andb flat_map app].
  reflexivity.
Qed.

(** The claim C9 has the fallback span of 140 days govern the visible
    data; with the requested span 50 the configuration is the one of 140
    days, and the chart still shows the first 50 days only: of two
    points 100 days apart, one dot is drawn. *)
Lemma getZoomConfig_span_counterexample :
  getZoomConfig (stateOf spanStudent 50) = CONFIG.zoom140
  /\ CONFIG.days (getZoomConfig (stateOf spanStudent 50)) = 140%Z
  /\ map normalizedDay
       (visiblePoints (getDataPoints spanStudent "correctPerMinute") 140)
     = [0%Z; 100%Z]
  /\ map normalizedDay
       (visiblePoints (getDataPoints spanStudent "correctPerMinute")
          (zoom (stateOf spanStudent 50)))
     = [0%Z]
  /\ countArcs (drawChart (stateOf spanStudent 50)) = 1%nat.
Proof.
  split; [reflexivity |]. split; [reflexivity |].
  split; [reflexivity |]. split; [reflexivity |].
  unfold drawChart. rewrite !countArcs_app.
  rewrite countArcs_drawGrid, countArcs_drawAxes.
  rewrite chartWidthOf_stateOf, chartHeightOf_stateOf.
  cbn [stateOf activeStudents activeMetrics flat_map zoom].
  change (id spanStudent) with "s1".
  change (findStudent (stateOf spanStudent 50) "s1") with (Some spanStudent).
  cbn [flat_map]. rewrite !countArcs_app.
  rewrite span_dots_correct, span_dots_errors. reflexivity.
Qed.

Lemma getZoomConfig_fallback_witness :
  getZoomConfig (stateOf spanStudent 50) = CONFIG.zoom140
  /\ CONFIG.label (getZoomConfig (stateOf spanStudent 50)) = "Full"
  /\ CONFIG.dayInterval (getZoomConfig (stateOf spanStudent 50)) = 14%Z
  /\ CONFIG.weekInterval (getZoomConfig (stateOf spanStudent 50)) = 4%Z.
Proof.
  apply (getZoomConfig_fallback (stateOf spanStudent 50)); cbn; lia.
Defined.

(** ** The statistics panel *)

Lemma scenario_samples :
  samplesOf correctPerMinute scenarioStudent = scenarioSamples
  /\ samplesOf errorsPerMinute scenarioStudent = [].
Proof.
  split; [| reflexivity].
  unfold samplesOf, scenarioStudent, studentOf, assessmentOf.
  cbn [assessments map flat_map celeration correctPerMinute calendarDay
         fst snd app].
  decide_cmp. reflexivity.
Qed.

(** The scenario of the specification in the statistics panel: the
    correct celeration is shown as x2.00; without error data the error
    celeration is the neutral x1.00. *)
Lemma scenario_stats (nts : R -> string) :
  updateStats nts (stateOf scenarioStudent 7)
  = Some {| correctCeleration := "x2.00"; errorCeleration := "x1.00" |}.
Proof.
  unfold updateStats. cbn [stateOf activeStudents students List.length Nat.eqb].
  change (find _ [scenarioStudent]) with (Some scenarioStudent).
  destruct scenario_samples as [-> ->].
  rewrite scenario_format.
  rewrite calculateCeleration_few by (cbn; lia).
  now rewrite formatCeleration_1.
Qed.

(** * Further properties of the program *)

(** ** The value/pixel mapping *)

Lemma clamp_monotone (v1 v2 : num) :
  (v1 <=? v2)%num = true ->
  exists c1 c2,
    clamp v1 = Fin c1 /\ clamp v2 = Fin c2
    /\ 1 / 1000 <= c1 /\ c1 <= c2 /\ c2 <= 1000.
Proof.
  unfold clamp, CONFIG.yMin, CONFIG.yMax.
  destruct v1, v2; cbv [Math_min Math_max nlt nle]; intros Hle;
    destr_dec; try discriminate;
    eexists; eexists; (split; [reflexivity |]; split; [reflexivity |]; lra).
Qed.

Lemma pixel_of_log (c1 c2 H : R) :
  0 < H -> Rlog10 c1 <= Rlog10 c2 ->
  H * (1 - (Rlog10 c2 + 3) / 6) <= H * (1 - (Rlog10 c1 + 3) / 6).
Proof. intros HH Hle. nra. Qed.

(** [valueToY] turns the order of the values around: a greater value is
    never mapped below a smaller one (a greater pixel row), and within
    [[yMin, yMax]] a strictly greater value is mapped strictly higher. *)
Theorem valueToY_decreasing (v1 v2 : num) (H : R) :
  0 < H -> (v1 <=? v2)%num = true ->
  (valueToY v2 (Fin H) <=? valueToY v1 (Fin H))%num = true
  /\ ((CONFIG.yMin <=? v1)%num = true -> (v1 <? v2)%num = true ->
      (v2 <=? CONFIG.yMax)%num = true ->
      (valueToY v2 (Fin H) <? valueToY v1 (Fin H))%num = true).
Proof.
  intros HH Hle. split.
  - destruct (clamp_monotone v1 v2 Hle) as (c1 & c2 & E1 & E2 & H1 & H2 & H3).
    rewrite (valueToY_clamped v1 c1 H E1), (valueToY_clamped v2 c2 H E2)
      by lra.
    apply nle_Fin. apply pixel_of_log; [assumption |].
    apply Rlog10_le; lra.
  - unfold CONFIG.yMin, CONFIG.yMax. intros Hlo Hlt Hhi.
    destruct v1 as [r1 | | |], v2 as [r2 | | |]; cbn in Hlo, Hlt, Hhi;
      try discriminate.
    apply nle_Fin in Hlo, Hhi. apply nlt_Fin in Hlt.
    rewrite (valueToY_clamped (Fin r1) r1 H),
      (valueToY_clamped (Fin r2) r2 H)
      by (try apply clamp_in_range; lra).
    apply nlt_Fin.
    assert (Rlog10 r1 < Rlog10 r2) by (apply Rlog10_lt; lra).
    nra.
Qed.

Lemma valueToY_decreasing_witness :
  (valueToY (Fin 10) (Fin 600) <=? valueToY (Fin 1) (Fin 600))%num = true.
Proof.
  apply (valueToY_decreasing (Fin 1) (Fin 10) 600); [lra |].
  apply nle_Fin; lra.
Defined.

Lemma Rdiv_unit_range (y H : R) : 0 < H -> 0 <= y <= H -> 0 <= y / H <= 1.
Proof.
  intros HH [Hy0 Hy1]. pose proof (Rinv_0_lt_compat H HH) as Hi.
  unfold Rdiv. split.
  - apply Rmult_le_pos; lra.
  - replace 1 with (H * / H) by (apply Rinv_r; lra).
    apply Rmult_le_compat_r; lra.
Qed.

(** The other round trip: a pixel row of the plot, mapped to its value
    and back, is the same row. *)
Theorem valueToY_yToValue (y H : R) :
  0 < H -> 0 <= y <= H ->
  valueToY (yToValue (Fin y) (Fin H)) (Fin H) = Fin y.
Proof.
  intros HH [Hy0 Hy1].
  assert (He : -3 <= -3 + (1 - y / H) * 6 <= 3).
  { pose proof (Rdiv_unit_range y H HH (conj Hy0 Hy1)). lra. }
  rewrite yToValue_Fin by (assumption || lra).
  pose proof (Rpow10_range _ He) as Hr.
  rewrite (valueToY_clamped _ (Rpow10 (-3 + (1 - y / H) * 6)) H)
    by (try apply clamp_in_range; lra).
  rewrite Rlog10_pow10. f_equal. field. lra.
Qed.

Lemma valueToY_yToValue_witness :
  valueToY (yToValue (Fin 150) (Fin 600)) (Fin 600) = Fin 150.
Proof. apply valueToY_yToValue; lra. Defined.

(** Outside the value range the round trip does not give the value
    back but the bound it was clamped to: every number, the infinities
    included, comes back as [max(yMin, min(yMax, value))]. *)
Theorem yToValue_valueToY_clamps (v : num) (H : R) :
  v <> NaN -> 0 < H ->
  yToValue (valueToY v (Fin H)) (Fin H)
  = Math_max CONFIG.yMin (Math_min CONFIG.yMax v).
Proof.
  intros Hv HH. fold (clamp v).
  destruct (clamp_bounds v Hv) as (c & Hc & Hlo & Hhi).
  rewrite (valueToY_clamped v c H Hc) by lra.
  rewrite yToValue_Fin by (try apply pixel_exponent; lra). rewrite Hc.
  f_equal. rewrite <- (Rpow10_log10 c) at 2 by lra.
  f_equal. field. lra.
Qed.

Lemma yToValue_valueToY_clamps_witness :
  yToValue (valueToY (Fin 5000) (Fin 600)) (Fin 600) = Fin 1000
  /\ yToValue (valueToY (Fin 0) (Fin 600)) (Fin 600) = Fin (1 / 1000).
Proof.
  split.
  - rewrite (yToValue_valueToY_clamps (Fin 5000) 600) by (discriminate || lra).
    num_cmp.
  - rewrite (yToValue_valueToY_clamps (Fin 0) 600) by (discriminate || lra).
    num_cmp.
Defined.

(** The scale is logarithmic: multiplying a value by [k] moves its
    pixel up by [H * log10(k) / 6], whatever the value, as long as both
    values lie in [[yMin, yMax]]; a factor of 10 is a sixth of the
    height. *)
Theorem valueToY_ratio (v k H : R) :
  0 < k -> 1 / 1000 <= v <= 1000 -> 1 / 1000 <= k * v <= 1000 ->
  (valueToY (Fin (k * v)) (Fin H)
   = valueToY (Fin v) (Fin H) - Fin (H * Rlog10 k / 6))%num
  /\ (k = 10 ->
      (valueToY (Fin (k * v)) (Fin H)
       = valueToY (Fin v) (Fin H) - Fin (H / 6))%num).
Proof.
  intros Hk Hv Hkv.
  assert (E : (valueToY (Fin (k * v)) (Fin H)
               = valueToY (Fin v) (Fin H) - Fin (H * Rlog10 k / 6))%num).
  { rewrite (valueToY_clamped (Fin (k * v)) (k * v) H),
      (valueToY_clamped (Fin v) v H)
      by (try apply clamp_in_range; lra).
    rewrite Rlog10_mult by lra. cbn [nsub nadd nneg]. f_equal. lra. }
  split; [exact E |].
  intros ->. rewrite E, Rlog10_10. do 2 f_equal. lra.
Qed.

Lemma valueToY_ratio_witness :
  (valueToY (Fin (10 * 2)) (Fin 600)
   = valueToY (Fin 2) (Fin 600) - Fin (600 / 6))%num.
Proof. apply (valueToY_ratio 2 10 600); lra. Defined.

(** ** The extracted series *)

Lemma sort_insert_map {A B} (f : A -> B) (cmpA : A -> A -> Z)
    (cmpB : B -> B -> Z) (x : A) (l : list A) :
  (forall a b, cmpB (f a) (f b) = cmpA a b) ->
  map f (sort_insert cmpA x l) = sort_insert cmpB (f x) (map f l).
Proof.
  intros Hc. induction l as [| y t IH]; [reflexivity |].
  cbn [sort_insert map]. rewrite Hc.
  destruct (cmpA x y <=? 0)%Z; [reflexivity |].
  cbn [map]. now rewrite IH.
Qed.

Lemma Array_sort_map {A B} (f : A -> B) (cmpA : A -> A -> Z)
    (cmpB : B -> B -> Z) (l : list A) :
  (forall a b, cmpB (f a) (f b) = cmpA a b) ->
  map f (Array_sort cmpA l) = Array_sort cmpB (map f l).
Proof.
  intros Hc. induction l as [| x t IH]; [reflexivity |].
  cbn [Array_sort fold_right map].
  rewrite (sort_insert_map f cmpA cmpB) by assumption.
  fold (Array_sort cmpA t). now rewrite IH.
Qed.

Lemma toPoint_metric_free (m1 m2 : string) (l : list Assessment) :
  map (fun p => (day p, assessment p)) (flat_map (toPoint m1) l)
  = map (fun p => (day p, assessment p)) (flat_map (toPoint m2) l).
Proof.
  induction l as [| a t IH]; [reflexivity |].
  cbn [flat_map]. rewrite !map_app, IH. f_equal.
  unfold toPoint. destruct (celeration a); reflexivity.
Qed.

Lemma getDataPoints_keys (student : Student) (m1 m2 : string) :
  map (fun p => (day p, assessment p)) (getDataPoints student m1)
  = map (fun p => (day p, assessment p)) (getDataPoints student m2).
Proof.
  unfold getDataPoints.
  rewrite !(Array_sort_map (fun p => (day p, assessment p))
              (fun a b => (day a - day b)%Z)
              (fun a b => (fst a - fst b)%Z)) by reflexivity.
  now rewrite (toPoint_metric_free m1 m2).
Qed.

Lemma getDataPoints_days (student : Student) (m1 m2 : string) :
  map day (getDataPoints student m1) = map day (getDataPoints student m2).
Proof.
  pose proof (getDataPoints_keys student m1 m2) as H.
  apply (f_equal (map fst)) in H. now rewrite !map_map in H.
Qed.

Lemma normalizedPoints_days (dataPoints : list Point) :
  map normalizedDay (normalizedPoints dataPoints)
  = map (fun d => (d - minDay dataPoints)%Z) (map day dataPoints).
Proof. unfold normalizedPoints. now rewrite !map_map. Qed.

Lemma filter_map_comm {A B} (f : A -> B) (g : B -> bool) (l : list A) :
  map f (filter (fun a => g (f a)) l) = filter g (map f l).
Proof.
  induction l as [| a t IH]; [reflexivity |].
  cbn [filter map]. destruct (g (f a)); cbn [map]; now rewrite IH.
Qed.

Lemma getDataPoints_origin (student : Student) (metric : string) (p : Point) :
  In p (getDataPoints student metric) ->
  exists c, celeration (assessment p) = Some c
            /\ day p = calendarDay c
            /\ value p = metricValue metric (assessment p) c.
Proof.
  intros Hp. unfold getDataPoints in Hp.
  apply (Permutation_in _ (Array_sort_perm day _)) in Hp.
  apply in_flat_map in Hp. destruct Hp as (a & _ & Hp).
  unfold toPoint in Hp. destruct (celeration a) as [c |] eqn:E;
    [| contradiction].
  destruct Hp as [<- | []]. exists c. cbn. auto.
Qed.

(** The days of a series do not depend on the metric: every metric of a
    student has one point per assessment with celeration data, on the
    same days in the same order, so all metrics of a student share the
    day-0 anchor and the normalized days, also after the zoom filter;
    the value of a point is the metric's value of its assessment. *)
Theorem getDataPoints_metric_free (student : Student) (m1 m2 : string) :
  map (fun p => (day p, assessment p)) (getDataPoints student m1)
  = map (fun p => (day p, assessment p)) (getDataPoints student m2)
  /\ minDay (getDataPoints student m1) = minDay (getDataPoints student m2)
  /\ (forall xMax,
         map normalizedDay (visiblePoints (getDataPoints student m1) xMax)
         = map normalizedDay (visiblePoints (getDataPoints student m2) xMax))
  /\ (forall p, In p (getDataPoints student m1) ->
        exists c, celeration (assessment p) = Some c
                  /\ day p = calendarDay c
                  /\ value p = metricValue m1 (assessment p) c).
Proof.
  assert (Hmin : minDay (getDataPoints student m1)
                 = minDay (getDataPoints student m2)).
  { unfold minDay. now rewrite (getDataPoints_days student m1 m2). }
  split; [apply getDataPoints_keys |]. split; [exact Hmin |]. split.
  - intros xMax. unfold visiblePoints.
    rewrite !(filter_map_comm normalizedDay (fun d => (d <=? xMax)%Z)).
    rewrite !normalizedPoints_days, Hmin.
    now rewrite (getDataPoints_days student m1 m2).
  - apply getDataPoints_origin.
Qed.

Lemma metricValue_unknown (metric : string) (a : Assessment) (c : Celeration) :
  knownMetric metric = false -> metricValue metric a c = Fin 0.
Proof.
  unfold knownMetric, metricValue. intros H.
  repeat (apply orb_false_elim in H; destruct H as [H ?]).
  repeat match goal with E : String.eqb _ _ = false |- _ => rewrite E; clear E end.
  reflexivity.
Qed.

Lemma Array_sort_length {A} (cmp : A -> A -> Z) (l : list A) :
  List.length (Array_sort cmp l) = List.length l.
Proof.
  induction l as [| x t IH]; [reflexivity |].
  cbn [Array_sort fold_right]. fold (Array_sort cmp t).
  assert (Hi : forall s, List.length (sort_insert cmp x s) = S (List.length s)).
  { induction s as [| y s IHs]; [reflexivity |]. cbn [sort_insert].
    destruct (cmp x y <=? 0)%Z; cbn [List.length]; [reflexivity |].
    now rewrite IHs. }
  rewrite Hi, IH. reflexivity.
Qed.

(** An assessment without celeration data is skipped, not zero-filled;
    a metric outside the five known ones gives the value 0 at every
    point; and no extracted value is NaN. *)
Theorem getDataPoints_values (student : Student) (metric : string) :
  List.length (getDataPoints student metric)
  = List.length
      (filter (fun a => match celeration a with Some _ => true | None => false end)
         (assessments student))
  /\ (forall p, In p (getDataPoints student metric) -> value p <> NaN)
  /\ (knownMetric metric = false ->
      forall p, In p (getDataPoints student metric) -> value p = Fin 0).
Proof.
  split; [| split].
  - unfold getDataPoints. rewrite Array_sort_length.
    induction (assessments student) as [| a t IH]; [reflexivity |].
    cbn [flat_map filter]. rewrite length_app, IH. unfold toPoint.
    destruct (celeration a); reflexivity.
  - apply getDataPoints_not_NaN.
  - intros Hm p Hp.
    destruct (getDataPoints_origin student metric p Hp) as (c & _ & _ & ->).
    now apply metricValue_unknown.
Qed.

Lemma getDataPoints_values_witness :
  Forall (fun p => value p = Fin 0) (getDataPoints scenarioStudent "speed").
Proof.
  apply Forall_forall.
  apply (getDataPoints_values scenarioStudent "speed"). reflexivity.
Defined.

(** ** The markers and the plot area *)

Lemma valueToY_range (v : num) (H : R) :
  v <> NaN -> 0 < H -> exists y, valueToY v (Fin H) = Fin y /\ 0 <= y <= H.
Proof.
  intros Hv HH.
  destruct (clamp_bounds v Hv) as (c & Hc & Hlo & Hhi).
  rewrite (valueToY_clamped v c H Hc) by lra.
  eexists. split; [reflexivity |].
  assert (H1 : -3 <= Rlog10 c).
  { rewrite <- Rlog10_yMin. apply Rlog10_le; lra. }
  assert (H2 : Rlog10 c <= 3).
  { rewrite <- Rlog10_1000. apply Rlog10_le; lra. }
  split; nra.
Qed.

Lemma pixelX_range (d xMax : Z) (W : R) :
  (0 <= d <= xMax)%Z -> (0 < xMax)%Z -> 0 <= W ->
  exists x, pixelX d xMax (Fin W) = Fin x /\ 0 <= x <= W.
Proof.
  intros Hd Hx HW. unfold pixelX, ofZ.
  rewrite ndiv_Fin by (apply not_0_IZR; lia).
  cbn [nmul]. eexists. split; [reflexivity |].
  assert (Hq : 0 <= IZR d / IZR xMax <= 1).
  { apply Rdiv_unit_range.
    - now apply (IZR_lt 0).
    - split; [apply (IZR_le 0) | apply IZR_le]; lia. }
  split; nra.
Qed.

(** Every marker of a series lies inside the plot area.  For a visible
    point of the series of a student, a positive day span and a plot of
    width [W >= 0] and height [H > 0], the marker is drawn at a pixel
    [(x, y)] with [0 <= x <= W] and [0 <= y <= H], whatever the value of
    the point is. *)
Theorem markerOps_inside_plot (student : Student) (metric : string)
    (color : option string) (W H : R) (xMax : Z) (p : NPoint) :
  (0 < xMax)%Z -> 0 <= W -> 0 < H ->
  In p (visiblePoints (getDataPoints student metric) xMax) ->
  exists x y,
    0 <= x <= W /\ 0 <= y <= H
    /\ markerOps metric color (Fin W) (Fin H) xMax p
       = if String.eqb metric "errorsPerMinute"
         then drawXMark (Fin x) (Fin y) (Fin 6) color
         else if (value (point p) =? Fin 0)%num
              then drawQuestionMark (Fin x) (Fin y) color
              else drawDot (Fin x) (Fin y) (Fin 5) color.
Proof.
  intros Hx HW HH Hin.
  destruct (pixelX_range (normalizedDay p) xMax W) as (x & Ex & Hxr);
    [now apply (visiblePoints_range _ _ _ Hin) | assumption | assumption |].
  assert (Hv : (if (value (point p) >? Fin 0)%num then value (point p)
                else Fin (5 / 10000)) <> NaN).
  { destruct (value (point p) >? Fin 0)%num; [| discriminate].
    apply (getDataPoints_not_NaN student metric).
    now apply (visiblePoints_In _ xMax). }
  destruct (valueToY_range _ H Hv HH) as (y & Ey & Hyr).
  exists x, y. split; [assumption |]. split; [assumption |].
  unfold markerOps. now rewrite Ex, Ey.
Qed.

Lemma markerOps_inside_plot_witness :
  exists x y,
    0 <= x <= 800 /\ 0 <= y <= 600
    /\ markerOps "correctPerMinute" (Some "#22c55e") (Fin 800) (Fin 600) 140
         {| point := {| day := 0; value := Fin 0; p_countingTimeMin := None;
                        p_date := ""; assessment := assessmentOf 0 (Fin 0) |};
            normalizedDay := 0 |}
       = if String.eqb "correctPerMinute" "errorsPerMinute"
         then drawXMark (Fin x) (Fin y) (Fin 6) (Some "#22c55e")
         else if (Fin 0 =? Fin 0)%num
              then drawQuestionMark (Fin x) (Fin y) (Some "#22c55e")
              else drawDot (Fin x) (Fin y) (Fin 5) (Some "#22c55e").
Proof.
  apply (markerOps_inside_plot zeroStudent "correctPerMinute"
           (Some "#22c55e") 800 600 140); [lia | lra | lra |].
  left. reflexivity.
Defined.

(** The point the hit test returns lies inside the plot area too: on a
    canvas whose plot has width [W >= 0] and height [H > 0], with a
    positive day span, the pixel of a returned point is finite and within
    [[0, W] x [0, H]]. *)
Theorem handleMouseMove_inside_plot (st : State) (e : MouseEvent) (h : Hit)
    (W H : R) :
  chartWidthOf st = Fin W -> chartHeightOf st = Fin H ->
  0 <= W -> 0 < H -> (0 < zoom st)%Z ->
  handleMouseMove st e = Some h ->
  exists x y, h_x h = Fin x /\ h_y h = Fin y
              /\ 0 <= x <= W /\ 0 <= y <= H.
Proof.
  intros EW EH HW HH Hz Hhit.
  assert (Hout : outsidePlot st e = false).
  { destruct (outsidePlot st e) eqn:Eo; [| reflexivity].
    rewrite (handleMouseMove_outside st e Eo) in Hhit. discriminate. }
  rewrite (handleMouseMove_candidates st e Hout) in Hhit.
  apply nearest_some in Hhit. destruct Hhit as (_ & pre & post & Ec & _).
  assert (Hin : In h (candidates st (chartWidthOf st) (chartHeightOf st)
                        (zoom st))).
  { rewrite Ec. apply in_or_app. right. now left. }
  rewrite candidates_visible in Hin.
  apply in_flat_map in Hin. destruct Hin as (sid & _ & Hin).
  destruct (findStudent st sid) as [student |]; [| contradiction].
  apply in_flat_map in Hin. destruct Hin as (metric & _ & Hin).
  apply in_map_iff in Hin. destruct Hin as (p & <- & Hp).
  apply filter_In in Hp. destruct Hp as (Hp & _).
  rewrite EW, EH. cbn [hitOf h_x h_y vertexOf fst snd].
  destruct (pixelX_range (normalizedDay p) (zoom st) W) as (x & Ex & Hxr);
    [now apply (visiblePoints_range _ _ _ Hp) | assumption | assumption |].
  assert (Hv : value (point p) <> NaN).
  { apply (getDataPoints_not_NaN student metric).
    now apply (visiblePoints_In _ (zoom st)). }
  destruct (valueToY_range _ H Hv HH) as (y & Ey & Hyr).
  exists x, y. now rewrite Ex, Ey.
Qed.

Lemma hit_at_pixel (st : State) (e : MouseEvent) (h : Hit) (px py : R) :
  outsidePlot st e = false ->
  In h (candidates st (chartWidthOf st) (chartHeightOf st) (zoom st)) ->
  h_x h = Fin px -> h_y h = Fin py ->
  pointerX st e = Fin px -> pointerY st e = Fin py ->
  exists h0, handleMouseMove st e = Some h0
             /\ h_x h0 = Fin px /\ h_y h0 = Fin py.
Proof.
  intros Hout Hh Hx Hy Ex Ey.
  rewrite (handleMouseMove_candidates st e Hout).
  assert (Hd : pixelDist (pointerX st e) (pointerY st e) (h_x h) (h_y h)
               = Fin 0).
  { rewrite Hx, Hy, Ex, Ey. apply pixelDist_same. }
  destruct (fst (fold_left (hitStep (pointerX st e) (pointerY st e))
                   (candidates st (chartWidthOf st) (chartHeightOf st)
                      (zoom st)) (None, PInf))) as [h0 |] eqn:E.
  - exists h0. split; [reflexivity |].
    destruct (nearest_some _ _ _ h0 E) as (Hr & pre & post & _ & _ & Hmin).
    specialize (Hmin h Hh). rewrite Hd in Hmin.
    pose proof (pixelDist_not_negative (pointerX st e) (pointerY st e)
                  (h_x h0) (h_y h0)) as Hnn.
    assert (E0 : pixelDist (pointerX st e) (pointerY st e) (h_x h0) (h_y h0)
                 = Fin 0).
    { remember (pixelDist (pointerX st e) (pointerY st e) (h_x h0) (h_y h0))
        as d0 eqn:Ed0.
      clear Ed0. destruct d0 as [r | | |];
        cbn in Hr, Hmin, Hnn; try discriminate.
      destr_dec; try discriminate. f_equal. lra. }
    rewrite Ex, Ey in E0. now apply pixelDist_zero in E0.
  - pose proof (proj1 (nearest_none _ _ _) E h Hh) as Hfar.
    rewrite Hd in Hfar. apply nlt_Fin_false in Hfar. lra.
Qed.

Lemma handleMouseMove_inside_plot_witness :
  exists h,
    handleMouseMove (stateOf clippedStudent 7)
      {| clientX := Fin 80; clientY := Fin (60 + firstPixelY) |} = Some h
    /\ exists x y, h_x h = Fin x /\ h_y h = Fin y
                   /\ 0 <= x <= 800 /\ 0 <= y <= 600.
Proof.
  set (e := {| clientX := Fin 80; clientY := Fin (60 + firstPixelY) |}).
  assert (Ex : pointerX (stateOf clippedStudent 7) e = Fin 0)
    by (unfold pointerX; cbn; f_equal; lra).
  assert (Ey : pointerY (stateOf clippedStudent 7) e = Fin firstPixelY)
    by (unfold pointerY; cbn; f_equal; lra).
  assert (Eo : outsidePlot (stateOf clippedStudent 7) e = false).
  { unfold outsidePlot. rewrite Ex, Ey.
    rewrite chartWidthOf_stateOf, chartHeightOf_stateOf.
    pose proof firstPixelY_bounds. decide_cmp. reflexivity. }
  destruct clipped_first_candidate as (h & Hh & Hx & Hy).
  destruct (hit_at_pixel (stateOf clippedStudent 7) e h 0 firstPixelY)
    as (h0 & E0 & _); try assumption.
  { rewrite chartWidthOf_stateOf, chartHeightOf_stateOf. exact Hh. }
  exists h0. split; [exact E0 |].
  apply (handleMouseMove_inside_plot (stateOf clippedStudent 7) e h0 800 600);
    [apply chartWidthOf_stateOf | apply chartHeightOf_stateOf
    | lra | lra | reflexivity | exact E0].
Defined.

(** ** Zooming *)

Lemma filter_filter_weaker {A} (f g : A -> bool) (l : list A) :
  (forall a, f a = true -> g a = true) ->
  filter f (filter g l) = filter f l.
Proof.
  intros Hfg. induction l as [| a t IH]; [reflexivity |].
  cbn [filter]. destruct (g a) eqn:Eg.
  - cbn [filter]. now rewrite IH.
  - destruct (f a) eqn:Ef; [| exact IH].
    rewrite (Hfg a Ef) in Eg. discriminate.
Qed.

Lemma filter_all {A} (f : A -> bool) (l : list A) :
  (forall a, In a l -> f a = true) -> filter f l = l.
Proof.
  intros Hf. induction l as [| a t IH]; [reflexivity |].
  cbn [filter]. rewrite (Hf a (or_introl eq_refl)). f_equal.
  apply IH. intros b Hb. apply Hf. now right.
Qed.

(** Zooming in only removes points.  The points visible on a shorter
    day span are those visible on a longer one whose normalized day is
    within the shorter span, in the same order and with the same
    normalized days: the day origin of a series does not depend on the
    zoom.  On a span that reaches the last day of the series every
    point is visible. *)
Theorem visiblePoints_zoom (dataPoints : list Point) (xMax xMax' : Z) :
  (xMax <= xMax')%Z ->
  visiblePoints dataPoints xMax
  = filter (fun p => (normalizedDay p <=? xMax)%Z)
      (visiblePoints dataPoints xMax')
  /\ ((forall p, In p dataPoints -> (day p - minDay dataPoints <= xMax')%Z) ->
      visiblePoints dataPoints xMax' = normalizedPoints dataPoints).
Proof.
  intros Hle. split.
  - unfold visiblePoints. symmetry. apply filter_filter_weaker.
    intros a Ha. apply Z.leb_le in Ha. apply Z.leb_le. lia.
  - intros Hall. unfold visiblePoints. apply filter_all.
    intros a Ha. unfold normalizedPoints in Ha.
    apply in_map_iff in Ha. destruct Ha as (p & <- & Hp).
    cbn [normalizedDay]. apply Z.leb_le. now apply Hall.
Qed.

Lemma visiblePoints_zoom_witness :
  visiblePoints (getDataPoints clippedStudent "correctPerMinute") 7
  = filter (fun p => (normalizedDay p <=? 7)%Z)
      (visiblePoints (getDataPoints clippedStudent "correctPerMinute") 30).
Proof.
  apply (visiblePoints_zoom
           (getDataPoints clippedStudent "correctPerMinute") 7 30).
  lia.
Defined.

(** ** The trend segment on the chart *)

Lemma valueToY_pow10 (e H : R) :
  -3 <= e <= 3 ->
  valueToY (Math_pow10 (Fin e)) (Fin H) = Fin (H * (1 - (e + 3) / 6)).
Proof.
  intros He. rewrite Math_pow10_Fin by assumption.
  rewrite (valueToY_clamped _ (Rpow10 e) H).
  - now rewrite Rlog10_pow10.
  - apply clamp_in_range. now apply Rpow10_range.
  - apply Rpow10_pos.
Qed.



(** ** The trend line of points on one day *)

Lemma valueToY_NaN (H : num) : valueToY NaN H = NaN.
Proof. unfold valueToY. destruct H; reflexivity. Qed.


(** With a slope that is NaN or an infinity, the fitted value at a day
    [t >= 0] is NaN: the intercept is NaN or the infinity opposite to
    the slope. *)
Lemma degenerate_ordinate (slope sumY : num) (sx k t : R) :
  slope = NaN \/ slope = PInf \/ slope = NInf ->
  0 <= sx -> 0 < k -> 0 <= t ->
  (((sumY -! slope *! Fin sx) /! Fin k) +! slope *! Fin t)%num = NaN.
Proof.
  intros [-> | [-> | ->]] Hsx Hk Ht; destruct sumY as [y | | |];
    unfold fadd, fsub, fmul, fdiv, nsub; cbn [nmul];
    unfold Rsign; destr_dec; try lra;
    cbn [inf_of CompOpp round nneg nadd ndiv];
    destr_dec; try lra; reflexivity.
Qed.

(** The chart has no guard for a trend line through points of one day.
    When the points of a series with a positive value, two or more, all
    have the same normalized day [d] of the visible range, with
    [n^2 d^2 <= 2^53] so that the sums of the days are not rounded, the
    denominator of the slope is 0: the trend line is still drawn, with
    both ordinates NaN. *)
Theorem celerationOps_same_day (st : State) (color : option string)
    (visible : list NPoint) (chartWidth chartHeight : num) (xMax d : Z) :
  showCelerationLines (displayOptions st) = true ->
  (2 <= List.length (validPoints visible))%nat ->
  (forall p, In p (validPoints visible) -> normalizedDay p = d) ->
  (0 <= d <= xMax)%Z ->
  (Z.of_nat (List.length (validPoints visible))
   * Z.of_nat (List.length (validPoints visible)) * (d * d) <= 2 ^ 53)%Z ->
  celerationOps st color visible chartWidth chartHeight xMax
  = [ strokeStyle color; lineWidth (Fin (3 / 2));
      setLineDash [Fin 5; Fin 5]; globalAlpha (Fin (8 / 10));
      beginPath;
      moveTo (trendStartX (validPoints visible) xMax / ofZ xMax
              * chartWidth)%num NaN;
      lineTo (trendEndX (validPoints visible) xMax / ofZ xMax
              * chartWidth)%num NaN;
      stroke;
      setLineDash []; globalAlpha (Fin 1) ].
Proof.
  intros Hshow Hlen Hday Hd Hb.
  assert (Hvis : (2 <= List.length visible)%nat).
  { pose proof (filter_length_le (fun p => (value (point p) >? Fin 0)%num)
                  visible) as Hf.
    unfold validPoints in Hlen. lia. }
  unfold celerationOps. rewrite Hshow.
  apply Nat.leb_le in Hvis, Hlen. rewrite Hvis, Hlen. cbn [andb].
  apply Nat.leb_le in Hlen.
  unfold drawCelerationLine.
  fold (trendLogPoints (validPoints visible)).
  set (valid := validPoints visible) in *.
  assert (Hne : valid <> []).
  { intros E. rewrite E in Hlen. simpl in Hlen. lia. }
  assert (Hrange : forall p, In p valid -> (0 <= normalizedDay p <= xMax)%Z).
  { intros p Hp. rewrite (Hday p Hp). exact Hd. }
  destruct (trend_span valid xMax Hne Hrange)
    as (mn & mx & _ & _ & _ & _ & Es & Ee & H0 & H1 & _).
  assert (Hlx : forall q, In q (trendLogPoints valid) -> lx q = Fin (IZR d)).
  { intros q Hq. unfold trendLogPoints in Hq. apply in_map_iff in Hq.
    destruct Hq as (p & <- & Hp). cbn [lx]. unfold ofZ.
    now rewrite (Hday p Hp). }
  assert (El : List.length (trendLogPoints valid) = List.length valid).
  { unfold trendLogPoints. apply length_map. }
  assert (Hslope : fitSlope (trendLogPoints valid) = NaN
                   \/ fitSlope (trendLogPoints valid) = PInf
                   \/ fitSlope (trendLogPoints valid) = NInf).
  { unfold fitSlope.
    rewrite (denominator_same_day (trendLogPoints valid) d Hlx)
      by (rewrite El; exact Hb).
    apply fdiv_zero. }
  assert (EX : sumOf lx (trendLogPoints valid)
               = Fin (IZR (Z.of_nat (List.length valid) * d))).
  { rewrite (sumX_int (trendLogPoints valid) (fun _ => d) d).
    - now rewrite Zsum_const, El.
    - exact Hlx.
    - intros. lia.
    - rewrite El. exact Hb. }
  assert (Hsx : 0 <= IZR (Z.of_nat (List.length valid) * d)).
  { apply IZR_le. nia. }
  assert (Hk : 0 < INR (List.length (trendLogPoints valid))).
  { rewrite El. apply lt_0_INR. lia. }
  unfold fitIntercept. rewrite EX, Es, Ee. unfold ofnat.
  rewrite !degenerate_ordinate by (assumption || lra).
  cbn [Math_pow10 round]. now rewrite !valueToY_NaN.
Qed.

Lemma celerationOps_same_day_witness :
  let visible :=
    visiblePoints (getDataPoints sameDayStudent "correctPerMinute") 140 in
  celerationOps (stateOf sameDayStudent 140) (Some "#22c55e") visible
    (Fin 800) (Fin 600) 140
  = [ strokeStyle (Some "#22c55e"); lineWidth (Fin (3 / 2));
      setLineDash [Fin 5; Fin 5]; globalAlpha (Fin (8 / 10));
      beginPath;
      moveTo (trendStartX (validPoints visible) 140 / ofZ 140
              * Fin 800)%num NaN;
      lineTo (trendEndX (validPoints visible) 140 / ofZ 140
              * Fin 800)%num NaN;
      stroke;
      setLineDash []; globalAlpha (Fin 1) ].
Proof.
  intros visible.
  assert (Ev : validPoints visible = visible).
  { subst visible.
    let l := eval cbv -[IZR] in
        (visiblePoints (getDataPoints sameDayStudent "correctPerMinute") 140)
    in change (visiblePoints
                 (getDataPoints sameDayStudent "correctPerMinute") 140)
         with l.
    unfold validPoints. cbn [filter value point]. decide_cmp. reflexivity. }
  apply (celerationOps_same_day (stateOf sameDayStudent 140)
           (Some "#22c55e") visible (Fin 800) (Fin 600) 140 0).
  - reflexivity.
  - rewrite Ev. exact (le_n 2).
  - rewrite Ev. subst visible. intros p Hp.
    cbn in Hp. destruct Hp as [<- | [<- | []]]; reflexivity.
  - lia.
  - rewrite Ev. vm_compute. discriminate.
Defined.

(** ** The sign of the celeration *)

Lemma nearestEven_not_negative (x : R) : 0 <= x -> (0 <= nearestEven x)%Z.
Proof.
  intros Hx. pose proof (Zfloor_bound x) as [Hlo Hhi].
  assert (Hf : (0 <= Zfloor x)%Z).
  { assert (H : (-1 < Zfloor x)%Z) by (apply lt_IZR; lra). lia. }
  unfold nearestEven.
  destruct (Rlt_dec (x - IZR (Zfloor x)) (1 / 2)); [exact Hf |].
  destruct (Rlt_dec (1 / 2) (x - IZR (Zfloor x))); [lia |].
  destruct (Z.even (Zfloor x)); lia.
Qed.

Lemma fl_not_negative (x : R) :
  0 <= x -> fl x = PInf \/ exists y, fl x = Fin y /\ 0 <= y.
Proof.
  intros Hx. unfold fl.
  destruct (Req_dec_T x 0) as [| Hne];
    [right; exists 0; split; [reflexivity | lra] |].
  set (e := Z.max (expo x) (-1022)).
  pose proof (bpow_pos (e - 52)) as Hb.
  assert (Hq : 0 <= x / bpow (e - 52)).
  { apply Rmult_le_pos; [exact Hx |]. apply Rlt_le. now apply Rinv_0_lt_compat. }
  pose proof (nearestEven_not_negative _ Hq) as Hn. apply IZR_le in Hn.
  cbv zeta.
  destruct (Rle_dec (bpow 1024)
              (Rabs (IZR (nearestEven (x / bpow (e - 52))) * bpow (e - 52)))).
  - left. destruct (Rlt_dec 0 x); [reflexivity | lra].
  - right. eexists. split; [reflexivity |]. apply Rmult_le_pos; lra.
Qed.

(** [calculateCeleration] never returns a negative number: its result
    is NaN, Infinity, or a finite number that is 0 or more. *)
Theorem calculateCeleration_not_negative (dataPoints : list Sample) :
  calculateCeleration dataPoints = NaN
  \/ calculateCeleration dataPoints = PInf
  \/ exists r, calculateCeleration dataPoints = Fin r /\ 0 <= r.
Proof.
  destruct (Nat.lt_ge_cases (List.length (positivePoints dataPoints)) 2)
    as [Hlt | Hge].
  - right; right. exists 1. split; [now apply calculateCeleration_few | lra].
  - rewrite calculateCeleration_many by assumption.
    destruct (fitSlope (logPointsOf (positivePoints dataPoints)) *! Fin 7)%num
      as [e | | |]; cbn [Math_pow10].
    + destruct (Rle_dec (bpow 1024 - bpow 970) (Rpow10 e));
        [right; left; reflexivity |].
      destruct (Rle_dec (Rpow10 e) (bpow (-1075))); cbn [round].
      * right; right. exists 0. split; [apply fl_0 | lra].
      * pose proof (Rpow10_pos e) as Hp.
        destruct (fl_not_negative (Rpow10 e)) as [-> | (y & -> & Hy)];
          [lra | now right; left | right; right; now exists y].
    + right; left; reflexivity.
    + right; right. exists 0. split; [apply fl_0 | lra].
    + left; reflexivity.
Qed.

(** ** The trend line and the statistics panel

    The trend line is fitted on the normalized days, the celeration of
    the statistics panel on the calendar days.  For late calendar days
    the two differ. *)

Lemma late_samples : samplesOf correctPerMinute lateStudent = lateSamples.
Proof.
  unfold samplesOf, lateStudent, studentOf, assessmentOf.
  cbn [assessments map flat_map celeration correctPerMinute calendarDay
         fst snd app].
  decide_cmp. reflexivity.
Qed.

Lemma late_valid :
  validPoints
    (visiblePoints (getDataPoints lateStudent "correctPerMinute") 140)
  = visiblePoints (getDataPoints lateStudent "correctPerMinute") 140
  /\ map (fun p => (normalizedDay p, value (point p)))
       (visiblePoints (getDataPoints lateStudent "correctPerMinute") 140)
     = [ (0%Z, Fin 1); (7%Z, Fin 10) ].
Proof.
  split; [| reflexivity].
  apply validPoints_all.
  let l := eval cbv -[IZR] in
      (visiblePoints (getDataPoints lateStudent "correctPerMinute") 140) in
  change (visiblePoints (getDataPoints lateStudent "correctPerMinute") 140)
    with l.
  repeat constructor; unfold ngt; cbn [value point]; apply nlt_Fin; lra.
Qed.

Lemma late_trend_slope :
  fitSlope
    (trendLogPoints
       (validPoints
          (visiblePoints (getDataPoints lateStudent "correctPerMinute") 140)))
  = fl (7 / 49).
Proof.
  rewrite (proj1 late_valid).
  let l := eval cbv -[IZR] in
      (visiblePoints (getDataPoints lateStudent "correctPerMinute") 140) in
  change (visiblePoints (getDataPoints lateStudent "correctPerMinute") 140)
    with l.
  unfold trendLogPoints. cbn [map normalizedDay value point]. unfold ofZ.
  rewrite !Math_log10_Fin by lra. rewrite Rlog10_1, Rlog10_10.
  cbn [round]. rewrite fl_0, (fl_IZR 1 1) by (lra || (cbn; lia)).
  unfold fitSlope, sumOf. cbn [fold_left lx ly List.length].
  rewrite ofnat_IZR. change (Z.of_nat 2) with 2%Z.
  assert (EX : ((Fin 0 +! Fin 0) +! Fin 7)%num = Fin 7).
  { rewrite fadd_Fin, (fl_IZR _ 0) by (lra || (cbn; lia)).
    rewrite fadd_Fin, (fl_IZR _ 7) by (lra || (cbn; lia)).
    f_equal. lra. }
  assert (EY : ((Fin 0 +! Fin 0) +! Fin 1)%num = Fin 1).
  { rewrite fadd_Fin, (fl_IZR _ 0) by (lra || (cbn; lia)).
    rewrite fadd_Fin, (fl_IZR _ 1) by (lra || (cbn; lia)).
    f_equal. lra. }
  assert (EXY : ((Fin 0 +! Fin 0 *! Fin 0) +! Fin 7 *! Fin 1)%num = Fin 7).
  { rewrite !fmul_Fin.
    rewrite (fl_IZR (0 * 0) 0) by (lra || (cbn; lia)).
    rewrite (fl_IZR (7 * 1) 7) by (lra || (cbn; lia)).
    rewrite fadd_Fin, (fl_IZR _ 0) by (lra || (cbn; lia)).
    rewrite fadd_Fin, (fl_IZR _ 7) by (lra || (cbn; lia)).
    f_equal. lra. }
  assert (EX2 : ((Fin 0 +! Fin 0 *! Fin 0) +! Fin 7 *! Fin 7)%num = Fin 49).
  { rewrite !fmul_Fin.
    rewrite (fl_IZR (0 * 0) 0) by (lra || (cbn; lia)).
    rewrite (fl_IZR (7 * 7) 49) by (lra || (cbn; lia)).
    rewrite fadd_Fin, (fl_IZR _ 0) by (lra || (cbn; lia)).
    rewrite fadd_Fin, (fl_IZR _ 49) by (lra || (cbn; lia)).
    f_equal. lra. }
  rewrite EX, EY, EXY, EX2.
  rewrite !fmul_Fin.
  rewrite (fl_IZR (2 * 7) 14), (fl_IZR (7 * 1) 7), (fl_IZR (2 * 49) 98),
    (fl_IZR (7 * 7) 49) by (lra || (cbn; lia)).
  rewrite !fsub_Fin.
  rewrite (fl_IZR (2 * 7 - 7 * 1) 7), (fl_IZR (2 * 49 - 7 * 7) 49)
    by (lra || (cbn; lia)).
  rewrite fdiv_Fin by lra. f_equal. lra.
Qed.

(** The trend line and the statistics panel can disagree.  For the
    values 1 and 10 on the calendar days [10^8] and [10^8 + 7] the line
    is fitted on the normalized days 0 and 7: its slope is the rounded
    1/7, a rise by a factor 10 a week up to [10^-11].  The panel fits
    the calendar days: its slope is the rounded 7/48, and the
    celeration it shows is above 10.3. *)
Theorem trend_differs_from_stats :
  let valid :=
    validPoints
      (visiblePoints (getDataPoints lateStudent "correctPerMinute") 140) in
  let correctData := samplesOf correctPerMinute lateStudent in
  map (fun p => (normalizedDay p, value (point p))) valid
  = [ (0%Z, Fin 1); (7%Z, Fin 10) ]
  /\ map (fun p => (s_day p, s_value p)) (positivePoints correctData)
     = [ (100000000%Z, Fin 1); (100000007%Z, Fin 10) ]
  /\ fitSlope (trendLogPoints valid) = fl (7 / 49)
  /\ fitSlope (logPointsOf (positivePoints correctData)) = fl (7 / 48)
  /\ (exists s, fitSlope (trendLogPoints valid) = Fin s
                /\ Rabs (Rpow10 (s * 7) - 10) <= 1 / 10 ^ 11)
  /\ (exists r, calculateCeleration correctData = Fin r /\ 103 / 10 < r).
Proof.
  intros valid correctData. subst valid correctData.
  rewrite late_samples, late_positive.
  split; [rewrite (proj1 late_valid); apply late_valid |].
  split; [reflexivity |].
  split; [apply late_trend_slope |].
  split; [apply late_slope |].
  split; [| apply late_celeration].
  rewrite late_trend_slope.
  pose proof eps_pos as He0. pose proof eps_small as He1.
  assert (N0 : near 0 (1 / 7) (7 / 49)).
  { replace (7 / 49) with (1 / 7) by lra. apply near_exact. lra. }
  destruct (fl_near _ _ _ N0) as (s & E & [P1 P2]); [lra | lra |].
  exists s. split; [exact E |].
  assert (Hd : Rabs (s * 7 - 1) <= 2 * eps) by (apply Rabs_le; lra).
  destruct (Rpow10_near 1 (s * 7) (2 * eps) Hd) as [Q1 Q2]; [lra |].
  rewrite Rpow10_1 in Q1, Q2. simpl pow. apply Rabs_le. lra.
Qed.

(** ** Loading a file *)

Lemma findIndex_split {A} (f : A -> bool) (l : list A) (i : nat) :
  findIndex f l = Some i ->
  exists l1 x l2,
    l = l1 ++ x :: l2 /\ List.length l1 = i /\ f x = true
    /\ (forall y, In y l1 -> f y = false).
Proof.
  revert i. induction l as [| a t IH]; intros i E; [discriminate |].
  cbn [findIndex] in E. destruct (f a) eqn:Ea.
  - injection E as <-. exists [], a, t. repeat split; auto.
    intros y [].
  - destruct (findIndex f t) as [k |]; [| discriminate].
    injection E as <-.
    destruct (IH k eq_refl) as (l1 & x & l2 & -> & <- & Hx & Hl1).
    exists (a :: l1), x, l2. repeat split; auto.
    intros y [<- | Hy]; auto.
Qed.

Lemma findIndex_none {A} (f : A -> bool) (l : list A) :
  findIndex f l = None -> forall y, In y l -> f y = false.
Proof.
  induction l as [| a t IH]; intros E y Hy; [destruct Hy |].
  cbn [findIndex] in E. destruct (f a) eqn:Ea; [discriminate |].
  destruct (findIndex f t); [discriminate |].
  destruct Hy as [<- | Hy]; auto.
Qed.

Lemma findIndex_middle {A} (f : A -> bool) (l1 l2 : list A) (x : A) :
  (forall y, In y l1 -> f y = false) -> f x = true ->
  findIndex f (l1 ++ x :: l2) = Some (List.length l1).
Proof.
  intros Hl1 Hx. induction l1 as [| a t IH]; cbn [app findIndex List.length].
  - now rewrite Hx.
  - rewrite (Hl1 a (or_introl eq_refl)), IH; [reflexivity |].
    intros y Hy. apply Hl1. now right.
Qed.

Lemma lookup_middle {A} (l1 l2 : list A) (x : A) :
  base.lookup (List.length l1) (l1 ++ x :: l2) = Some x.
Proof. induction l1 as [| a t IH]; [reflexivity | exact IH]. Qed.

Lemma insert_middle {A} (l1 l2 : list A) (x y : A) :
  base.insert (List.length l1) y (l1 ++ x :: l2) = l1 ++ y :: l2.
Proof.
  induction l1 as [| a t IH]; [reflexivity |].
  cbn [List.length app]. change (a :: t ++ y :: l2) with (a :: (t ++ y :: l2)).
  rewrite <- IH. reflexivity.
Qed.

Lemma find_app_none {A} (g : A -> bool) (l1 l2 : list A) :
  (forall y, In y l1 -> g y = false) -> find g (l1 ++ l2) = find g l2.
Proof.
  intros Hl1. induction l1 as [| a t IH]; [reflexivity |].
  cbn [app find]. rewrite (Hl1 a (or_introl eq_refl)).
  apply IH. intros y Hy. apply Hl1. now right.
Qed.

Lemma find_app_some {A} (g : A -> bool) (l1 l2 : list A) (x : A) :
  find g l1 = Some x -> find g (l1 ++ l2) = Some x.
Proof.
  induction l1 as [| a t IH]; [discriminate |].
  cbn [app find]. destruct (g a); auto.
Qed.

Lemma find_middle_ne {A} (g : A -> bool) (l1 l2 : list A) (x y : A) :
  g x = false -> g y = false ->
  find g (l1 ++ x :: l2) = find g (l1 ++ y :: l2).
Proof.
  intros Hx Hy. induction l1 as [| a t IH]; cbn [app find].
  - now rewrite Hx, Hy.
  - now rewrite IH.
Qed.

Lemma find_all_false {A} (g : A -> bool) (l : list A) :
  (forall y, In y l -> g y = false) -> find g l = None.
Proof.
  intros Hl. induction l as [| a t IH]; [reflexivity |].
  cbn [find]. rewrite (Hl a (or_introl eq_refl)).
  apply IH. intros y Hy. apply Hl. now right.
Qed.

Lemma eqb_other (a b j : string) :
  String.eqb a b = true -> j <> b -> String.eqb a j = false.
Proof.
  intros E Hj. apply String.eqb_eq in E. subst a.
  apply String.eqb_neq. congruence.
Qed.

(** What a file with a student id does to the roster.  After the load
    the student is found under its id with the name and the assessments
    of the file; it keeps the color it had when it was on the roster
    already, and gets the next color of the palette, in turn, when it
    is new.  No other student changes, and only a new student is added
    to the selection. *)
Theorem processStudentData_loaded (now : Z) (data : DataFile) (st : State)
    (info : StudentInfo) (newAssessments : list Assessment) :
  d_student data = Some info -> d_assessments data = Some newAssessments ->
  i_id info <> "" ->
  let st' := processStudentData now data st in
  findStudent st' (i_id info)
  = Some {| id := i_id info; name := i_name info;
            assessments := newAssessments;
            color :=
              match findStudent st (i_id info) with
              | Some existing => color existing
              | None =>
                  nth (List.length (students st) mod 8) CONFIG.studentColors ""
              end |}
  /\ (forall j, j <> i_id info -> findStudent st' j = findStudent st j)
  /\ List.length (students st')
     = match findStudent st (i_id info) with
       | Some _ => List.length (students st)
       | None => S (List.length (students st))
       end
  /\ activeStudents st'
     = match findStudent st (i_id info) with
       | Some _ => activeStudents st
       | None => activeStudents st ++ [i_id info]
       end.
Proof.
  intros Hs Ha Hid st'. subst st'. unfold processStudentData.
  rewrite Hs, Ha.
  apply String.eqb_neq in Hid. rewrite Hid.
  unfold findStudent.
  set (f := fun s : Student => String.eqb (id s) (i_id info)).
  destruct (findIndex f (students st)) as [i |] eqn:Ei.
  - destruct (findIndex_split f _ i Ei) as (l1 & x & l2 & El & <- & Hx & Hl1).
    rewrite El, lookup_middle, insert_middle.
    cbn [students activeStudents].
    rewrite !(find_app_none f) by assumption.
    cbn [find]. rewrite Hx.
    unfold f at 1. cbn [id]. rewrite String.eqb_refl.
    split; [reflexivity |].
    split.
    + intros j Hj. apply find_middle_ne.
      * cbn [id]. apply String.eqb_neq. congruence.
      * now apply (eqb_other _ (i_id info)).
    + split; [| reflexivity].
      rewrite !length_app. reflexivity.
  - pose proof (findIndex_none f _ Ei) as Hnone.
    cbn [students activeStudents].
    rewrite (find_all_false f _ Hnone).
    rewrite (find_app_none f) by assumption.
    cbn [find]. unfold f at 1. cbn [id]. rewrite String.eqb_refl.
    split; [reflexivity |].
    split.
    + intros j Hj.
      destruct (find (fun s => String.eqb (id s) j) (students st))
        as [s |] eqn:Ej.
      * now apply find_app_some.
      * rewrite find_app_none.
        -- cbn [find id].
           replace (String.eqb (i_id info) j) with false; [reflexivity |].
           symmetry. apply String.eqb_neq. congruence.
        -- intros y Hy. apply (find_none _ _ Ej y Hy).
    + split; [| reflexivity].
      rewrite length_app. cbn [List.length]. lia.
Qed.

Lemma processStudentData_loaded_witness :
  findStudent
    (processStudentData 0 (fileOf scenarioStudent)
       (initialState {| clientWidth := Fin 960; clientHeight := Fin 720;
                        rect_left := Fin 0; rect_top := Fin 0 |}))
    "s1"
  = Some scenarioStudent.
Proof.
  apply (processStudentData_loaded 0 (fileOf scenarioStudent)
           (initialState {| clientWidth := Fin 960; clientHeight := Fin 720;
                            rect_left := Fin 0; rect_top := Fin 0 |})
           {| i_id := "s1"; i_name := "Ada" |}
           (assessments scenarioStudent)).
  - reflexivity.
  - reflexivity.
  - discriminate.
Defined.

(** Loading the file of a student a second time changes nothing, for a
    file with a student id, whatever the clock says: the record the
    first load stored is replaced by an equal one. *)
Theorem processStudentData_twice (now now' : Z) (data : DataFile)
    (st : State) :
  (forall info, d_student data = Some info -> i_id info <> "") ->
  processStudentData now' data (processStudentData now data st)
  = processStudentData now data st.
Proof.
  intros Hid.
  destruct (d_student data) as [info |] eqn:Hs;
    [| unfold processStudentData; now rewrite Hs].
  destruct (d_assessments data) as [newAssessments |] eqn:Ha;
    [| unfold processStudentData; now rewrite Hs, Ha].
  specialize (Hid info eq_refl). apply String.eqb_neq in Hid.
  set (f := fun s : Student => String.eqb (id s) (i_id info)).
  assert (Hstep : forall t st0,
             processStudentData t data st0
             = match findIndex f (students st0) with
               | Some existingIndex =>
                   match base.lookup existingIndex (students st0) with
                   | Some existing =>
                       {| students :=
                            base.insert existingIndex
                              {| id := i_id info; name := i_name info;
                                 assessments := newAssessments;
                                 color := color existing |}
                              (students st0);
                          activeStudents := activeStudents st0;
                          activeMetrics := activeMetrics st0;
                          displayOptions := displayOptions st0;
                          zoom := zoom st0;
                          canvas := canvas st0 |}
                   | None => st0
                   end
               | None =>
                   {| students :=
                        students st0
                        ++ [ {| id := i_id info; name := i_name info;
                                assessments := newAssessments;
                                color :=
                                  nth (List.length (students st0)
                                       mod List.length CONFIG.studentColors)
                                    CONFIG.studentColors "" |} ];
                      activeStudents := activeStudents st0 ++ [i_id info];
                      activeMetrics := activeMetrics st0;
                      displayOptions := displayOptions st0;
                      zoom := zoom st0;
                      canvas := canvas st0 |}
               end).
  { intros t st0. unfold processStudentData. now rewrite Hs, Ha, Hid. }
  rewrite (Hstep now st).
  destruct (findIndex f (students st)) as [i |] eqn:Ei.
  - destruct (findIndex_split f _ i Ei) as (l1 & x & l2 & El & <- & Hx & Hl1).
    rewrite El, lookup_middle, insert_middle.
    rewrite Hstep.
    cbn [students activeStudents activeMetrics displayOptions zoom canvas].
    rewrite findIndex_middle; [| assumption |].
    + rewrite lookup_middle, insert_middle. reflexivity.
    + unfold f. cbn [id]. apply String.eqb_refl.
  - pose proof (findIndex_none f _ Ei) as Hnone.
    rewrite Hstep.
    cbn [students activeStudents activeMetrics displayOptions zoom canvas].
    rewrite findIndex_middle; [| assumption |].
    + rewrite lookup_middle, insert_middle. reflexivity.
    + unfold f. cbn [id]. apply String.eqb_refl.
Qed.

Lemma processStudentData_twice_witness :
  processStudentData 5 (fileOf scenarioStudent)
    (processStudentData 0 (fileOf scenarioStudent)
       (initialState {| clientWidth := Fin 960; clientHeight := Fin 720;
                        rect_left := Fin 0; rect_top := Fin 0 |}))
  = processStudentData 0 (fileOf scenarioStudent)
      (initialState {| clientWidth := Fin 960; clientHeight := Fin 720;
                       rect_left := Fin 0; rect_top := Fin 0 |}).
Proof.
  apply processStudentData_twice.
  intros info E. injection E as <-. discriminate.
Defined.

Lemma find_findIndex_none {A} (f : A -> bool) (l : list A) :
  find f l = None -> findIndex f l = None.
Proof.
  induction l as [| a t IH]; [reflexivity |].
  cbn [find findIndex]. destruct (f a); [discriminate |].
  intros E. now rewrite (IH E).
Qed.

Lemma processStudentData_new (now : Z) (data : DataFile) (st : State)
    (info : StudentInfo) (newAssessments : list Assessment) :
  let studentId :=
    if String.eqb (i_id info) "" then ("student-" ++ Z_toString now)%string
    else i_id info in
  d_student data = Some info -> d_assessments data = Some newAssessments ->
  findStudent st studentId = None ->
  processStudentData now data st
  = {| students :=
         students st
         ++ [ {| id := i_id info; name := i_name info;
                 assessments := newAssessments;
                 color :=
                   nth (List.length (students st)
                        mod List.length CONFIG.studentColors)
                     CONFIG.studentColors "" |} ];
       activeStudents := activeStudents st ++ [studentId];
       activeMetrics := activeMetrics st;
       displayOptions := displayOptions st;
       zoom := zoom st;
       canvas := canvas st |}.
Proof.
  intros studentId Hs Ha Hnone. unfold processStudentData.
  rewrite Hs, Ha. fold studentId.
  unfold findStudent in Hnone.
  now rewrite (find_findIndex_none _ _ Hnone).
Qed.

Lemma flat_map_ext_In {A B} (f g : A -> list B) (l : list A) :
  (forall a, In a l -> f a = g a) -> flat_map f l = flat_map g l.
Proof.
  intros Hfg. induction l as [| a t IH]; [reflexivity |].
  cbn [flat_map]. rewrite (Hfg a (or_introl eq_refl)). f_equal.
  apply IH. intros b Hb. apply Hfg. now right.
Qed.

Lemma fold_left_ext_In {A B} (f g : B -> A -> B) (l : list A) (b : B) :
  (forall acc a, In a l -> f acc a = g acc a) ->
  fold_left f l b = fold_left g l b.
Proof.
  revert b. induction l as [| a t IH]; intros b Hfg; [reflexivity |].
  cbn [fold_left]. rewrite (Hfg b a (or_introl eq_refl)).
  apply IH. intros acc c Hc. apply Hfg. now right.
Qed.

Lemma find_snoc_other {A} (g : A -> bool) (l : list A) (r : A) :
  g r = false -> find g (l ++ [r]) = find g l.
Proof.
  intros Hr. induction l as [| a t IH]; cbn [app find].
  - now rewrite Hr.
  - now rewrite IH.
Qed.

Lemma existsb_snoc {A} (g : A -> bool) (l : list A) (x : A) :
  existsb g (l ++ [x]) = existsb g l || g x.
Proof. rewrite existsb_app. cbn [existsb]. now rewrite orb_false_r. Qed.

Lemma existsb_eqb_false (j : string) (l : list string) :
  ~ In j l -> existsb (String.eqb j) l = false.
Proof.
  intros Hj. destruct (existsb (String.eqb j) l) eqn:E; [| reflexivity].
  apply existsb_exists in E. destruct E as (x & Hx & Ex).
  apply String.eqb_eq in Ex. subst x. contradiction.
Qed.

Lemma find_ext_In {A} (f g : A -> bool) (l : list A) :
  (forall a, In a l -> f a = g a) -> find f l = find g l.
Proof.
  intros Hfg. induction l as [| a t IH]; [reflexivity |].
  cbn [find]. rewrite (Hfg a (or_introl eq_refl)).
  destruct (g a); [reflexivity |].
  apply IH. intros b Hb. apply Hfg. now right.
Qed.

(** A file without a student id.  The student is put on the roster
    without an id and selected under a generated id,
    ["student-" + Date.now()], that finds no student: the student is
    counted on the roster, but the chart, the hit test and the
    statistics panel are what they were before the load. *)
Theorem processStudentData_no_id (Number_toString : R -> string) (now : Z)
    (data : DataFile) (st : State) (info : StudentInfo)
    (newAssessments : list Assessment) (e : MouseEvent) :
  d_student data = Some info -> d_assessments data = Some newAssessments ->
  i_id info = "" ->
  findStudent st ("student-" ++ Z_toString now) = None ->
  ~ In "" (activeStudents st) ->
  let st' := processStudentData now data st in
  List.length (students st') = S (List.length (students st))
  /\ activeStudents st'
     = activeStudents st ++ [("student-" ++ Z_toString now)%string]
  /\ findStudent st' ("student-" ++ Z_toString now) = None
  /\ drawChart st' = drawChart st
  /\ handleMouseMove st' e = handleMouseMove st e
  /\ updateStats Number_toString st' = updateStats Number_toString st.
Proof.
  intros Hs Ha Hid Hgen Hempty st'.
  set (gen := ("student-" ++ Z_toString now)%string) in *.
  pose proof (processStudentData_new now data st info newAssessments) as Est.
  cbv zeta in Est. rewrite Hid in Est. cbn [String.eqb] in Est.
  specialize (Est Hs Ha Hgen). fold gen in Est.
  subst st'. rewrite Est. clear Est.
  set (r := {| id := ""; name := i_name info; assessments := newAssessments;
               color := nth (List.length (students st)
                             mod List.length CONFIG.studentColors)
                          CONFIG.studentColors "" |}).
  assert (Hgen0 : gen <> "") by (subst gen; discriminate).
  assert (Hfind : forall j, j <> "" ->
            find (fun s => String.eqb (id s) j) (students st ++ [r])
            = find (fun s => String.eqb (id s) j) (students st)).
  { intros j Hj. apply find_snoc_other. cbn [r id].
    apply String.eqb_neq. congruence. }
  assert (Hact : forall j, In j (activeStudents st) -> j <> "").
  { intros j Hj ->. contradiction. }
  split; [cbn [students]; rewrite length_app; cbn [List.length]; lia |].
  split; [reflexivity |].
  split; [unfold findStudent; cbn [students]; rewrite Hfind; assumption |].
  split; [| split].
  - unfold drawChart.
    cbn [canvas zoom activeStudents activeMetrics].
    do 3 f_equal. rewrite flat_map_app. cbn [flat_map].
    unfold findStudent at 2. cbn [students]. rewrite (Hfind gen Hgen0).
    fold (findStudent st gen). rewrite Hgen. cbn [app].
    rewrite app_nil_r. f_equal.
    apply flat_map_ext_In. intros j Hj.
    unfold findStudent. cbn [students]. rewrite (Hfind j (Hact j Hj)).
    reflexivity.
  - unfold handleMouseMove.
    cbn [canvas zoom activeStudents].
    change (pointerX _ e) with (pointerX st e).
    change (pointerY _ e) with (pointerY st e).
    change (chartWidthOf _) with (chartWidthOf st).
    change (chartHeightOf _) with (chartHeightOf st).
    destruct ((pointerX st e <? Fin 0)%num
              || (pointerX st e >? chartWidthOf st)%num
              || (pointerY st e <? Fin 0)%num
              || (pointerY st e >? chartHeightOf st)%num); [reflexivity |].
    f_equal. rewrite fold_left_app. cbn [fold_left].
    unfold hitStudent at 1. unfold findStudent. cbn [students].
    rewrite (Hfind gen Hgen0). fold (findStudent st gen). rewrite Hgen.
    apply fold_left_ext_In. intros acc j Hj.
    unfold hitStudent, findStudent. cbn [students activeMetrics].
    now rewrite (Hfind j (Hact j Hj)).
  - unfold updateStats. cbn [students activeStudents].
    rewrite length_app. cbn [List.length].
    replace (List.length (activeStudents st) + 1 =? 0)%nat with false
      by (symmetry; apply Nat.eqb_neq; lia).
    assert (Hr : existsb (String.eqb (id r)) (activeStudents st ++ [gen])
                 = false).
    { rewrite existsb_snoc. cbn [r id].
      rewrite (existsb_eqb_false "" _ Hempty). cbn [orb].
      apply String.eqb_neq. congruence. }
    rewrite (find_snoc_other _ _ r Hr).
    assert (Hsame :
      find (fun s => existsb (String.eqb (id s)) (activeStudents st ++ [gen]))
        (students st)
      = find (fun s => existsb (String.eqb (id s)) (activeStudents st))
          (students st)).
    { apply find_ext_In. intros s Hin. rewrite existsb_snoc.
      unfold findStudent in Hgen.
      rewrite (find_none _ _ Hgen s Hin). apply orb_false_r. }
    rewrite Hsame.
    destruct (List.length (activeStudents st) =? 0)%nat eqn:El;
      [| reflexivity].
    apply Nat.eqb_eq in El. apply length_zero_iff_nil in El. rewrite El.
    cbn [existsb]. now rewrite find_all_false.
Qed.

Lemma processStudentData_no_id_witness :
  drawChart
    (processStudentData 0
       {| d_student := Some {| i_id := ""; i_name := "Ada" |};
          d_assessments := Some (assessments scenarioStudent) |}
       (stateOf clippedStudent 7))
  = drawChart (stateOf clippedStudent 7).
Proof.
  apply (processStudentData_no_id (fun _ => "") 0
           {| d_student := Some {| i_id := ""; i_name := "Ada" |};
              d_assessments := Some (assessments scenarioStudent) |}
           (stateOf clippedStudent 7)
           {| i_id := ""; i_name := "Ada" |}
           (assessments scenarioStudent)
           {| clientX := Fin 0; clientY := Fin 0 |}).
  - reflexivity.
  - reflexivity.
  - reflexivity.
  - reflexivity.
  - cbn. intros [E | []]. discriminate E.
Defined.

(** ** The roster and the selection *)

Lemma NoDup_snoc {A} (l : list A) (x : A) :
  NoDup l -> ~ In x l -> NoDup (l ++ [x]).
Proof.
  intros Hl Hx. induction Hl as [| a t Ha Ht IH]; cbn [app].
  - constructor; [intros [] | constructor].
  - constructor.
    + intros Hin. apply in_app_or in Hin. destruct Hin as [Hin | [<- | []]].
      * contradiction.
      * apply Hx. now left.
    + apply IH. intros Hin. apply Hx. now right.
Qed.

Lemma NoDup_map_filter {A B} (k : A -> B) (f : A -> bool) (l : list A) :
  NoDup (map k l) -> NoDup (map k (filter f l)).
Proof.
  induction l as [| a t IH]; cbn [map filter]; intros Hl; [constructor |].
  inversion Hl as [| ? ? Hna Hnt]; subst.
  destruct (f a); [| now apply IH].
  cbn [map]. constructor; [| now apply IH].
  intros Hin. apply Hna. apply in_map_iff in Hin.
  destruct Hin as (y & Ey & Hy). apply filter_In in Hy.
  apply in_map_iff. exists y. tauto.
Qed.

Lemma existsb_eqb_In (j : string) (l : list string) :
  existsb (String.eqb j) l = true <-> In j l.
Proof.
  rewrite existsb_exists. split.
  - intros (x & Hx & Ex). apply String.eqb_eq in Ex. now subst.
  - intros Hj. exists j. split; [assumption | apply String.eqb_refl].
Qed.

Lemma find_id_none (l : list Student) (j : string) :
  find (fun s => String.eqb (id s) j) l = None <-> ~ In j (map id l).
Proof.
  split.
  - intros E Hin. apply in_map_iff in Hin. destruct Hin as (s & <- & Hs).
    pose proof (find_none _ _ E s Hs) as Hf. cbn in Hf.
    now rewrite String.eqb_refl in Hf.
  - intros Hj. apply find_all_false. intros s Hs.
    apply String.eqb_neq. intros <-. apply Hj. now apply in_map.
Qed.

Lemma filter_other_In (id0 j : string) (l : list string) :
  In j (filter (fun s => negb (String.eqb s id0)) l) <-> In j l /\ j <> id0.
Proof.
  rewrite filter_In. split; intros (Hj & Hne); split; try assumption.
  - apply negb_true_iff in Hne. now apply String.eqb_neq.
  - apply negb_true_iff. now apply String.eqb_neq.
Qed.

(** The roster and the selection stay consistent.  From a state in
    which the ids of the roster are distinct, no id is selected twice
    and every selected id is on the roster, each of these leads to such
    a state again: the load of a file with a student id, the click on
    the item of a student of the roster, the click on a remove button,
    the change of a metric checkbox and the change of the zoom. *)
Theorem consistent_preserved (st : State) :
  consistent st ->
  (forall now data,
      (forall info, d_student data = Some info -> i_id info <> "") ->
      consistent (processStudentData now data st))
  /\ (forall id0, In id0 (map id (students st)) ->
                  consistent (studentItemClick id0 st))
  /\ (forall id0, consistent (removeButtonClick id0 st))
  /\ (forall metric checked,
         consistent (metricCheckboxChange metric checked st))
  /\ (forall days, consistent (setZoom days st)).
Proof.
  intros (Hids & Hact & Hincl).
  split; [| split; [| split; [| split]]].
  - intros now data Hid. unfold processStudentData.
    destruct (d_student data) as [info |] eqn:Hs; [| now repeat split].
    destruct (d_assessments data) as [newAssessments |];
      [| now repeat split].
    specialize (Hid info eq_refl). apply String.eqb_neq in Hid. rewrite Hid.
    set (f := fun s : Student => String.eqb (id s) (i_id info)).
    destruct (findIndex f (students st)) as [i |] eqn:Ei.
    + destruct (findIndex_split f _ i Ei)
        as (l1 & x & l2 & El & <- & Hx & Hl1).
      rewrite El in *. rewrite lookup_middle, insert_middle.
      assert (Em : map id
                     (l1 ++ {| id := i_id info; name := i_name info;
                               assessments := newAssessments;
                               color := color x |} :: l2)
                   = map id (l1 ++ x :: l2)).
      { rewrite !map_app. cbn [map id].
        unfold f in Hx. apply String.eqb_eq in Hx. now rewrite Hx. }
      unfold consistent. cbn [students activeStudents]. rewrite Em.
      now repeat split.
    + pose proof (findIndex_none f _ Ei) as Hnone.
      assert (Hnew : ~ In (i_id info) (map id (students st))).
      { apply find_id_none. now apply find_all_false. }
      unfold consistent. cbn [students activeStudents].
      rewrite map_app. cbn [map id].
      split; [now apply NoDup_snoc |].
      split.
      * apply NoDup_snoc; [assumption |].
        intros Hin. apply Hnew. now apply Hincl.
      * intros j Hj. apply in_app_or in Hj. apply in_or_app.
        destruct Hj as [Hj | Hj]; [left; now apply Hincl | now right].
  - intros id0 Hid0. unfold consistent, studentItemClick.
    cbn [students activeStudents].
    split; [assumption |].
    destruct (existsb (String.eqb id0) (activeStudents st)) eqn:Ex.
    + split; [now apply NoDup_filter |].
      intros j Hj. apply filter_In in Hj. apply Hincl, Hj.
    + split.
      * apply NoDup_snoc; [assumption |].
        intros Hin. apply existsb_eqb_In in Hin. congruence.
      * intros j Hj. apply in_app_or in Hj.
        destruct Hj as [Hj | [<- | []]]; [now apply Hincl | assumption].
  - intros id0. unfold consistent, removeButtonClick.
    cbn [students activeStudents].
    split; [now apply NoDup_map_filter |].
    split; [now apply NoDup_filter |].
    intros j Hj. apply filter_other_In in Hj. destruct Hj as (Hj & Hne).
    apply Hincl in Hj. apply in_map_iff in Hj.
    destruct Hj as (s & Es & Hs). apply in_map_iff. exists s.
    split; [assumption |]. apply filter_In. split; [assumption |].
    apply negb_true_iff. apply String.eqb_neq. congruence.
  - intros metric checked. now repeat split.
  - intros days. now repeat split.
Qed.

Lemma consistent_preserved_witness :
  consistent
    (removeButtonClick "s1"
       (processStudentData 0 (fileOf scenarioStudent)
          (initialState {| clientWidth := Fin 960; clientHeight := Fin 720;
                           rect_left := Fin 0; rect_top := Fin 0 |}))).
Proof.
  apply consistent_preserved.
  apply consistent_preserved.
  - repeat split; try constructor. intros j [].
  - intros info E. injection E as <-. discriminate.
Defined.

Lemma find_filter_other (l : list Student) (id0 j : string) :
  j <> id0 ->
  find (fun s => String.eqb (id s) j)
    (filter (fun s => negb (String.eqb (id s) id0)) l)
  = find (fun s => String.eqb (id s) j) l.
Proof.
  intros Hj. induction l as [| a t IH]; [reflexivity |].
  cbn [filter find]. destruct (String.eqb (id a) id0) eqn:E0; cbn [negb].
  - rewrite (eqb_other _ _ j E0 Hj). exact IH.
  - cbn [find]. now rewrite IH.
Qed.

(** The remove button removes the student from the roster and from the
    selection, and leaves every other student as it is, on the roster
    and in the selection. *)
Theorem removeButtonClick_removes (id0 : string) (st : State) :
  let st' := removeButtonClick id0 st in
  findStudent st' id0 = None
  /\ ~ In id0 (activeStudents st')
  /\ (forall j, j <> id0 ->
        findStudent st' j = findStudent st j
        /\ (In j (activeStudents st') <-> In j (activeStudents st))).
Proof.
  intros st'. subst st'. unfold findStudent, removeButtonClick.
  cbn [students activeStudents].
  split.
  - apply find_all_false. intros s Hs. apply filter_In in Hs.
    destruct Hs as (_ & Hs). now apply negb_true_iff in Hs.
  - split.
    + intros Hin. apply filter_other_In in Hin. now destruct Hin.
    + intros j Hj. split; [now apply find_filter_other |].
      rewrite filter_other_In. tauto.
Qed.

(** Removing a student that was just loaded as a new one restores the
    state before the load. *)
Theorem load_then_remove (now : Z) (data : DataFile) (st : State)
    (info : StudentInfo) (newAssessments : list Assessment) :
  d_student data = Some info -> d_assessments data = Some newAssessments ->
  i_id info <> "" ->
  findStudent st (i_id info) = None ->
  ~ In (i_id info) (activeStudents st) ->
  removeButtonClick (i_id info) (processStudentData now data st) = st.
Proof.
  intros Hs Ha Hid Hnone Hact.
  pose proof (processStudentData_new now data st info newAssessments) as Est.
  cbv zeta in Est. apply String.eqb_neq in Hid. rewrite Hid in Est.
  rewrite (Est Hs Ha Hnone). clear Est.
  unfold removeButtonClick. cbn [students activeStudents activeMetrics
                                  displayOptions zoom canvas].
  rewrite !filter_app. cbn [filter id]. rewrite String.eqb_refl. cbn [negb].
  rewrite !app_nil_r.
  rewrite (filter_all _ (students st)), (filter_all _ (activeStudents st)).
  - now destruct st.
  - intros j Hj. apply negb_true_iff. apply String.eqb_neq. congruence.
  - intros s Hin. unfold findStudent in Hnone.
    now rewrite (find_none _ _ Hnone s Hin).
Qed.

Lemma load_then_remove_witness :
  removeButtonClick "s1"
    (processStudentData 0 (fileOf scenarioStudent)
       (initialState {| clientWidth := Fin 960; clientHeight := Fin 720;
                        rect_left := Fin 0; rect_top := Fin 0 |}))
  = initialState {| clientWidth := Fin 960; clientHeight := Fin 720;
                    rect_left := Fin 0; rect_top := Fin 0 |}.
Proof.
  apply (load_then_remove 0 (fileOf scenarioStudent)
           (initialState {| clientWidth := Fin 960; clientHeight := Fin 720;
                            rect_left := Fin 0; rect_top := Fin 0 |})
           {| i_id := "s1"; i_name := "Ada" |}
           (assessments scenarioStudent)).
  - reflexivity.
  - reflexivity.
  - discriminate.
  - reflexivity.
  - intros [].
Defined.

(** A click on the item of a student toggles its selection and no
    other: the student is selected afterwards exactly when it was not
    before.  A second click on a student that was not selected restores
    the state. *)
Theorem studentItemClick_toggle (id0 : string) (st : State) :
  let st' := studentItemClick id0 st in
  (In id0 (activeStudents st') <-> ~ In id0 (activeStudents st))
  /\ (forall j, j <> id0 ->
        (In j (activeStudents st') <-> In j (activeStudents st)))
  /\ (~ In id0 (activeStudents st) -> studentItemClick id0 st' = st).
Proof.
  intros st'. subst st'. unfold studentItemClick.
  cbn [students activeStudents activeMetrics displayOptions zoom canvas].
  destruct (existsb (String.eqb id0) (activeStudents st)) eqn:Ex.
  - pose proof (proj1 (existsb_eqb_In id0 _) Ex) as Hin.
    split; [| split].
    + rewrite filter_other_In. tauto.
    + intros j Hj. rewrite filter_other_In. tauto.
    + tauto.
  - assert (Hnot : ~ In id0 (activeStudents st)).
    { intros Hin. apply existsb_eqb_In in Hin. congruence. }
    split; [| split].
    + split; [tauto |]. intros _. apply in_or_app. right. now left.
    + intros j Hj. split.
      * intros Hin. apply in_app_or in Hin.
        destruct Hin as [Hin | [<- | []]]; [assumption | congruence].
      * intros Hin. apply in_or_app. now left.
    + intros _. rewrite existsb_snoc, Ex, String.eqb_refl. cbn [orb].
      rewrite filter_app. cbn [filter]. rewrite String.eqb_refl. cbn [negb].
      rewrite app_nil_r, filter_all.
      * now destruct st.
      * intros j Hj. apply negb_true_iff. apply String.eqb_neq. congruence.
Qed.

Lemma studentItemClick_toggle_witness :
  studentItemClick "s1"
    (studentItemClick "s1"
       (initialState {| clientWidth := Fin 960; clientHeight := Fin 720;
                        rect_left := Fin 0; rect_top := Fin 0 |}))
  = initialState {| clientWidth := Fin 960; clientHeight := Fin 720;
                    rect_left := Fin 0; rect_top := Fin 0 |}.
Proof.
  apply (studentItemClick_toggle "s1"
           (initialState {| clientWidth := Fin 960; clientHeight := Fin 720;
                            rect_left := Fin 0; rect_top := Fin 0 |})).
  intros [].
Defined.

(** A metric checkbox sets its metric and no other: the metric is
    active afterwards exactly when the box is checked.  A metric is
    never listed twice, and the same change again changes nothing. *)
Theorem metricCheckboxChange_sets (metric : string) (checked : bool)
    (st : State) :
  let st' := metricCheckboxChange metric checked st in
  (In metric (activeMetrics st') <-> checked = true)
  /\ (forall m, m <> metric ->
        (In m (activeMetrics st') <-> In m (activeMetrics st)))
  /\ (NoDup (activeMetrics st) -> NoDup (activeMetrics st'))
  /\ metricCheckboxChange metric checked st' = st'.
Proof.
  intros st'. subst st'. unfold metricCheckboxChange.
  cbn [students activeStudents activeMetrics displayOptions zoom canvas].
  destruct checked.
  - destruct (existsb (String.eqb metric) (activeMetrics st)) eqn:Ex;
      cbn [negb].
    + pose proof (proj1 (existsb_eqb_In metric _) Ex) as Hin.
      rewrite Ex. cbn [negb]. repeat split; tauto.
    + assert (Hnot : ~ In metric (activeMetrics st)).
      { intros Hin. apply existsb_eqb_In in Hin. congruence. }
      rewrite existsb_snoc, Ex, String.eqb_refl. cbn [orb negb].
      split; [| split; [| split]].
      * split; [reflexivity |]. intros _. apply in_or_app. right. now left.
      * intros m Hm. split.
        -- intros Hin. apply in_app_or in Hin.
           destruct Hin as [Hin | [<- | []]]; [assumption | congruence].
        -- intros Hin. apply in_or_app. now left.
      * intros Hnd. now apply NoDup_snoc.
      * reflexivity.
  - split; [| split; [| split]].
    + rewrite filter_other_In. split; [tauto | discriminate].
    + intros m Hm. rewrite filter_other_In. tauto.
    + intros Hnd. now apply NoDup_filter.
    + f_equal. apply filter_all. intros m Hm. apply filter_In in Hm. apply Hm.
Qed.

Lemma metricCheckboxChange_sets_witness :
  NoDup
    (activeMetrics
       (metricCheckboxChange "wpm" true
          (initialState {| clientWidth := Fin 960; clientHeight := Fin 720;
                           rect_left := Fin 0; rect_top := Fin 0 |}))).
Proof.
  apply (metricCheckboxChange_sets "wpm" true
           (initialState {| clientWidth := Fin 960; clientHeight := Fin 720;
                            rect_left := Fin 0; rect_top := Fin 0 |})).
  cbn. repeat constructor; cbn; intuition discriminate.
Defined.

(** ** The student of the statistics panel *)

(** The panel shows the celerations of the first student of the roster
    that is selected, whatever the order of the selection is, and
    computes none when no student of the roster is selected. *)
Theorem updateStats_first_selected (Number_toString : R -> string)
    (st : State) :
  (updateStats Number_toString st = None
   <-> forall s, In s (students st) -> ~ In (id s) (activeStudents st))
  /\ (forall l1 s l2,
        students st = l1 ++ s :: l2 ->
        In (id s) (activeStudents st) ->
        (forall s', In s' l1 -> ~ In (id s') (activeStudents st)) ->
        updateStats Number_toString st
        = Some {| correctCeleration :=
                    formatCeleration Number_toString
                      (calculateCeleration (samplesOf correctPerMinute s));
                  errorCeleration :=
                    formatCeleration Number_toString
                      (calculateCeleration (samplesOf errorsPerMinute s)) |}).
Proof.
  unfold updateStats.
  set (sel := fun s : Student =>
                existsb (String.eqb (id s)) (activeStudents st)).
  split.
  - split.
    + intros E s Hs Hin.
      destruct (List.length (activeStudents st) =? 0)%nat eqn:El.
      * apply Nat.eqb_eq in El. apply length_zero_iff_nil in El.
        rewrite El in Hin. destruct Hin.
      * destruct (find sel (students st)) eqn:Ef; [discriminate |].
        pose proof (find_none _ _ Ef s Hs) as Hf. unfold sel in Hf.
        apply existsb_eqb_In in Hin. congruence.
    + intros Hnone.
      destruct (List.length (activeStudents st) =? 0)%nat; [reflexivity |].
      rewrite find_all_false; [reflexivity |].
      intros s Hs. unfold sel. apply existsb_eqb_false. now apply Hnone.
  - intros l1 s l2 El Hs Hl1.
    destruct (List.length (activeStudents st) =? 0)%nat eqn:E0.
    + apply Nat.eqb_eq in E0. apply length_zero_iff_nil in E0.
      rewrite E0 in Hs. destruct Hs.
    + rewrite El, find_app_none.
      * cbn [find]. unfold sel at 1.
        now rewrite (proj2 (existsb_eqb_In (id s) _) Hs).
      * intros y Hy. unfold sel. apply existsb_eqb_false. now apply Hl1.
Qed.

Lemma updateStats_first_selected_witness :
  updateStats (fun _ => "") (stateOf scenarioStudent 140)
  = Some {| correctCeleration :=
              formatCeleration (fun _ => "")
                (calculateCeleration
                   (samplesOf correctPerMinute scenarioStudent));
            errorCeleration :=
              formatCeleration (fun _ => "")
                (calculateCeleration
                   (samplesOf errorsPerMinute scenarioStudent)) |}.
Proof.
  apply (proj2 (updateStats_first_selected (fun _ => "")
                  (stateOf scenarioStudent 140)) [] scenarioStudent []).
  - reflexivity.
  - left. reflexivity.
  - intros s' [].
Defined.

(** ** Escaping *)

Lemma list_ascii_app (a b : string) :
  list_ascii_of_string (a ++ b)
  = list_ascii_of_string a ++ list_ascii_of_string b.
Proof.
  induction a as [| c a IH]; [reflexivity |].
  simpl. f_equal. exact IH.
Qed.

Lemma escapeChar_no_markup (c : ascii) :
  forallb (fun d => negb (isMarkup d)) (list_ascii_of_string (escapeChar c))
  = true.
Proof.
  unfold escapeChar.
  destruct (Ascii.eqb c "&") eqn:E1; [reflexivity |].
  destruct (Ascii.eqb c "<") eqn:E2; [reflexivity |].
  destruct (Ascii.eqb c ">") eqn:E3; [reflexivity |].
  destruct (Ascii.eqb c (ascii_of_nat 34)) eqn:E4; [reflexivity |].
  destruct (Ascii.eqb c "'") eqn:E5; [reflexivity |].
  cbn [list_ascii_of_string forallb]. unfold isMarkup.
  now rewrite E2, E3, E4, E5.
Qed.

Lemma escapeChar_plain (c : ascii) :
  isSpecial c = false -> escapeChar c = String c "".
Proof.
  unfold isSpecial, isMarkup, escapeChar. intros E.
  destruct (Ascii.eqb c "&"); [discriminate |].
  destruct (Ascii.eqb c "<"); [discriminate |].
  destruct (Ascii.eqb c ">"); [discriminate |].
  destruct (Ascii.eqb c (ascii_of_nat 34)); [discriminate |].
  destruct (Ascii.eqb c "'"); [discriminate | reflexivity].
Qed.

(** The escaped text has none of the characters [<], [>] and the two
    quotes, so that it cannot open or close a tag or an attribute value;
    a text without the five characters the function replaces is
    returned as it is. *)
Theorem escapeHtml_no_markup (str : string) :
  forallb (fun d => negb (isMarkup d)) (list_ascii_of_string (escapeHtml str))
  = true
  /\ (forallb (fun d => negb (isSpecial d)) (list_ascii_of_string str) = true ->
      escapeHtml str = str).
Proof.
  split.
  - induction str as [| c rest IH]; [reflexivity |].
    cbn [escapeHtml]. rewrite list_ascii_app, forallb_app, IH.
    now rewrite escapeChar_no_markup.
  - induction str as [| c rest IH]; [reflexivity |].
    cbn [list_ascii_of_string forallb escapeHtml]. intros E.
    apply andb_true_iff in E. destruct E as (Ec & Erest).
    apply negb_true_iff in Ec.
    rewrite (escapeChar_plain c Ec), (IH Erest). reflexivity.
Qed.

Lemma escapeHtml_no_markup_witness :
  escapeHtml "Ada B." = "Ada B.".
Proof.
  apply (escapeHtml_no_markup "Ada B."). reflexivity.
Defined.

Lemma escapeChar_prefix (c1 c2 : ascii) (r1 r2 : string) :
  (escapeChar c1 ++ r1)%string = (escapeChar c2 ++ r2)%string ->
  c1 = c2 /\ r1 = r2.
Proof.
  unfold escapeChar.
  let q := eval vm_compute in (ascii_of_nat 34) in
  change (ascii_of_nat 34) with q.
  repeat match goal with
         | |- context [Ascii.eqb ?c ?k] => destruct (Ascii.eqb_spec c k)
         end;
    subst; cbv [String.append]; intros E; split; congruence.
Qed.

Lemma escapeChar_not_empty (c : ascii) (r : string) :
  (escapeChar c ++ r)%string <> "".
Proof.
  unfold escapeChar.
  repeat match goal with
         | |- context [Ascii.eqb ?c ?k] => destruct (Ascii.eqb c k)
         end;
    discriminate.
Qed.

(** Escaping loses nothing: two texts with the same escaped text are
    the same text. *)
Theorem escapeHtml_injective (s1 s2 : string) :
  escapeHtml s1 = escapeHtml s2 -> s1 = s2.
Proof.
  revert s2. induction s1 as [| c1 r1 IH]; intros [| c2 r2] E;
    cbn [escapeHtml] in E.
  - reflexivity.
  - symmetry in E. now apply escapeChar_not_empty in E.
  - now apply escapeChar_not_empty in E.
  - apply escapeChar_prefix in E. destruct E as (-> & E).
    now rewrite (IH r2 E).
Qed.

Lemma escapeHtml_injective_witness : "a<b" = "a<b".
Proof. apply (escapeHtml_injective "a<b" "a<b"). reflexivity. Defined.

(** ** The week labels of the grid *)

Lemma forLoop_In (fuel : nat) (i to step : Z) (body : Z -> list op) (o : op) :
  In o (forLoop fuel i to step body) ->
  exists n : nat,
    (i + Z.of_nat n * step <= to)%Z /\ In o (body (i + Z.of_nat n * step)%Z).
Proof.
  revert i. induction fuel as [| fuel IH]; intros i Hin; [destruct Hin |].
  cbn [forLoop] in Hin. destruct (i <=? to)%Z eqn:Ei; [| destruct Hin].
  apply in_app_or in Hin. destruct Hin as [Hin | Hin].
  - exists 0%nat. rewrite Z.mul_0_l, Z.add_0_r.
    split; [now apply Z.leb_le | assumption].
  - destruct (IH _ Hin) as (n & Hle & Hn). exists (S n).
    replace (i + Z.of_nat (S n) * step)%Z
      with (i + step + Z.of_nat n * step)%Z by lia.
    now split.
Qed.

(** The labels of the grid are week numbers within the day span.  On a
    plot of positive width and a positive day span, every text the grid
    draws is the number of a week, a multiple of the week interval of
    the zoom level, whose first day is within the span; it is drawn 8 px
    above the plot at the abscissa of that day, inside the plot width.
    Week 0 is always labelled. *)
Theorem drawGrid_week_labels (W H : R) (xMax : Z)
    (zoomConfig : CONFIG.ZoomLevel) :
  0 < W -> (0 < xMax)%Z -> (0 <= CONFIG.weekInterval zoomConfig)%Z ->
  (forall s x y,
      In (fillText s x y) (drawGrid (Fin W) (Fin H) xMax zoomConfig) ->
      exists n : nat,
        let week := (Z.of_nat n * CONFIG.weekInterval zoomConfig)%Z in
        (7 * week <= xMax)%Z
        /\ s = Z_toString week
        /\ x = Fin (IZR week * 7 / IZR xMax * W)
        /\ y = Fin (-8)
        /\ 0 <= IZR week * 7 / IZR xMax * W <= W)
  /\ In (fillText "0" (Fin 0) (Fin (-8)))
       (drawGrid (Fin W) (Fin H) xMax zoomConfig).
Proof.
  intros HW Hx Hstep.
  assert (Hz : IZR xMax <> 0) by (apply not_0_IZR; lia).
  assert (Hzp : 0 < IZR xMax) by now apply (IZR_lt 0).
  assert (Hbody : forall week,
            (ofZ week * Fin 7 / ofZ xMax * Fin W)%num
            = Fin (IZR week * 7 / IZR xMax * W)).
  { intros week. unfold ofZ. cbn [nmul]. now rewrite ndiv_Fin. }
  split.
  - intros s x y Hin. unfold drawGrid in Hin.
    apply in_app_or in Hin. destruct Hin as [Hin | Hin].
    { cbn in Hin. intuition discriminate. }
    apply in_app_or in Hin. destruct Hin as [Hin | Hin].
    { apply forLoop_In in Hin. destruct Hin as (n & _ & Hin).
      cbn in Hin. intuition discriminate. }
    apply in_app_or in Hin. destruct Hin as [Hin | Hin].
    { cbn in Hin. intuition discriminate. }
    apply in_app_or in Hin. destruct Hin as [Hin | Hin].
    + apply forLoop_In in Hin. destruct Hin as (n & _ & Hin).
      rewrite Z.add_0_l in Hin. cbv zeta in Hin. rewrite Hbody in Hin.
      destruct (Fin (IZR (Z.of_nat n * CONFIG.weekInterval zoomConfig) * 7
                     / IZR xMax * W) <=? Fin W)%num eqn:Ele;
        [| destruct Hin].
      destruct Hin as [E | []]. injection E as <- <- <-.
      apply nle_Fin in Ele. exists n. cbv zeta.
      set (week := (Z.of_nat n * CONFIG.weekInterval zoomConfig)%Z) in *.
      assert (Hw0 : 0 <= IZR week) by (apply (IZR_le 0); subst week; lia).
      assert (Hq : IZR week * 7 / IZR xMax <= 1).
      { apply Rnot_lt_le. intros Hgt.
        assert (W * 1 < W * (IZR week * 7 / IZR xMax))
          by (apply Rmult_lt_compat_l; assumption).
        lra. }
      assert (Hle : IZR week * 7 <= IZR xMax).
      { apply (Rmult_le_compat_r (IZR xMax)) in Hq; [| lra].
        unfold Rdiv in Hq. rewrite Rmult_assoc, Rinv_l in Hq by assumption.
        lra. }
      split.
      { apply le_IZR. rewrite mult_IZR. lra. }
      split; [reflexivity |]. split; [reflexivity |]. split; [reflexivity |].
      split; [| assumption].
      apply Rmult_le_pos; [| lra].
      apply Rmult_le_pos; [lra |]. apply Rlt_le. now apply Rinv_0_lt_compat.
    + apply in_flat_map in Hin. destruct Hin as (v & _ & Hin).
      cbn in Hin. intuition discriminate.
  - unfold drawGrid.
    apply in_or_app. right. apply in_or_app. right.
    apply in_or_app. right. apply in_or_app. left.
    rewrite Nat.add_1_r. cbn [forLoop].
    assert (Hmax : (0 <= maxWeeksOf xMax)%Z).
    { unfold maxWeeksOf.
      assert ((- xMax) / 7 <= 0)%Z; [| lia].
      apply Z.div_le_upper_bound; lia. }
    apply Z.leb_le in Hmax. rewrite Hmax.
    apply in_or_app. left. cbv zeta. rewrite Hbody.
    replace (IZR 0 * 7 / IZR xMax * W) with 0 by (field; assumption).
    replace (Fin 0 <=? Fin W)%num with true
      by (symmetry; apply nle_Fin; lra).
    left. reflexivity.
Qed.

Lemma drawGrid_week_labels_witness :
  In (fillText "0" (Fin 0) (Fin (-8)))
    (drawGrid (Fin 800) (Fin 600) 7 CONFIG.zoom7).
Proof.
  apply (drawGrid_week_labels 800 600 7 CONFIG.zoom7); [lra | lia |].
  cbn. lia.
Defined.
